(** * Scheduling engine of sentinel-dot/book: availability and booking services

    A shallow embedding of
      backend/src/services/availabilityService.ts  (AvailabilityService)
      backend/src/services/bookingService.ts       (BookingService)
    and the properties of the specification stated over it.  The booking
    service comes in two versions in the repository; the first one is
    embedded.  The second differs in the wording of two messages ("Booking
    is already cancelled", "Cancellation must be made at least N hours
    before the booking"), in two more updatable columns and in passing the
    parameters through [sanitizeForMySQL]; the checks and their order are the
    same.

    JavaScript numbers are integers of [Z] together with [NaN], and where a
    statement reaches beyond 2^53 the rounding of the doubles is written out
    ([Double]); the MySQL tables are lists of rows in storage order;
    asynchronous calls are run to completion in sequence, so a query is a
    pure function of the database value and the booking ledger is threaded
    explicitly through the writers.  What the services take from their
    platform (the [Date] functions and the time zone behind them,
    [toLowerCase], the [Date] object of a DATE column and its printed form,
    the store's answer to an [UPDATE]) is a record of functions, with an
    engine in UTC and one in Europe/Berlin as instances. *)

From Stdlib Require Import ZArith List String Ascii Bool Lia Arith.
From Stdlib Require Import DecimalString DecimalZ DecimalN DecimalPos.
From Stdlib Require QArith.
From Stdlib Require Import Sorted.
Import ListNotations.

#[local] Open Scope string_scope.
#[local] Open Scope list_scope.
#[local] Open Scope Z_scope.

(* ================================================================== *)
(** ** The JavaScript primitives the services rely on *)
(* ================================================================== *)

Module JS.

(** A JavaScript number, as far as the engine uses them: an integer or NaN. *)
Inductive number : Type :=
| Num (z : Z)
| NaN.

Definition add (a b : number) : number :=
  match a, b with
  | Num x, Num y => Num (x + y)
  | _, _ => NaN
  end.

Definition sub (a b : number) : number :=
  match a, b with
  | Num x, Num y => Num (x - y)
  | _, _ => NaN
  end.

Definition mul (a b : number) : number :=
  match a, b with
  | Num x, Num y => Num (x * y)
  | _, _ => NaN
  end.

(** Relational operators: every comparison with NaN is false. *)
Definition lt (a b : number) : bool :=
  match a, b with
  | Num x, Num y => x <? y
  | _, _ => false
  end.

Definition le (a b : number) : bool :=
  match a, b with
  | Num x, Num y => x <=? y
  | _, _ => false
  end.

Definition ge (a b : number) : bool := le b a.

(** [a === b] on numbers. *)
Definition strictEq (a b : number) : bool :=
  match a, b with
  | Num x, Num y => x =? y
  | _, _ => false
  end.

(** StrWhiteSpaceChar, ASCII part: TAB, LF, VT, FF, CR, SP. *)
Definition isWhiteSpace (c : ascii) : bool :=
  let n := nat_of_ascii c in
  ((9 <=? n) && (n <=? 13))%nat || (n =? 32)%nat.

Fixpoint trimStart (s : string) : string :=
  match s with
  | EmptyString => EmptyString
  | String c r => if isWhiteSpace c then trimStart r else s
  end.

Fixpoint trimEnd (s : string) : string :=
  match s with
  | EmptyString => EmptyString
  | String c r =>
      match trimEnd r with
      | EmptyString => if isWhiteSpace c then EmptyString else String c EmptyString
      | r' => String c r'
      end
  end.

Definition trim (s : string) : string := trimEnd (trimStart s).

(** A non-empty run of decimal digits, read in base ten. *)
Definition decimalDigits (s : string) : number :=
  match NilZero.uint_of_string s with
  | Some d => Num (Z.of_uint d)
  | None => NaN
  end.

(** [Number(s)] on a string (StringToNumber), for the integer literals:
    optional white space around an optionally signed run of decimal digits,
    and the blank string, which is 0.  Literals with a fraction, an exponent,
    a radix prefix or [Infinity] denote values outside [number]; they are
    sent to [NaN] here, and the statements about parsed times below are made
    for strings inside the integer fragment. *)
Definition Number (s : string) : number :=
  match trim s with
  | EmptyString => Num 0
  | String c r =>
      if Ascii.eqb c "+" then decimalDigits r
      else if Ascii.eqb c "-" then mul (Num (-1)) (decimalDigits r)
      else decimalDigits (String c r)
  end.

(** [s.split(sep)] for a one-character separator: never the empty array. *)
Fixpoint split (sep : ascii) (s : string) : list string :=
  match s with
  | EmptyString => [EmptyString]
  | String c r =>
      if Ascii.eqb c sep then EmptyString :: split sep r
      else match split sep r with
           | h :: t => String c h :: t
           | [] => [String c EmptyString]
           end
  end.

(** [n.toString()] for an integer. *)
Definition toString (n : Z) : string := NilZero.string_of_int (Z.to_int n).

Fixpoint repeat_char (c : ascii) (n : nat) : string :=
  match n with
  | O => EmptyString
  | S k => String c (repeat_char c k)
  end.

(** [s.padStart(len, c)] for a one-character filler. *)
Definition padStart (len : nat) (c : ascii) (s : string) : string :=
  (repeat_char c (len - String.length s) ++ s)%string.

(** [Math.floor(a / b)] for integers and a positive divisor, and [a % b]
    (the remainder takes the sign of the dividend). *)
Definition floorDiv (a b : Z) : Z := a / b.
Definition remainder (a b : Z) : Z := Z.rem a b.

Definition lowerChar (c : ascii) : ascii :=
  let n := nat_of_ascii c in
  if ((65 <=? n) && (n <=? 90))%nat then ascii_of_nat (n + 32) else c.

(** [s.toLowerCase()] of a string of ASCII characters: the letters A to Z
    are mapped, every other byte is kept.  On other strings the engine's
    function does more; the services take it from their platform. *)
Fixpoint toLowerCaseASCII (s : string) : string :=
  match s with
  | EmptyString => EmptyString
  | String c r => String (lowerChar c) (toLowerCaseASCII r)
  end.

(** Truthiness of the values the services test with [if], [||] and [&&]. *)
Definition truthyString (s : string) : bool := negb (String.eqb s EmptyString).
Definition truthyNumber (n : Z) : bool := negb (n =? 0).

Definition truthyOptString (o : option string) : bool :=
  match o with Some s => truthyString s | None => false end.
Definition truthyOptNumber (o : option Z) : bool :=
  match o with Some n => truthyNumber n | None => false end.

(** [a || b] where [a] may be null or undefined. *)
Definition orString (o : option string) (dflt : string) : string :=
  match o with
  | Some s => if truthyString s then s else dflt
  | None => dflt
  end.
Definition orNumber (o : option Z) (dflt : Z) : Z :=
  match o with
  | Some n => if truthyNumber n then n else dflt
  | None => dflt
  end.

(** [arr.sort(cmp)]: the sort is stable; an element moves in front of
    another only when the comparator is negative (a NaN comparator result
    counts as 0). *)
Fixpoint insertSorted {A : Type} (cmp : A -> A -> number) (x : A) (l : list A) : list A :=
  match l with
  | [] => [x]
  | y :: r => if lt (cmp x y) (Num 0) then x :: y :: r else y :: insertSorted cmp x r
  end.

Definition sort {A : Type} (cmp : A -> A -> number) (l : list A) : list A :=
  fold_left (fun acc x => insertSorted cmp x acc) l [].

(** [arr.findIndex(p)]; [None] stands for -1. *)
Fixpoint findIndex {A : Type} (p : A -> bool) (l : list A) : option nat :=
  match l with
  | [] => None
  | x :: r => if p x then Some O else option_map S (findIndex p r)
  end.

(** [arr.filter((x, index) => p x index)], the index counted from [i]. *)
Fixpoint filterIndexed {A : Type} (p : A -> nat -> bool) (i : nat) (l : list A) : list A :=
  match l with
  | [] => []
  | x :: r => if p x i then x :: filterIndexed p (S i) r else filterIndexed p (S i) r
  end.

End JS.

Import JS.

(** The numbers of the engine are IEEE-754 doubles.  Every integer of
    magnitude up to 2^53 is one, and sums and products of integers that stay
    in that range are exact; that is the range [number] stands for.  Beyond
    it a result is rounded to the nearest double, ties to the even
    significand.  (From 2^1024 on the engine has Infinity, which is not
    modelled.) *)
Module Double.

Definition nearest (z : Z) : Z :=
  let a := Z.abs z in
  if a <=? 2 ^ 53 then z
  else
    let unit := 2 ^ (Z.log2 a - 52) in
    let q := a / unit in
    let r := a mod unit in
    let q' := if 2 * r <? unit then q
              else if unit <? 2 * r then q + 1
              else if Z.even q then q else q + 1 in
    Z.sgn z * (q' * unit).

Definition round (a : number) : number :=
  match a with
  | Num z => Num (nearest z)
  | NaN => NaN
  end.

(** The integers on which every sum the slot loop forms is exact. *)
Definition small (z : Z) : Prop := Z.abs z <= 2 ^ 51.

End Double.

(* ================================================================== *)
(** ** Time slots and time arithmetic (AvailabilityService, first part) *)
(* ================================================================== *)

(** [TimeSlot] of the backend types. *)
Record TimeSlot : Type := mkTimeSlot {
  slot_start_time : string;
  slot_end_time : string;
  slot_available : bool;
  slot_staff_member_id : option Z
}.

(** [const [a, b] = s.split(':').map(Number)]: the first two components;
    a missing second one is [undefined], which arithmetic turns into NaN. *)
Definition splitNumbers (s : string) : number * number :=
  match map Number (split ":" s) with
  | a :: b :: _ => (a, b)
  | a :: [] => (a, NaN)
  | [] => (NaN, NaN)
  end.

(** [timeStringToMinutes]: hours * 60 + minutes, no validation. *)
Definition timeStringToMinutes (timeStr : string) : number :=
  let '(hours, minutes) := splitNumbers timeStr in
  add (mul hours (Num 60)) minutes.

Definition timeSlotsOverlap (slot1Start slot1End slot2Start slot2End : string) : bool :=
  let slot1StartMinutes := timeStringToMinutes slot1Start in
  let slot1EndMinutes := timeStringToMinutes slot1End in
  let slot2StartMinutes := timeStringToMinutes slot2Start in
  let slot2EndMinutes := timeStringToMinutes slot2End in
  lt slot1StartMinutes slot2EndMinutes && lt slot2StartMinutes slot1EndMinutes.

(** The template of [generateTimeSlots] that prints a minute count. *)
Definition formatTime (minutes : Z) : string :=
  (padStart 2 "0" (toString (floorDiv minutes 60)) ++ ":" ++
   padStart 2 "0" (toString (remainder minutes 60)))%string.

Definition slotAt (currentMinutes duration : Z) : TimeSlot :=
  {| slot_start_time := formatTime currentMinutes;
     slot_end_time := formatTime (currentMinutes + duration);
     slot_available := true;
     slot_staff_member_id := None |}.

(** The [for] loop of [generateTimeSlots] on exact integers, which is the
    loop of the engine as long as its sums stay within 2^53, as they do for
    times of day ([slotLoop64] below writes the rounding out).  [fuel]
    bounds the number of iterations; [None] means the bound was reached
    with the loop condition still true. *)
Fixpoint slotLoop (fuel : nat) (currentMinutes endTotalMinutes duration slotDuration : Z)
  : option (list TimeSlot) :=
  if currentMinutes + duration <=? endTotalMinutes then
    match fuel with
    | O => None
    | S fuel' =>
        option_map (cons (slotAt currentMinutes duration))
          (slotLoop fuel' (currentMinutes + slotDuration) endTotalMinutes duration slotDuration)
    end
  else Some [].

Definition generateTimeSlots (fuel : nat) (startTime endTime : string)
    (duration bufferAfter : Z) : option (list TimeSlot) :=
  let '(startHour, startMinute) := splitNumbers startTime in
  let '(endHour, endMinute) := splitNumbers endTime in
  let startTotalMinutes := add (mul startHour (Num 60)) startMinute in
  let endTotalMinutes := add (mul endHour (Num 60)) endMinute in
  let slotDuration := duration + bufferAfter in
  match startTotalMinutes, endTotalMinutes with
  | Num s, Num e => slotLoop fuel s e duration slotDuration
  | _, _ => Some []   (* NaN + duration <= end and start + duration <= NaN are false *)
  end.

(** [generateTimeSlots] with every number a double: the literals, the
    products and the sums are rounded; [duration] and [bufferAfter] are
    doubles that are integers.  On small integers this is
    [generateTimeSlots]; beyond 2^53 the cursor can stop advancing.  (The
    quotient by 60 that prints a slot is exact below 60 * 2^48.) *)
Definition timeStringToMinutes64 (timeStr : string) : number :=
  let '(hours, minutes) := splitNumbers timeStr in
  Double.round (add (Double.round (mul (Double.round hours) (Num 60))) (Double.round minutes)).

Fixpoint slotLoop64 (fuel : nat) (currentMinutes endTotalMinutes duration slotDuration : Z)
  : option (list TimeSlot) :=
  if Double.nearest (currentMinutes + duration) <=? endTotalMinutes then
    match fuel with
    | O => None
    | S fuel' =>
        option_map
          (cons {| slot_start_time := formatTime currentMinutes;
                   slot_end_time := formatTime (Double.nearest (currentMinutes + duration));
                   slot_available := true;
                   slot_staff_member_id := None |})
          (slotLoop64 fuel' (Double.nearest (currentMinutes + slotDuration))
                      endTotalMinutes duration slotDuration)
    end
  else Some [].

Definition generateTimeSlots64 (fuel : nat) (startTime endTime : string)
    (duration bufferAfter : Z) : option (list TimeSlot) :=
  let startTotalMinutes := timeStringToMinutes64 startTime in
  let endTotalMinutes := timeStringToMinutes64 endTime in
  let slotDuration := Double.nearest (duration + bufferAfter) in
  match startTotalMinutes, endTotalMinutes with
  | Num s, Num e => slotLoop64 fuel s e duration slotDuration
  | _, _ => Some []
  end.

(** A character class [[lo-hi]]. *)
Definition charIn (lo hi c : ascii) : bool :=
  ((nat_of_ascii lo <=? nat_of_ascii c) && (nat_of_ascii c <=? nat_of_ascii hi))%nat.

(** [:[0-5][0-9]$] *)
Definition minutesSuffix (s : string) : bool :=
  match s with
  | String c (String m1 (String m2 EmptyString)) =>
      Ascii.eqb c ":" && charIn "0" "5" m1 && charIn "0" "9" m2
  | _ => false
  end.

(** [/^([01]?[0-9]|2[0-3]):[0-5][0-9]$/.test(s)], the pattern of
    [validateBookingRequest]. *)
Definition timeFormatTest (s : string) : bool :=
  match s with
  | EmptyString => false
  | String a r =>
      (* [01]?[0-9] with the optional digit absent *)
      (charIn "0" "9" a && minutesSuffix r)
      || match r with
         | String b r' =>
             ((charIn "0" "1" a && charIn "0" "9" b)
              || (Ascii.eqb a "2" && charIn "0" "3" b)) && minutesSuffix r'
         | EmptyString => false
         end
  end.

(* ================================================================== *)
(** ** The host's [Date] and the outcome of a call *)
(* ================================================================== *)

(** What the services use of [Date].  Parsing of the non-ISO forms and every
    local-time accessor depend on the host and its time zone, so they are
    taken as given.  A [Date] object is represented by its time value in
    milliseconds; an invalid one by [NaN]. *)
Record DateHost : Type := mkDateHost {
  Date_parse : string -> number;      (* new Date(s).getTime() *)
  Date_getDay : Z -> Z;               (* d.getDay(), 0 = Sunday *)
  Date_setHours0 : Z -> Z;            (* d.setHours(0, 0, 0, 0) *)
  Date_addDays : Z -> Z -> Z;         (* d.setDate(d.getDate() + i) *)
  Date_toISODate : Z -> string        (* d.toISOString().split('T')[0] *)
}.

(** A call returns, throws, or is still running when the fuel is spent. *)
Inductive outcome (A : Type) : Type :=
| Returned (a : A)
| Thrown (message : string)
| OutOfFuel.

Arguments Returned {A} a.
Arguments Thrown {A} message.
Arguments OutOfFuel {A}.

Definition bind {A B : Type} (m : outcome A) (k : A -> outcome B) : outcome B :=
  match m with
  | Returned a => k a
  | Thrown e => Thrown e
  | OutOfFuel => OutOfFuel
  end.

Notation "x <- m ;; k" := (bind m (fun x => k))
  (at level 61, m at next level, right associativity).

Definition ofLoop {A : Type} (o : option A) : outcome A :=
  match o with
  | Some a => Returned a
  | None => OutOfFuel
  end.

(* ================================================================== *)
(** ** The tables (schema.sql) *)
(* ================================================================== *)

Inductive BookingStatus : Type :=
| pending | confirmed | cancelled | completed | no_show.

Definition BookingStatus_eqb (a b : BookingStatus) : bool :=
  match a, b with
  | pending, pending | confirmed, confirmed | cancelled, cancelled
  | completed, completed | no_show, no_show => true
  | _, _ => false
  end.

Record Business : Type := mkBusiness {
  business_id : Z;
  booking_link_slug : string;
  cancellation_hours : option Z;
  business_is_active : bool
}.

Record Service : Type := mkService {
  service_id : Z;
  service_business_id : Z;
  duration_minutes : Z;
  capacity : Z;
  requires_staff : bool;
  buffer_after_minutes : option Z;
  service_is_active : bool
}.

Record StaffMember : Type := mkStaffMember {
  staff_id : Z;
  staff_is_active : bool
}.

Record StaffService : Type := mkStaffService {
  ss_staff_member_id : Z;
  ss_service_id : Z
}.

Record AvailabilityRule : Type := mkAvailabilityRule {
  rule_business_id : option Z;
  rule_staff_member_id : option Z;
  rule_day_of_week : Z;
  rule_start_time : string;
  rule_end_time : string;
  rule_is_active : bool
}.

Record SpecialAvailability : Type := mkSpecialAvailability {
  special_business_id : option Z;
  special_staff_member_id : option Z;
  special_date : string;
  special_start_time : option string;
  special_end_time : option string;
  special_is_available : bool;
  special_reason : option string
}.

(** A row of [bookings]; the columns no operation below reads or writes
    (amounts, notification stamps, created_at) are left out. *)
Record Booking : Type := mkBooking {
  booking_id : Z;
  booking_business_id : Z;
  booking_service_id : Z;
  booking_staff_member_id : option Z;
  customer_name : string;
  customer_email : string;
  customer_phone : option string;
  booking_date : string;
  booking_start_time : string;
  booking_end_time : string;
  party_size : Z;
  special_requests : option string;
  status : BookingStatus;
  payment_status : string;
  cancelled_at : option Z;
  cancellation_reason : option string;
  updated_at : Z
}.

Record Database : Type := mkDatabase {
  business : list Business;
  services : list Service;
  staff_members : list StaffMember;
  staff_services : list StaffService;
  availability_rules : list AvailabilityRule;
  special_availability : list SpecialAvailability;
  bookings : list Booking
}.

(** SQL [col = ?]: a NULL column and a NaN parameter match nothing. *)
Definition sqlEq (col : option Z) (param : Z) : bool :=
  match col with
  | Some v => v =? param
  | None => false
  end.

Definition sqlEqNumber (col : Z) (param : number) : bool := strictEq (Num col) param.

Definition activeBooking (b : Booking) : bool :=
  match status b with
  | confirmed | pending => true
  | _ => false
  end.

(* ================================================================== *)
(** ** AvailabilityService *)
(* ================================================================== *)

Record DayAvailability : Type := mkDayAvailability {
  day_date : number;             (* the Date object, by its time value *)
  day_of_week : number;
  time_slots : list TimeSlot
}.

Record AvailabilityResult : Type := mkAvailabilityResult {
  available : bool;
  reason : option string
}.

Record ValidationResult : Type := mkValidationResult {
  valid : bool;
  errors : list string
}.

Definition unavailable (why : string) : AvailabilityResult :=
  {| available := false; reason := Some why |}.

(** [SELECT ... FROM services WHERE id = ? AND business_id = ? AND is_active = true],
    first row. *)
Definition selectService (db : Database) (serviceId businessId : Z) : option Service :=
  find (fun s => (service_id s =? serviceId) && (service_business_id s =? businessId)
                 && service_is_active s) (services db).

Definition selectStaffRules (db : Database) (staffId : Z) (dayOfWeek : number)
  : list AvailabilityRule :=
  filter (fun r => sqlEq (rule_staff_member_id r) staffId
                   && sqlEqNumber (rule_day_of_week r) dayOfWeek
                   && rule_is_active r) (availability_rules db).

Definition selectBusinessRules (db : Database) (businessId : Z) (dayOfWeek : number)
  : list AvailabilityRule :=
  filter (fun r => sqlEq (rule_business_id r) businessId
                   && sqlEqNumber (rule_day_of_week r) dayOfWeek
                   && rule_is_active r) (availability_rules db).

(** [staff_services ss JOIN staff_members sm ... WHERE ss.service_id = ? AND
    sm.is_active = true], the staff ids. *)
Definition selectStaffForService (db : Database) (serviceId : Z) : list Z :=
  flat_map (fun ss =>
      if ss_service_id ss =? serviceId then
        map staff_id
          (filter (fun sm => (staff_id sm =? ss_staff_member_id ss) && staff_is_active sm)
                  (staff_members db))
      else []) (staff_services db).

(** [SELECT ... FROM bookings WHERE business_id = ? AND service_id = ? AND
    booking_date = ? AND status IN ('confirmed', 'pending')]. *)
Definition selectActiveBookings (db : Database) (businessId serviceId : Z) (date : string)
  : list Booking :=
  filter (fun b => (booking_business_id b =? businessId)
                   && (booking_service_id b =? serviceId)
                   && String.eqb (booking_date b) date
                   && activeBooking b) (bookings db).

(** The conflict query of [isTimeSlotAvailable]: the same rows, with
    [AND staff_member_id = ?] for a staff-scoped check and [AND id != ?] when
    a booking is excluded. *)
Definition selectConflictCandidates (db : Database) (businessId serviceId : Z) (date : string)
    (staffFilter excludeBookingId : option Z) : list Booking :=
  filter (fun b =>
      (match staffFilter with
       | Some staffId => sqlEq (booking_staff_member_id b) staffId
       | None => true
       end)
      && (if truthyOptNumber excludeBookingId
          then negb (booking_id b =? orNumber excludeBookingId 0)
          else true))
    (selectActiveBookings db businessId serviceId date).

(** [SELECT ... FROM special_availability WHERE (business_id = ? OR
    staff_member_id IN (SELECT staff_member_id FROM staff_services WHERE
    service_id = ?)) AND date = ?]; the [OR] part only for a staff service. *)
Definition selectSpecialForService (db : Database) (businessId serviceId : Z)
    (staffService : bool) (date : string) : list SpecialAvailability :=
  filter (fun sp =>
      (sqlEq (special_business_id sp) businessId
       || (staffService
           && existsb (fun ss => (ss_service_id ss =? serviceId)
                                 && sqlEq (special_staff_member_id sp) (ss_staff_member_id ss))
                      (staff_services db)))
      && String.eqb (special_date sp) date) (special_availability db).

(** The window of a partial closure: both times present and non-empty. *)
Definition closureWindow (special : SpecialAvailability) : option (string * string) :=
  match special_start_time special, special_end_time special with
  | Some s, Some e => if truthyString s && truthyString e then Some (s, e) else None
  | _, _ => None
  end.

(** [slot.staff_member_id === booking.staff_member_id]: the slot's id is a
    number or undefined, the row's a number or null. *)
Definition sameStaff (slotStaff bookingStaff : option Z) : bool :=
  match slotStaff, bookingStaff with
  | Some a, Some b => a =? b
  | _, _ => false
  end.

Definition optZ_eqb (a b : option Z) : bool :=
  match a, b with
  | Some x, Some y => x =? y
  | None, None => true
  | _, _ => false
  end.

Definition markUnavailable (slot : TimeSlot) : TimeSlot :=
  {| slot_start_time := slot_start_time slot;
     slot_end_time := slot_end_time slot;
     slot_available := false;
     slot_staff_member_id := slot_staff_member_id slot |}.

Definition withStaff (staffId : Z) (slot : TimeSlot) : TimeSlot :=
  {| slot_start_time := slot_start_time slot;
     slot_end_time := slot_end_time slot;
     slot_available := slot_available slot;
     slot_staff_member_id := Some staffId |}.

(** The callback of [availableSlots.map] in [getAvailableSlots]: the first
    conflicting booking marks the slot, otherwise it is returned as it is. *)
Fixpoint markSlot (service : Service) (existingBookings : list Booking) (slot : TimeSlot)
  : TimeSlot :=
  match existingBookings with
  | [] => slot
  | booking :: rest =>
      let conflicts :=
        timeSlotsOverlap (slot_start_time slot) (slot_end_time slot)
                         (booking_start_time booking) (booking_end_time booking) in
      if negb conflicts then markSlot service rest slot
      else if requires_staff service then
        if sameStaff (slot_staff_member_id slot) (booking_staff_member_id booking)
        then markUnavailable slot
        else markSlot service rest slot
      else
        if party_size booking >=? capacity service
        then markUnavailable slot
        else markSlot service rest slot
  end.

(** The loop over [specialAvailability] in [getAvailableSlots]: a partial
    closure filters, a full-day closure empties the list and breaks. *)
Fixpoint applySpecialAvailability (specials : list SpecialAvailability)
    (availableSlots : list TimeSlot) : list TimeSlot :=
  match specials with
  | [] => availableSlots
  | special :: rest =>
      if negb (special_is_available special) then
        match closureWindow special with
        | Some (s, e) =>
            applySpecialAvailability rest
              (filter (fun slot =>
                 negb (timeSlotsOverlap (slot_start_time slot) (slot_end_time slot) s e))
                 availableSlots)
        | None => []
        end
      else applySpecialAvailability rest availableSlots
  end.

(** [for (const rule of rules) availableSlots.push(...generateTimeSlots(...))]. *)
Fixpoint slotsForRules (fuel : nat) (rules : list AvailabilityRule) (service : Service)
  : outcome (list TimeSlot) :=
  match rules with
  | [] => Returned []
  | rule :: rest =>
      ruleSlots <- ofLoop (generateTimeSlots fuel (rule_start_time rule) (rule_end_time rule)
                             (duration_minutes service)
                             (orNumber (buffer_after_minutes service) 0)) ;;
      more <- slotsForRules fuel rest service ;;
      Returned (ruleSlots ++ more)
  end.

(** [for (const staffMember of staffServices)]: the slots of each capable
    staff member's rules, tagged with the staff id. *)
Fixpoint slotsForStaff (fuel : nat) (db : Database) (dayOfWeek : number) (service : Service)
    (staffServices : list Z) : outcome (list TimeSlot) :=
  match staffServices with
  | [] => Returned []
  | staffId :: rest =>
      staffSlots <- slotsForRules fuel (selectStaffRules db staffId dayOfWeek) service ;;
      more <- slotsForStaff fuel db dayOfWeek service rest ;;
      Returned (map (withStaff staffId) staffSlots ++ more)
  end.

Definition compareSlots (a b : TimeSlot) : number :=
  sub (timeStringToMinutes (slot_start_time a)) (timeStringToMinutes (slot_start_time b)).

Definition sameSlot (slot s : TimeSlot) : bool :=
  String.eqb (slot_start_time s) (slot_start_time slot)
  && String.eqb (slot_end_time s) (slot_end_time slot)
  && optZ_eqb (slot_staff_member_id s) (slot_staff_member_id slot).

Definition uniqueSlots (availableSlots : list TimeSlot) : list TimeSlot :=
  filterIndexed (fun slot index =>
      match findIndex (sameSlot slot) availableSlots with
      | Some j => Nat.eqb index j
      | None => false
      end) 0 availableSlots.

(** The conflict loop of [isTimeSlotAvailable] (its last [for]): [true] when
    it returns "Time slot already booked". *)
Fixpoint hasBookingConflict (service : Service) (startTime endTime : string) (partySize : Z)
    (existingBookings : list Booking) : bool :=
  match existingBookings with
  | [] => false
  | booking :: rest =>
      if timeSlotsOverlap startTime endTime (booking_start_time booking) (booking_end_time booking)
      then
        if negb (requires_staff service) && (partySize + party_size booking <=? capacity service)
        then hasBookingConflict service startTime endTime partySize rest
        else true
      else hasBookingConflict service startTime endTime partySize rest
  end.

(** The loop over [specialAvailability] in [isTimeSlotAvailable]: the reason
    of the first closure that applies. *)
Fixpoint specialClosure (specials : list SpecialAvailability) (startTime endTime : string)
  : option string :=
  match specials with
  | [] => None
  | special :: rest =>
      if negb (special_is_available special) then
        match closureWindow special with
        | Some (s, e) =>
            if timeSlotsOverlap startTime endTime s e
            then Some (orString (special_reason special) "Special closure during requested time")
            else specialClosure rest startTime endTime
        | None =>
            Some (orString (special_reason special) "Business/staff not available on this date")
        end
      else specialClosure rest startTime endTime
  end.

Definition withinHours (startTime endTime : string) (rules : list AvailabilityRule) : bool :=
  existsb (fun rule =>
      ge (timeStringToMinutes startTime) (timeStringToMinutes (rule_start_time rule))
      && le (timeStringToMinutes endTime) (timeStringToMinutes (rule_end_time rule))) rules.

Section AvailabilityService.

Variable host : DateHost.

Definition getDay (d : number) : number :=
  match d with
  | Num t => Num (Date_getDay host t)
  | NaN => NaN
  end.

Definition isTimeSlotAvailable (db : Database) (businessId serviceId : Z)
    (staffMemberId : option Z) (date startTime endTime : string) (partySize : Z)
    (excludeBookingId : option Z) : AvailabilityResult :=
  match selectService db serviceId businessId with
  | None => unavailable "Service not found or inactive"
  | Some service =>
      if partySize >? capacity service then
        unavailable ("Party size exceeds capacity (max: " ++ toString (capacity service) ++ ")")
      else
        let requestedDate := Date_parse host date in
        let dayOfWeek := getDay requestedDate in
        let staffScoped := requires_staff service && truthyOptNumber staffMemberId in
        let rulesVerdict :=
          if staffScoped then
            let staffRules := selectStaffRules db (orNumber staffMemberId 0) dayOfWeek in
            match staffRules with
            | [] => Some "Staff not available on this day"
            | _ => if negb (withinHours startTime endTime staffRules)
                   then Some "Requested time is outside staff working hours"
                   else None
            end
          else
            let businessRules := selectBusinessRules db businessId dayOfWeek in
            match businessRules with
            | [] => Some "Business closed on this day"
            | _ => if negb (withinHours startTime endTime businessRules)
                   then Some "Requested time is outside business hours"
                   else None
            end in
        match rulesVerdict with
        | Some why => unavailable why
        | None =>
            let specialAvailability :=
              filter (fun sp =>
                  (sqlEq (special_business_id sp) businessId
                   || (truthyOptNumber staffMemberId
                       && sqlEq (special_staff_member_id sp) (orNumber staffMemberId 0)))
                  && String.eqb (special_date sp) date) (special_availability db) in
            match specialClosure specialAvailability startTime endTime with
            | Some why => unavailable why
            | None =>
                let existingBookings :=
                  selectConflictCandidates db businessId serviceId date
                    (if staffScoped then staffMemberId else None) excludeBookingId in
                if hasBookingConflict service startTime endTime partySize existingBookings
                then unavailable "Time slot already booked"
                else {| available := true; reason := None |}
            end
        end
  end.

Definition getAvailableSlots (fuel : nat) (db : Database) (businessId serviceId : Z)
    (date : string) : outcome DayAvailability :=
  let requestedDate := Date_parse host date in
  let dayOfWeek := getDay requestedDate in
  match selectService db serviceId businessId with
  | None => Thrown "Service not found"
  | Some service =>
      generated <-
        (if requires_staff service
         then slotsForStaff fuel db dayOfWeek service (selectStaffForService db serviceId)
         else slotsForRules fuel (selectBusinessRules db businessId dayOfWeek) service) ;;
      let specialAvailability :=
        selectSpecialForService db businessId serviceId (requires_staff service) date in
      let availableSlots := applySpecialAvailability specialAvailability generated in
      let existingBookings := selectActiveBookings db businessId serviceId date in
      let availableSlots := map (markSlot service existingBookings) availableSlots in
      let availableSlots := sort compareSlots availableSlots in
      Returned {| day_date := requestedDate;
                  day_of_week := dayOfWeek;
                  time_slots := uniqueSlots availableSlots |}
  end.

(** [SELECT id FROM business WHERE booking_link_slug = ? AND is_active = true]. *)
Definition getBusinessIdFromSlug (db : Database) (slug : string) : option Z :=
  option_map business_id
    (find (fun b => String.eqb (booking_link_slug b) slug && business_is_active b) (business db)).

Definition getServiceDetails (db : Database) (serviceId businessId : Z) : option Service :=
  selectService db serviceId businessId.

Definition canStaffPerformService (db : Database) (staffMemberId serviceId : Z) : bool :=
  existsb (fun ss =>
      (ss_staff_member_id ss =? staffMemberId) && (ss_service_id ss =? serviceId)
      && existsb (fun sm => (staff_id sm =? ss_staff_member_id ss) && staff_is_active sm)
                 (staff_members db)) (staff_services db).

(** The record pushed when a day's computation throws. *)
Definition emptyDay (currentDate : Z) : DayAvailability :=
  {| day_date := Num currentDate;
     day_of_week := Num (Date_getDay host currentDate);
     time_slots := [] |}.

(** The body of the [for (let i = 0; i < 7; i++)] loop of
    [getWeekAvailability], for the days [i, i+1, ..., i+n-1]: an exception of
    the day's computation is caught, a computation that does not return
    stalls the loop. *)
Fixpoint weekLoop (n : nat) (i : Z) (start : Z)
    (dayAvailability : string -> outcome DayAvailability) : outcome (list DayAvailability) :=
  match n with
  | O => Returned []
  | S n' =>
      let currentDate := Date_addDays host start i in
      let dateString := Date_toISODate host currentDate in
      day <- (match dayAvailability dateString with
              | Returned d => Returned d
              | Thrown _ => Returned (emptyDay currentDate)
              | OutOfFuel => OutOfFuel
              end) ;;
      more <- weekLoop n' (i + 1) start dayAvailability ;;
      Returned (day :: more)
  end.

Definition getWeekAvailability (fuel : nat) (db : Database) (businessSlug : string)
    (serviceId : Z) (startDate : string) : outcome (list DayAvailability) :=
  match getBusinessIdFromSlug db businessSlug with
  | None => Thrown "Business not found"
  | Some businessId =>
      if negb (truthyNumber businessId) then Thrown "Business not found"
      else
        match Date_parse host startDate with
        | NaN => Thrown "RangeError: Invalid time value"   (* toISOString of an invalid Date *)
        | Num start => weekLoop 7 0 start (getAvailableSlots fuel db businessId serviceId)
        end
  end.

Definition validateBookingRequest (now : Z) (db : Database) (businessId serviceId : Z)
    (staffMemberId : option Z) (bookingDate startTime endTime : string) (partySize : Z)
    (excludeBookingId : option Z) : ValidationResult :=
  let errors := [] in
  let errors :=
    if negb (timeFormatTest startTime) || negb (timeFormatTest endTime)
    then errors ++ ["Invalid time format. Use HH:MM"] else errors in
  let errors :=
    if le (timeStringToMinutes endTime) (timeStringToMinutes startTime)
    then errors ++ ["End time must be after start time"] else errors in
  let bookingDateObj := Date_parse host bookingDate in
  let today := Num (Date_setHours0 host now) in
  let errors :=
    if lt bookingDateObj today then errors ++ ["Cannot book in the past"] else errors in
  match getServiceDetails db serviceId businessId with
  | None =>
      {| valid := false; errors := errors ++ ["Service not found or inactive"] |}
  | Some service =>
      let errors :=
        if requires_staff service then
          if negb (truthyOptNumber staffMemberId)
          then errors ++ ["Staff member is required for this service"]
          else if negb (canStaffPerformService db (orNumber staffMemberId 0) serviceId)
               then errors ++ ["Selected staff member cannot perform this service"]
               else errors
        else errors in
      let errors :=
        match errors with
        | [] =>
            let availabilityResult :=
              isTimeSlotAvailable db businessId serviceId staffMemberId bookingDate
                                  startTime endTime partySize excludeBookingId in
            if negb (available availabilityResult)
            then errors ++ [orString (reason availabilityResult) "Time slot not available"]
            else errors
        | _ => errors
        end in
      {| valid := match errors with [] => true | _ => false end; errors := errors |}
  end.

End AvailabilityService.

(* ================================================================== *)
(** ** BookingService (update and cancel) *)
(* ================================================================== *)

(** [BookingUpdateInput]: every field optional ([None] is undefined). *)
Record BookingUpdateInput : Type := mkBookingUpdateInput {
  upd_service_id : option Z;
  upd_staff_member_id : option Z;
  upd_customer_name : option string;
  upd_customer_email : option string;
  upd_customer_phone : option string;
  upd_booking_date : option string;
  upd_start_time : option string;
  upd_end_time : option string;
  upd_party_size : option Z;
  upd_special_requests : option string;
  upd_status : option BookingStatus;
  upd_payment_status : option string;
  upd_cancellation_reason : option string
}.

Definition noUpdates : BookingUpdateInput :=
  {| upd_service_id := None; upd_staff_member_id := None; upd_customer_name := None;
     upd_customer_email := None; upd_customer_phone := None; upd_booking_date := None;
     upd_start_time := None; upd_end_time := None; upd_party_size := None;
     upd_special_requests := None; upd_status := None; upd_payment_status := None;
     upd_cancellation_reason := None |}.

(** The row [getBookingById] returns: the booking joined with its business
    and service (the joined names are left out). *)
Record BookingDetails : Type := mkBookingDetails {
  details_booking : Booking;
  details_cancellation_hours : option Z
}.

(** [{ success, data?, errors? }]. *)
Record ServiceResult : Type := mkServiceResult {
  success : bool;
  data : option BookingDetails;
  result_errors : option (list string)
}.

Definition failure (errs : list string) : ServiceResult :=
  {| success := false; data := None; result_errors := Some errs |}.

Definition getBookingById (db : Database) (bookingId : Z) : option BookingDetails :=
  match find (fun b => booking_id b =? bookingId) (bookings db) with
  | None => None
  | Some b =>
      match find (fun bus => business_id bus =? booking_business_id b) (business db),
            find (fun s => service_id s =? booking_service_id b) (services db) with
      | Some bus, Some _ =>
          Some {| details_booking := b; details_cancellation_hours := cancellation_hours bus |}
      | _, _ => None
      end
  end.

Definition isSome {A : Type} (o : option A) : bool :=
  match o with Some _ => true | None => false end.

(** Does the patch carry one of [ALLOWED_UPDATE_FIELDS]
    ([updates[field] !== undefined] for some allowed field)? *)
Definition hasAllowedField (updates : BookingUpdateInput) : bool :=
  isSome (upd_customer_name updates) || isSome (upd_customer_email updates)
  || isSome (upd_customer_phone updates) || isSome (upd_booking_date updates)
  || isSome (upd_start_time updates) || isSome (upd_end_time updates)
  || isSome (upd_party_size updates) || isSome (upd_special_requests updates)
  || isSome (upd_status updates) || isSome (upd_payment_status updates)
  || isSome (upd_cancellation_reason updates).

Definition orElse {A : Type} (o : option A) (old : A) : A :=
  match o with Some v => v | None => old end.

Definition orKeep {A : Type} (o : option A) (old : option A) : option A :=
  match o with Some v => Some v | None => old end.

(** The [SET] clause built by [updateBooking], applied to one row. *)
Definition setFields (now : Z) (updates : BookingUpdateInput) (stampCancelled : bool)
    (row : Booking) : Booking :=
  {| booking_id := booking_id row;
     booking_business_id := booking_business_id row;
     booking_service_id := booking_service_id row;
     booking_staff_member_id := booking_staff_member_id row;
     customer_name := orElse (upd_customer_name updates) (customer_name row);
     customer_email := orElse (upd_customer_email updates) (customer_email row);
     customer_phone := orKeep (upd_customer_phone updates) (customer_phone row);
     booking_date := orElse (upd_booking_date updates) (booking_date row);
     booking_start_time := orElse (upd_start_time updates) (booking_start_time row);
     booking_end_time := orElse (upd_end_time updates) (booking_end_time row);
     party_size := orElse (upd_party_size updates) (party_size row);
     special_requests := orKeep (upd_special_requests updates) (special_requests row);
     status := orElse (upd_status updates) (status row);
     payment_status := orElse (upd_payment_status updates) (payment_status row);
     cancelled_at := if stampCancelled then Some now else cancelled_at row;
     cancellation_reason := orKeep (upd_cancellation_reason updates) (cancellation_reason row);
     updated_at := now |}.

(** [UPDATE bookings SET ... WHERE id = ?], when the store executes it. *)
Definition executeUpdate (now : Z) (db : Database) (bookingId : Z)
    (updates : BookingUpdateInput) (stampCancelled : bool) : Database :=
  {| business := business db;
     services := services db;
     staff_members := staff_members db;
     staff_services := staff_services db;
     availability_rules := availability_rules db;
     special_availability := special_availability db;
     bookings := map (fun row => if booking_id row =? bookingId
                                 then setFields now updates stampCancelled row
                                 else row) (bookings db) |}.

(** [(bookingDateTime.getTime() - now.getTime()) / (1000 * 60 * 60)], as an
    exact quotient; an invalid date gives NaN ([None]). *)
Definition hoursUntilBooking (bookingDateTime : number) (now : Z) : option QArith_base.Q :=
  match bookingDateTime with
  | Num t => Some (QArith_base.Qmake (t - now) (1000 * 60 * 60))
  | NaN => None
  end.

(** [hoursUntilBooking < cancellationHours]; false for NaN. *)
Definition belowHours (hoursUntil : option QArith_base.Q) (cancellationHours : Z) : bool :=
  match hoursUntil with
  | Some q => negb (QArith_base.Qle_bool (QArith_base.inject_Z cancellationHours) q)
  | None => false
  end.

(** What the booking service uses of its platform besides the [Date]
    functions of the availability service: the engine's
    [String.prototype.toLowerCase]; the [Date] object the driver builds for a
    DATE column (the connection sets no [dateStrings]) and the string such an
    object turns into ([Date.prototype.toString], also what a template
    literal prints); and whether the store executes an [UPDATE] (a refused
    statement throws, and the [catch] answers "Failed to update booking"). *)
Record Platform : Type := mkPlatform {
  dates :> DateHost;
  String_toLowerCase : string -> string;
  Date_ofColumn : string -> number;
  Date_toString : number -> string;
  storeUpdates : Database -> Z -> BookingUpdateInput -> bool
}.

Section BookingService.

Variable host : Platform.

(** [existingBooking.booking_date.toString()] and [`${booking.booking_date}`]:
    the row's date is a [Date] object. *)
Definition dateText (booking : Booking) : string :=
  Date_toString host (Date_ofColumn host (booking_date booking)).

Definition updateBooking (now : Z) (db : Database) (bookingId : Z)
    (updates : BookingUpdateInput) : Database * ServiceResult :=
  match getBookingById db bookingId with
  | None => (db, failure ["Booking not found"])
  | Some details =>
      let existingBooking := details_booking details in
      let validation :=
        if truthyOptString (upd_booking_date updates) || truthyOptString (upd_start_time updates)
           || truthyOptString (upd_end_time updates) || truthyOptNumber (upd_party_size updates)
        then
          let newDate := orString (upd_booking_date updates) (dateText existingBooking) in
          let newStartTime := orString (upd_start_time updates) (booking_start_time existingBooking) in
          let newEndTime := orString (upd_end_time updates) (booking_end_time existingBooking) in
          let newPartySize := orNumber (upd_party_size updates) (party_size existingBooking) in
          validateBookingRequest host now db
            (booking_business_id existingBooking) (booking_service_id existingBooking)
            (booking_staff_member_id existingBooking)
            newDate newStartTime newEndTime newPartySize (Some bookingId)
        else {| valid := true; errors := [] |} in
      if negb (valid validation) then (db, failure (errors validation))
      else if negb (hasAllowedField updates) then (db, failure ["No fields to update"])
      else if negb (storeUpdates host db bookingId updates)
      then (db, failure ["Failed to update booking"])
      else
        let stampCancelled :=
          match upd_status updates with
          | Some cancelled => negb (BookingStatus_eqb (status existingBooking) cancelled)
          | _ => false
          end in
        let db' := executeUpdate now db bookingId updates stampCancelled in
        (db', {| success := true; data := getBookingById db' bookingId; result_errors := None |})
  end.

(** [new Date(`${booking.booking_date} ${booking.start_time}`)]. *)
Definition bookingDateTime (booking : Booking) : number :=
  Date_parse host (dateText booking ++ " " ++ booking_start_time booking).

Definition cancelBooking (now : Z) (db : Database) (bookingId : Z) (customerEmail : string)
    (reason : option string) : Database * ServiceResult :=
  match getBookingById db bookingId with
  | None => (db, failure ["Booking not found"])
  | Some details =>
      let booking := details_booking details in
      if negb (String.eqb (String_toLowerCase host (customer_email booking))
                          (String_toLowerCase host customerEmail))
      then (db, failure ["Email does not match booking"])
      else if BookingStatus_eqb (status booking) cancelled
      then (db, failure ["Booking already cancelled"])
      else
        let cancellationHours := orNumber (details_cancellation_hours details) 24 in
        if belowHours (hoursUntilBooking (bookingDateTime booking) now) cancellationHours
        then (db, failure [("Must cancel at least " ++ toString cancellationHours
                            ++ " hours before booking")%string])
        else
          updateBooking now db bookingId
            {| upd_service_id := None; upd_staff_member_id := None; upd_customer_name := None;
               upd_customer_email := None; upd_customer_phone := None; upd_booking_date := None;
               upd_start_time := None; upd_end_time := None; upd_party_size := None;
               upd_special_requests := None;
               upd_status := Some cancelled;
               upd_payment_status := None;
               upd_cancellation_reason := Some (orString reason "Customer cancellation") |}
  end.

End BookingService.

(** A booking's status in the ledger, if the booking exists. *)
Definition statusOf (db : Database) (bookingId : Z) : option BookingStatus :=
  option_map status (find (fun b => booking_id b =? bookingId) (bookings db)).

(* ================================================================== *)
(** ** BookingService (create) *)
(* ================================================================== *)

(** [createBooking] of the first version.  The second words the first two
    rejections differently ("Business not found or inactive", "Phone number
    is required for this business") and binds absent values through
    [sanitizeArrayForMySQL] instead of [|| null]; the checks and their
    order are the same. *)

(** [BookingCreateInput] as the POST route hands it over (the parsed request
    body): [None] is an absent field; the date is the string of the body,
    on which [toString()] is the identity. *)
Record BookingCreateInput : Type := mkBookingCreateInput {
  new_business_id : Z;
  new_service_id : Z;
  new_staff_member_id : option Z;
  new_customer_name : string;
  new_customer_email : string;
  new_customer_phone : option string;
  new_booking_date : string;
  new_start_time : string;
  new_end_time : string;
  new_party_size : option Z;
  new_special_requests : option string
}.

(** [{ success, data: { booking_id, ...booking }, errors }]. *)
Record CreateResult : Type := mkCreateResult {
  created : bool;
  created_booking_id : option Z;
  created_data : option BookingDetails;
  created_errors : option (list string)
}.

Definition createFailure (errs : list string) : CreateResult :=
  {| created := false; created_booking_id := None; created_data := None;
     created_errors := Some errs |}.

(** [a || null]. *)
Definition orNullString (o : option string) : option string :=
  if truthyOptString o then o else None.
Definition orNullNumber (o : option Z) : option Z :=
  if truthyOptNumber o then o else None.

(** The row of the [INSERT]: the bound values, ['pending'] twice, and the
    column defaults ([cancelled_at] and [cancellation_reason] NULL, the
    time stamp the current one).  [total_amount] is not a column of the
    model's rows. *)
Definition newRow (now insertId : Z) (bookingData : BookingCreateInput) : Booking :=
  {| booking_id := insertId;
     booking_business_id := new_business_id bookingData;
     booking_service_id := new_service_id bookingData;
     booking_staff_member_id := orNullNumber (new_staff_member_id bookingData);
     customer_name := new_customer_name bookingData;
     customer_email := new_customer_email bookingData;
     customer_phone := orNullString (new_customer_phone bookingData);
     booking_date := new_booking_date bookingData;
     booking_start_time := new_start_time bookingData;
     booking_end_time := new_end_time bookingData;
     party_size := orElse (new_party_size bookingData) 1;
     special_requests := orNullString (new_special_requests bookingData);
     status := pending;
     payment_status := "pending";
     cancelled_at := None;
     cancellation_reason := None;
     updated_at := now |}.

Definition insertBooking (db : Database) (row : Booking) : Database :=
  {| business := business db;
     services := services db;
     staff_members := staff_members db;
     staff_services := staff_services db;
     availability_rules := availability_rules db;
     special_availability := special_availability db;
     bookings := bookings db ++ [row] |}.

Section CreateBooking.

Variable host : DateHost.

(** The [require_phone] column of a business row. *)
Variable require_phone : Business -> bool.

(** Whether the store takes the row: a refused [INSERT] throws, and the
    [catch] answers "Failed to create booking". *)
Variable storeAccepts : Database -> Booking -> bool.

(** [createBooking]; [insertId] is the id the store gives the new row. *)
Definition createBooking (now insertId : Z) (db : Database) (bookingData : BookingCreateInput)
  : Database * CreateResult :=
  let partySize := orElse (new_party_size bookingData) 1 in
  match find (fun b => (business_id b =? new_business_id bookingData) && business_is_active b)
             (business db) with
  | None => (db, createFailure ["Business not found"])
  | Some businessRow =>
      if require_phone businessRow && negb (truthyOptString (new_customer_phone bookingData))
      then (db, createFailure ["Phone number required"])
      else
        let validation :=
          validateBookingRequest host now db
            (new_business_id bookingData) (new_service_id bookingData)
            (orNullNumber (new_staff_member_id bookingData))
            (new_booking_date bookingData)
            (new_start_time bookingData) (new_end_time bookingData) partySize None in
        if negb (valid validation) then (db, createFailure (errors validation))
        else
          match getServiceDetails db (new_service_id bookingData)
                  (new_business_id bookingData) with
          | None => (db, createFailure ["Service not found"])
          | Some service =>
              let row := newRow now insertId bookingData in
              if storeAccepts db row then
                let db' := insertBooking db row in
                (db', {| created := true;
                         created_booking_id := Some insertId;
                         created_data := getBookingById db' insertId;
                         created_errors := None |})
              else (db, createFailure ["Failed to create booking"])
          end
  end.

(** The database after a sequence of [createBooking] calls, each with its
    clock and the id the store gives its row. *)
Fixpoint createBookings (calls : list (Z * Z * BookingCreateInput)) (db : Database)
  : Database :=
  match calls with
  | [] => db
  | (now, insertId, bookingData) :: rest =>
      createBookings rest (fst (createBooking now insertId db bookingData))
  end.

End CreateBooking.

(* ================================================================== *)
(** ** A concrete host: a JavaScript engine running in UTC *)
(* ================================================================== *)

Module UTC.

Definition msPerDay : Z := 86400000.

(** Days since 1970-01-01 of a proleptic Gregorian date, and back. *)
Definition daysFromCivil (y m d : Z) : Z :=
  let y' := if m <=? 2 then y - 1 else y in
  let era := y' / 400 in
  let yoe := y' - era * 400 in
  let mp := (m + 9) mod 12 in
  let doy := (153 * mp + 2) / 5 + d - 1 in
  let doe := yoe * 365 + yoe / 4 - yoe / 100 + doy in
  era * 146097 + doe - 719468.

Definition civilFromDays (z : Z) : Z * Z * Z :=
  let z' := z + 719468 in
  let era := z' / 146097 in
  let doe := z' - era * 146097 in
  let yoe := (doe - doe / 1460 + doe / 36524 - doe / 146096) / 365 in
  let doy := doe - (365 * yoe + yoe / 4 - yoe / 100) in
  let mp := (5 * doy + 2) / 153 in
  let d := doy - (153 * mp + 2) / 5 + 1 in
  let m := if mp <? 10 then mp + 3 else mp - 9 in
  let y := yoe + era * 400 in
  (if m <=? 2 then y + 1 else y, m, d).

(** A run of exactly [n] decimal digits. *)
Fixpoint digitRun (n : nat) (s : string) : bool :=
  match n, s with
  | O, EmptyString => true
  | S n', String c r => charIn "0" "9" c && digitRun n' r
  | _, _ => false
  end.

(** The ISO date form "YYYY-MM-DD" of a date of the calendar: UTC midnight
    of that day. *)
Definition parseDate (s : string) : number :=
  match split "-" s with
  | [ys; ms; ds] =>
      if digitRun 4 ys && digitRun 2 ms && digitRun 2 ds then
        match Number ys, Number ms, Number ds with
        | Num y, Num m, Num d =>
            let '(y', m', d') := civilFromDays (daysFromCivil y m d) in
            if (1 <=? m) && (m <=? 12) && (1 <=? d) && (y' =? y) && (m' =? m) && (d' =? d)
            then Num (daysFromCivil y m d * msPerDay) else NaN
        | _, _, _ => NaN
        end
      else NaN
  | _ => NaN
  end.

Definition dayNames : list string := ["Sun"; "Mon"; "Tue"; "Wed"; "Thu"; "Fri"; "Sat"].
Definition monthNames : list string :=
  ["Jan"; "Feb"; "Mar"; "Apr"; "May"; "Jun"; "Jul"; "Aug"; "Sep"; "Oct"; "Nov"; "Dec"].

Definition pad2 (n : Z) : string := padStart 2 "0" (toString n).

(** [d.toString()] in this zone:
    "Mon Jan 07 2030 00:00:00 GMT+0000 (Coordinated Universal Time)". *)
Definition dateToString (d : number) : string :=
  match d with
  | NaN => "Invalid Date"
  | Num t =>
      let day := t / msPerDay in
      let seconds := (t mod msPerDay) / 1000 in
      let '(y, m, dd) := civilFromDays day in
      let weekday := nth (Z.to_nat ((day + 4) mod 7)) dayNames "" in
      let month := nth (Z.to_nat (m - 1)) monthNames "" in
      let sign := if y <? 0 then "-" else "" in
      let year := padStart 4 "0" (toString (Z.abs y)) in
      let clock := (pad2 (seconds / 3600) ++ ":" ++ pad2 ((seconds / 60) mod 60) ++ ":"
                    ++ pad2 (seconds mod 60))%string in
      (weekday ++ " " ++ month ++ " " ++ pad2 dd ++ " " ++ sign ++ year ++ " " ++ clock
       ++ " GMT+0000 (Coordinated Universal Time)")%string
  end.

Fixpoint indexOf (x : string) (l : list string) : option Z :=
  match l with
  | [] => None
  | y :: r => if String.eqb x y then Some 0
              else option_map (fun i => i + 1) (indexOf x r)
  end.

(** The strings [dateToString] prints, read back: the fields are read and
    the instant is accepted when it prints as the string. *)
Definition parseDateString (parts : list string) (s : string) : number :=
  match parts with
  | [_; mon; dd; yyyy; clock; _; _; _; _] =>
      match indexOf mon monthNames, Number dd, Number yyyy, map Number (split ":" clock) with
      | Some m, Num d, Num y, [Num h; Num mi; Num sec] =>
          let t := daysFromCivil y (m + 1) d * msPerDay + ((h * 60 + mi) * 60 + sec) * 1000 in
          if String.eqb (dateToString (Num t)) s then Num t else NaN
      | _, _, _, _ => NaN
      end
  | _ => NaN
  end.

(** The time of day behind a date, in milliseconds: "H:MM" or "HH:MM", the
    same with the seconds of a TIME column ("HH:MM:SS"), or "24:00", the
    end of the day. *)
Definition clockMs (t : string) : number :=
  if timeFormatTest t || String.eqb t "24:00"
  then mul (timeStringToMinutes t) (Num 60000)
  else
    match split ":" t with
    | [h; m; sec] =>
        if timeFormatTest (h ++ ":" ++ m) && digitRun 2 sec
        then match Number sec with
             | Num n =>
                 if n <? 60
                 then add (mul (timeStringToMinutes (h ++ ":" ++ m)) (Num 60000))
                          (Num (n * 1000))
                 else NaN
             | NaN => NaN
             end
        else NaN
    | _ => NaN
    end.

(** [new Date(s).getTime()] for the strings the services hand over: an ISO
    date, an ISO date followed by a time of day (local time), and a string
    printed by [dateToString].  A printed date with more text behind it, as
    in "... (Coordinated Universal Time) 10:00", is an invalid date. *)
Definition parse (s : string) : number :=
  match split " " s with
  | [d] => parseDate d
  | [d; t] => add (parseDate d) (clockMs t)
  | parts => parseDateString parts s
  end.

Definition toISODate (t : Z) : string :=
  let '(y, m, d) := civilFromDays (t / msPerDay) in
  (padStart 4 "0" (toString y) ++ "-" ++ padStart 2 "0" (toString m) ++ "-"
   ++ padStart 2 "0" (toString d))%string.

Definition host : DateHost :=
  {| Date_parse := parse;
     Date_getDay := fun t => (t / msPerDay + 4) mod 7;
     Date_setHours0 := fun t => t / msPerDay * msPerDay;
     Date_addDays := fun t i => t + i * msPerDay;
     Date_toISODate := toISODate |}.

(** The platform of the booking service on this engine.  The driver builds
    the [Date] of a DATE value at local midnight; the store of the examples
    executes every [UPDATE]; and the e-mail addresses of the examples are
    ASCII, where [toLowerCaseASCII] is the engine's [toLowerCase]. *)
Definition platform : Platform :=
  {| dates := host;
     String_toLowerCase := toLowerCaseASCII;
     Date_ofColumn := parseDate;
     Date_toString := dateToString;
     storeUpdates := fun _ _ _ => true |}.

End UTC.

(* ================================================================== *)
(** ** A second host: the same engine in Europe/Berlin *)
(* ================================================================== *)

(** Central European time under the summer-time rule in force since 1996:
    UTC+1, and UTC+2 from 01:00 UTC on the last Sunday of March until 01:00
    UTC on the last Sunday of October.  A local time that occurs twice or
    not at all is read with the offset before the change. *)
Module Berlin.

Definition hour : Z := 3600000.

(** The day number of the last Sunday of a month of 31 days. *)
Definition lastSunday (y m : Z) : Z :=
  let last := UTC.daysFromCivil y m 31 in
  last - (last + 4) mod 7.

Definition yearOf (t : Z) : Z :=
  let '(y, _, _) := UTC.civilFromDays (t / UTC.msPerDay) in y.

Definition offsetAt (t : Z) : Z :=
  let y := yearOf t in
  if (lastSunday y 3 * UTC.msPerDay + hour <=? t)
     && (t <? lastSunday y 10 * UTC.msPerDay + hour)
  then 2 * hour else hour.

Definition toLocal (t : Z) : Z := t + offsetAt t.

Definition toUTC (l : Z) : Z :=
  if offsetAt (l - 2 * hour) =? 2 * hour then l - 2 * hour else l - hour.

(** An ISO date is UTC midnight; a date followed by a time of day is local
    time. *)
Definition parse (s : string) : number :=
  match split " " s with
  | [d] => UTC.parseDate d
  | [d; t] =>
      match add (UTC.parseDate d) (UTC.clockMs t) with
      | Num l => Num (toUTC l)
      | NaN => NaN
      end
  | _ => NaN
  end.

Definition host : DateHost :=
  {| Date_parse := parse;
     Date_getDay := fun t => (toLocal t / UTC.msPerDay + 4) mod 7;
     Date_setHours0 := fun t => toUTC (toLocal t / UTC.msPerDay * UTC.msPerDay);
     Date_addDays := fun t i => toUTC (toLocal t + i * UTC.msPerDay);
     Date_toISODate := UTC.toISODate |}.

End Berlin.

(* ================================================================== *)
(** ** Quantities the statements are phrased with *)
(* ================================================================== *)

Fixpoint allDigits (s : string) : bool :=
  match s with
  | EmptyString => true
  | String c r => charIn "0" "9" c && allDigits r
  end.

(** The number of iterations of the slot loop for a positive step. *)
Definition slotCount (cursor endTotalMinutes duration slotDuration : Z) : nat :=
  if cursor + duration <=? endTotalMinutes
  then S (Z.to_nat ((endTotalMinutes - cursor - duration) / slotDuration))
  else O.

(** Iterations the slot loop needs for one rule, and a bound for every rule
    of the database. *)
Definition ruleFuel (service : Service) (rule : AvailabilityRule) : nat :=
  match timeStringToMinutes (rule_start_time rule),
        timeStringToMinutes (rule_end_time rule) with
  | Num s, Num e =>
      slotCount s e (duration_minutes service)
                (duration_minutes service + orNumber (buffer_after_minutes service) 0)
  | _, _ => O
  end.

Definition rulesFuel (service : Service) (rules : list AvailabilityRule) : nat :=
  fold_right (fun r acc => Nat.max (ruleFuel service r) acc) O rules.

Definition dbFuel (db : Database) (service : Service) : nat :=
  rulesFuel service (availability_rules db).

Definition slotStep (service : Service) : Z :=
  duration_minutes service + orNumber (buffer_after_minutes service) 0.



(** Whether a string has the separator [timeStringToMinutes] splits at. *)
Fixpoint hasColon (s : string) : bool :=
  match s with
  | EmptyString => false
  | String c r => Ascii.eqb c ":" || hasColon r
  end.

(** The date strings of the seven days of [getWeekAvailability]. *)
Definition weekDates (host : DateHost) (start : Z) : list string :=
  map (fun i => Date_toISODate host (Date_addDays host start i)) [0; 1; 2; 3; 4; 5; 6].

(** The conflict test of the marking step for a capacity-scoped service. *)
Definition capacityConflict (service : Service) (slot : TimeSlot) (booking : Booking) : bool :=
  timeSlotsOverlap (slot_start_time slot) (slot_end_time slot)
                   (booking_start_time booking) (booking_end_time booking)
  && (party_size booking >=? capacity service).


(** The threshold the policy check uses. *)
Definition policyHours (details : BookingDetails) : Z :=
  orNumber (details_cancellation_hours details) 24.


(** The key [uniqueSlots] compares slots by. *)
Definition slotKey (s : TimeSlot) : string * string * option Z :=
  (slot_start_time s, slot_end_time s, slot_staff_member_id s).

(** The start of a slot in minutes (0 when it does not parse). *)
Definition startMinutes (s : TimeSlot) : Z :=
  match timeStringToMinutes (slot_start_time s) with
  | Num z => z
  | NaN => 0
  end.

Definition startsBefore (a b : TimeSlot) : Prop := startMinutes a <= startMinutes b.

Definition startParses (s : TimeSlot) : Prop :=
  exists z, timeStringToMinutes (slot_start_time s) = Num z.

(** Rule windows that start at a non-negative minute count. *)
Definition rulesStartAtOrAfterMidnight (db : Database) : Prop :=
  forall rule ws,
    In rule (availability_rules db) ->
    timeStringToMinutes (rule_start_time rule) = Num ws -> 0 <= ws.

(** The database with the bookings of one id taken out of the ledger. *)
Definition withoutBooking (db : Database) (bookingId : Z) : Database :=
  {| business := business db;
     services := services db;
     staff_members := staff_members db;
     staff_services := staff_services db;
     availability_rules := availability_rules db;
     special_availability := special_availability db;
     bookings := filter (fun b => negb (booking_id b =? bookingId)) (bookings db) |}.

(** The rows of [special_availability] the validator reads: those of the
    business and, when a staff member is given, those of that staff
    member, on the date. *)
Definition specialsForRequest (db : Database) (businessId : Z) (staffMemberId : option Z)
    (date : string) : list SpecialAvailability :=
  filter (fun sp =>
      (sqlEq (special_business_id sp) businessId
       || (truthyOptNumber staffMemberId
           && sqlEq (special_staff_member_id sp) (orNumber staffMemberId 0)))
      && String.eqb (special_date sp) date) (special_availability db).

(** What a write for booking [bookingId] may change: nothing outside the
    ledger, no row's identity columns, no row of another id. *)
Definition ledgerFrame (bookingId : Z) (db db' : Database) : Prop :=
  business db' = business db
  /\ services db' = services db
  /\ staff_members db' = staff_members db
  /\ staff_services db' = staff_services db
  /\ availability_rules db' = availability_rules db
  /\ special_availability db' = special_availability db
  /\ Forall2 (fun old new =>
        booking_id new = booking_id old
        /\ booking_business_id new = booking_business_id old
        /\ booking_service_id new = booking_service_id old
        /\ booking_staff_member_id new = booking_staff_member_id old
        /\ (booking_id old <> bookingId -> new = old))
       (bookings db) (bookings db').

(** A row after a customer's cancellation at time [now]. *)
Definition cancelledRow (now : Z) (reason : option string) (row : Booking) : Booking :=
  {| booking_id := booking_id row;
     booking_business_id := booking_business_id row;
     booking_service_id := booking_service_id row;
     booking_staff_member_id := booking_staff_member_id row;
     customer_name := customer_name row;
     customer_email := customer_email row;
     customer_phone := customer_phone row;
     booking_date := booking_date row;
     booking_start_time := booking_start_time row;
     booking_end_time := booking_end_time row;
     party_size := party_size row;
     special_requests := special_requests row;
     status := cancelled;
     payment_status := payment_status row;
     cancelled_at := Some now;
     cancellation_reason := Some (orString reason "Customer cancellation");
     updated_at := now |}.

(** The patch [cancelBooking] hands to [updateBooking]. *)
Definition cancellationPatch (reason : option string) : BookingUpdateInput :=
  {| upd_service_id := None; upd_staff_member_id := None; upd_customer_name := None;
     upd_customer_email := None; upd_customer_phone := None; upd_booking_date := None;
     upd_start_time := None; upd_end_time := None; upd_party_size := None;
     upd_special_requests := None;
     upd_status := Some cancelled;
     upd_payment_status := None;
     upd_cancellation_reason := Some (orString reason "Customer cancellation") |}.

(** Does the patch ask for a new date, time or party size (a truthy value)? *)
Definition changesSchedule (updates : BookingUpdateInput) : bool :=
  truthyOptString (upd_booking_date updates) || truthyOptString (upd_start_time updates)
  || truthyOptString (upd_end_time updates) || truthyOptNumber (upd_party_size updates).

(** The patch carries no empty date or time and no zero party size: the
    values [updateBooking] validates ([a || b]) are then the ones it writes
    ([!== undefined]). *)
Definition noEmptyScheduleField (updates : BookingUpdateInput) : Prop :=
  upd_booking_date updates <> Some EmptyString
  /\ upd_start_time updates <> Some EmptyString
  /\ upd_end_time updates <> Some EmptyString
  /\ upd_party_size updates <> Some 0.

(* ================================================================== *)
(** ** A small ledger to run the services on *)
(* ================================================================== *)

Module Example.

Definition bistro : Business :=
  {| business_id := 1; booking_link_slug := "bistro";
     cancellation_hours := Some 24; business_is_active := true |}.

(** A business that lets its customers cancel at any time. *)
Definition walkIn : Business :=
  {| business_id := 2; booking_link_slug := "walk-in";
     cancellation_hours := Some 0; business_is_active := true |}.

Definition dinner : Service :=
  {| service_id := 1; service_business_id := 1; duration_minutes := 60; capacity := 4;
     requires_staff := false; buffer_after_minutes := Some 0; service_is_active := true |}.

Definition lunch : Service :=
  {| service_id := 2; service_business_id := 2; duration_minutes := 60; capacity := 4;
     requires_staff := false; buffer_after_minutes := Some 0; service_is_active := true |}.

Definition mondayMorning (businessId : Z) : AvailabilityRule :=
  {| rule_business_id := Some businessId; rule_staff_member_id := None;
     rule_day_of_week := 1; rule_start_time := "09:00"; rule_end_time := "12:00";
     rule_is_active := true |}.

Definition holiday : SpecialAvailability :=
  {| special_business_id := Some 1; special_staff_member_id := None;
     special_date := "2030-01-14"; special_start_time := None; special_end_time := None;
     special_is_available := false; special_reason := Some "Holiday" |}.

Definition row (id businessId serviceId : Z) (email date startTime endTime : string)
    (partySize : Z) (st : BookingStatus) : Booking :=
  {| booking_id := id; booking_business_id := businessId; booking_service_id := serviceId;
     booking_staff_member_id := None; customer_name := "Customer"; customer_email := email;
     customer_phone := None; booking_date := date; booking_start_time := startTime;
     booking_end_time := endTime; party_size := partySize; special_requests := None;
     status := st; payment_status := "pending"; cancelled_at := None;
     cancellation_reason := None; updated_at := 0 |}.

Definition ledger : list Booking :=
  [ row 1 1 1 "Ann@Example.com" "2030-01-07" "10:00" "11:00" 2 confirmed;
    row 2 1 1 "bob@example.com" "2030-01-07" "10:00" "11:00" 2 pending;
    row 3 1 1 "cat@example.com" "2030-01-07" "11:00" "12:00" 4 confirmed;
    row 4 1 1 "dan@example.com" "2030-01-21" "09:00" "10:00" 1 cancelled;
    row 5 1 1 "eve@example.com" "2030-01-21" "10:00" "11:00" 1 completed;
    row 6 2 2 "fay@example.com" "2030-01-07" "10:00" "11:00" 1 confirmed ].

Definition db : Database :=
  {| business := [bistro; walkIn];
     services := [dinner; lunch];
     staff_members := [];
     staff_services := [];
     availability_rules := [mondayMorning 1; mondayMorning 2];
     special_availability := [holiday];
     bookings := ledger |}.

(** 2030-01-01 00:00, 2030-01-07 00:00 (a Monday), 05:00 and 12:00 of that
    day, in milliseconds. *)
Definition newYear : Z := 1893456000000.
Definition monday : Z := 1893974400000.
Definition monday5am : Z := monday + 5 * 3600000.
Definition mondayNoon : Z := monday + 12 * 3600000.

Definition statusPatch (st : BookingStatus) : BookingUpdateInput :=
  {| upd_service_id := None; upd_staff_member_id := None; upd_customer_name := None;
     upd_customer_email := None; upd_customer_phone := None; upd_booking_date := None;
     upd_start_time := None; upd_end_time := None; upd_party_size := None;
     upd_special_requests := None; upd_status := Some st; upd_payment_status := None;
     upd_cancellation_reason := None |}.

Definition namePatch (name : string) : BookingUpdateInput :=
  {| upd_service_id := None; upd_staff_member_id := None; upd_customer_name := Some name;
     upd_customer_email := None; upd_customer_phone := None; upd_booking_date := None;
     upd_start_time := None; upd_end_time := None; upd_party_size := None;
     upd_special_requests := None; upd_status := None; upd_payment_status := None;
     upd_cancellation_reason := None |}.

Definition datePatch (date : string) : BookingUpdateInput :=
  {| upd_service_id := None; upd_staff_member_id := None; upd_customer_name := None;
     upd_customer_email := None; upd_customer_phone := None; upd_booking_date := Some date;
     upd_start_time := None; upd_end_time := None; upd_party_size := None;
     upd_special_requests := None; upd_status := None; upd_payment_status := None;
     upd_cancellation_reason := None |}.

Definition slot (startTime endTime : string) (free : bool) : TimeSlot :=
  {| slot_start_time := startTime; slot_end_time := endTime;
     slot_available := free; slot_staff_member_id := None |}.

End Example.

(* ================================================================== *)
(** ** A salon: one staff member, one staff service *)
(* ================================================================== *)

Module Salon.

Definition studio : Business :=
  {| business_id := 1; booking_link_slug := "studio";
     cancellation_hours := Some 24; business_is_active := true |}.

Definition haircut : Service :=
  {| service_id := 1; service_business_id := 1; duration_minutes := 30; capacity := 1;
     requires_staff := true; buffer_after_minutes := Some 0; service_is_active := true |}.

Definition alice : StaffMember := {| staff_id := 7; staff_is_active := true |}.

Definition aliceMonday : AvailabilityRule :=
  {| rule_business_id := None; rule_staff_member_id := Some 7;
     rule_day_of_week := 1; rule_start_time := "09:00"; rule_end_time := "11:00";
     rule_is_active := true |}.

(** The studio closes for the last half hour of that Monday. *)
Definition training : SpecialAvailability :=
  {| special_business_id := Some 1; special_staff_member_id := None;
     special_date := "2030-01-07"; special_start_time := Some "10:30";
     special_end_time := Some "11:00";
     special_is_available := false; special_reason := Some "Training" |}.

Definition appointment : Booking :=
  {| booking_id := 1; booking_business_id := 1; booking_service_id := 1;
     booking_staff_member_id := Some 7; customer_name := "Gil";
     customer_email := "gil@example.com"; customer_phone := None;
     booking_date := "2030-01-07"; booking_start_time := "09:00";
     booking_end_time := "09:30"; party_size := 1; special_requests := None;
     status := confirmed; payment_status := "pending"; cancelled_at := None;
     cancellation_reason := None; updated_at := 0 |}.

Definition db : Database :=
  {| business := [studio];
     services := [haircut];
     staff_members := [alice];
     staff_services := [{| ss_staff_member_id := 7; ss_service_id := 1 |}];
     availability_rules := [aliceMonday];
     special_availability := [training];
     bookings := [appointment] |}.

Definition staffSlot (startTime endTime : string) (free : bool) : TimeSlot :=
  {| slot_start_time := startTime; slot_end_time := endTime;
     slot_available := free; slot_staff_member_id := Some 7 |}.

(** What [getAvailableSlots] lists for that Monday. *)
Definition mondayListing : DayAvailability :=
  {| day_date := Num Example.monday; day_of_week := Num 1;
     time_slots := [staffSlot "09:00" "09:30" false; staffSlot "09:30" "10:00" true;
                    staffSlot "10:00" "10:30" true] |}.

(** A request body for 2030-01-07. *)
Definition request (businessId serviceId : Z) (staffMemberId : option Z)
    (startTime endTime : string) (partySize : option Z) : BookingCreateInput :=
  {| new_business_id := businessId; new_service_id := serviceId;
     new_staff_member_id := staffMemberId; new_customer_name := "Hal";
     new_customer_email := "hal@example.com"; new_customer_phone := None;
     new_booking_date := "2030-01-07"; new_start_time := startTime;
     new_end_time := endTime; new_party_size := partySize;
     new_special_requests := None |}.

Definition partyPatch (partySize : Z) : BookingUpdateInput :=
  {| upd_service_id := None; upd_staff_member_id := None; upd_customer_name := None;
     upd_customer_email := None; upd_customer_phone := None; upd_booking_date := None;
     upd_start_time := None; upd_end_time := None; upd_party_size := Some partySize;
     upd_special_requests := None; upd_status := None; upd_payment_status := None;
     upd_cancellation_reason := None |}.

(** No phone is required, and the store takes every row. *)
Definition noPhone (_ : Business) : bool := false.
Definition takesAll (_ : Database) (_ : Booking) : bool := true.

(** The studio with a second service of the same staff member. *)
Definition colouring : Service :=
  {| service_id := 2; service_business_id := 1; duration_minutes := 30; capacity := 1;
     requires_staff := true; buffer_after_minutes := Some 0; service_is_active := true |}.

Definition twoServices : Database :=
  {| business := [studio];
     services := [haircut; colouring];
     staff_members := [alice];
     staff_services := [{| ss_staff_member_id := 7; ss_service_id := 1 |};
                        {| ss_staff_member_id := 7; ss_service_id := 2 |}];
     availability_rules := [aliceMonday];
     special_availability := [];
     bookings := [] |}.

End Salon.

(** What [getAvailableSlots] lists for the bistro's dinner on 2030-01-07. *)
Definition bistroMonday : DayAvailability :=
  {| day_date := Num Example.monday; day_of_week := Num 1;
     time_slots := [Example.slot "09:00" "10:00" true; Example.slot "10:00" "11:00" true;
                    Example.slot "11:00" "12:00" false] |}.

(** A day's computation that loses its connection on 2030-01-09. *)
Definition flakyDay (dateString : string) : outcome DayAvailability :=
  if String.eqb dateString "2030-01-09" then Thrown "connection lost"
  else getAvailableSlots UTC.host 3 Example.db 1 1 dateString.

(* ================================================================== *)
(** ** Strings of digits: printing and reading back *)
(* ================================================================== *)

Lemma charIn_bounds lo hi c :
  charIn lo hi c = true ->
  (nat_of_ascii lo <= nat_of_ascii c <= nat_of_ascii hi)%nat.
Proof.
  unfold charIn. rewrite andb_true_iff, !Nat.leb_le. tauto.
Qed.

Lemma digit_bounds c : charIn "0" "9" c = true -> (48 <= nat_of_ascii c <= 57)%nat.
Proof. intros H. apply charIn_bounds in H. exact H. Qed.

Lemma ascii_eqb_nat c1 c2 :
  nat_of_ascii c1 <> nat_of_ascii c2 -> Ascii.eqb c1 c2 = false.
Proof.
  intros H. apply Ascii.eqb_neq. intros ->. now apply H.
Qed.

Lemma digit_not_space c : charIn "0" "9" c = true -> isWhiteSpace c = false.
Proof.
  intros H. apply digit_bounds in H. unfold isWhiteSpace.
  apply orb_false_iff. split.
  - apply andb_false_iff. right. apply Nat.leb_gt. lia.
  - apply Nat.eqb_neq. lia.
Qed.

Lemma digit_not_char c (x : ascii) :
  charIn "0" "9" c = true -> (nat_of_ascii x < 48 \/ 57 < nat_of_ascii x)%nat ->
  Ascii.eqb c x = false.
Proof.
  intros H Hx. apply digit_bounds in H. apply ascii_eqb_nat. lia.
Qed.

Lemma uint_of_string_allDigits s :
  forall d, NilEmpty.uint_of_string s = Some d -> allDigits s = true.
Proof.
  induction s as [|c r IH]; intros d H; [reflexivity|].
  simpl in H. destruct (NilEmpty.uint_of_string r) as [d'|] eqn:E; [|discriminate].
  simpl. rewrite (IH d' eq_refl), andb_true_r.
  apply uint_of_char_spec in H.
  repeat (destruct H as [[-> _]|H]; [reflexivity|]).
  destruct H as [-> _]. reflexivity.
Qed.

Lemma trimEnd_allDigits s : allDigits s = true -> trimEnd s = s.
Proof.
  induction s as [|c r IH]; intros H; [reflexivity|].
  simpl in H. apply andb_true_iff in H. destruct H as [Hc Hr].
  simpl. rewrite (IH Hr). destruct r; [|reflexivity].
  now rewrite (digit_not_space c Hc).
Qed.

Lemma trim_allDigits s : allDigits s = true -> trim s = s.
Proof.
  intros H. unfold trim.
  assert (E : trimStart s = s).
  { destruct s as [|c r]; [reflexivity|]. simpl in *.
    apply andb_true_iff in H. now rewrite (digit_not_space c (proj1 H)). }
  rewrite E. now apply trimEnd_allDigits.
Qed.

Lemma Number_allDigits s :
  allDigits s = true -> s <> EmptyString -> Number s = decimalDigits s.
Proof.
  intros H Hne. unfold Number. rewrite (trim_allDigits s H).
  destruct s as [|c r]; [congruence|].
  simpl in H. apply andb_true_iff in H. destruct H as [Hc _].
  rewrite (digit_not_char c "+" Hc), (digit_not_char c "-" Hc); [reflexivity| |];
    left; cbn; lia.
Qed.

Lemma split_allDigits s : allDigits s = true -> split ":" s = [s].
Proof.
  induction s as [|c r IH]; intros H; [reflexivity|].
  simpl in H. apply andb_true_iff in H. destruct H as [Hc Hr].
  simpl. rewrite (digit_not_char c ":" Hc) by (right; cbn; lia).
  now rewrite (IH Hr).
Qed.

Lemma split_allDigits_app s t :
  allDigits s = true ->
  split ":" (s ++ String ":" t) = s :: split ":" t.
Proof.
  induction s as [|c r IH]; intros H.
  - reflexivity.
  - simpl in H. apply andb_true_iff in H. destruct H as [Hc Hr].
    simpl. rewrite (digit_not_char c ":" Hc) by (right; cbn; lia).
    now rewrite (IH Hr).
Qed.

Lemma toString_nonneg k :
  0 <= k ->
  exists d, d <> Decimal.Nil /\ toString k = NilEmpty.string_of_uint d /\ Z.of_uint d = k.
Proof.
  intros Hk. destruct k as [|p|p]; [| |lia].
  - exists (Decimal.D0 Decimal.Nil). repeat split. discriminate.
  - exists (Pos.to_uint p). split; [apply DecimalPos.Unsigned.to_uint_nonnil|].
    split.
    + unfold toString. simpl.
      pose proof (DecimalPos.Unsigned.to_uint_nonnil p) as Hn.
      unfold NilZero.string_of_uint. destruct (Pos.to_uint p); congruence.
    + unfold Z.of_uint. now rewrite DecimalPos.Unsigned.of_to.
Qed.

Lemma string_of_uint_nonempty d :
  d <> Decimal.Nil -> NilEmpty.string_of_uint d <> EmptyString.
Proof. destruct d; simpl; congruence. Qed.

Lemma decimalDigits_string_of_uint d :
  d <> Decimal.Nil -> decimalDigits (NilEmpty.string_of_uint d) = Num (Z.of_uint d).
Proof.
  intros Hd. unfold decimalDigits, NilZero.uint_of_string.
  pose proof (string_of_uint_nonempty d Hd) as Hne.
  destruct (NilEmpty.string_of_uint d) eqn:E; [congruence|].
  rewrite <- E, NilEmpty.usu. reflexivity.
Qed.

Lemma decimalDigits_leading_zero s :
  s <> EmptyString -> decimalDigits (String "0" s) = decimalDigits s.
Proof.
  intros Hne. unfold decimalDigits, NilZero.uint_of_string.
  destruct s as [|c r]; [congruence|].
  change (NilEmpty.uint_of_string (String "0" (String c r)))
    with (uint_of_char "0" (NilEmpty.uint_of_string (String c r))).
  destruct (NilEmpty.uint_of_string (String c r)); reflexivity.
Qed.

(** Two-digit padding keeps a printed non-negative integer readable. *)
Lemma padded_toString k :
  0 <= k ->
  allDigits (padStart 2 "0" (toString k)) = true
  /\ Number (padStart 2 "0" (toString k)) = Num k.
Proof.
  intros Hk. destruct (toString_nonneg k Hk) as (d & Hd & Hs & Hv).
  pose proof (string_of_uint_nonempty d Hd) as Hne.
  pose proof (decimalDigits_string_of_uint d Hd) as Hdd.
  assert (Had : allDigits (NilEmpty.string_of_uint d) = true)
    by (apply (uint_of_string_allDigits _ d), NilEmpty.usu).
  rewrite Hs. unfold padStart.
  destruct (NilEmpty.string_of_uint d) as [|c [|c' r]] eqn:E; [congruence| |].
  - simpl. simpl in Had. rewrite Had. split; [reflexivity|].
    rewrite Number_allDigits; [|simpl; now rewrite Had|discriminate].
    rewrite decimalDigits_leading_zero by discriminate. now rewrite Hdd, Hv.
  - simpl. split; [exact Had|].
    rewrite Number_allDigits; [|exact Had|discriminate]. now rewrite Hdd, Hv.
Qed.

(** Reading back a printed time: [formatTime] is inverted by
    [timeStringToMinutes] on the non-negative minute counts. *)
Lemma timeStringToMinutes_formatTime n :
  0 <= n -> timeStringToMinutes (formatTime n) = Num n.
Proof.
  intros Hn. unfold timeStringToMinutes, splitNumbers, formatTime, floorDiv, remainder.
  assert (Hq : 0 <= n / 60) by (apply Z.div_pos; lia).
  assert (Hr : 0 <= Z.rem n 60) by (apply Z.rem_nonneg; lia).
  destruct (padded_toString _ Hq) as [Hqa Hqn].
  destruct (padded_toString _ Hr) as [Hra Hrn].
  change (?a ++ ":" ++ ?b)%string with (a ++ String ":" b)%string.
  rewrite (split_allDigits_app _ _ Hqa), (split_allDigits _ Hra).
  simpl. rewrite Hqn, Hrn. simpl. f_equal.
  rewrite Z.rem_mod_nonneg by lia.
  pose proof (Z.div_mod n 60). lia.
Qed.

(* ================================================================== *)
(** ** generateTimeSlots *)
(* ================================================================== *)

Lemma slotCount_step cursor e d step :
  1 <= step -> cursor + d <= e ->
  slotCount cursor e d step = S (slotCount (cursor + step) e d step).
Proof.
  intros Hs Hc. unfold slotCount.
  destruct (Z.leb_spec (cursor + d) e); [|lia].
  f_equal. destruct (Z.leb_spec (cursor + step + d) e).
  - replace (e - cursor - d) with ((e - (cursor + step) - d) + 1 * step) by lia.
    rewrite Z.div_add by lia.
    assert (0 <= (e - (cursor + step) - d) / step) by (apply Z.div_pos; lia).
    lia.
  - rewrite Z.div_small by lia. reflexivity.
Qed.

Lemma slotLoop_spec fuel :
  forall cursor e d step,
    1 <= step -> (slotCount cursor e d step <= fuel)%nat ->
    slotLoop fuel cursor e d step
    = Some (map (fun i => slotAt (cursor + Z.of_nat i * step) d)
                (seq 0 (slotCount cursor e d step))).
Proof.
  induction fuel as [|fuel IH]; intros cursor e d step Hs Hf; simpl.
  - destruct (Z.leb_spec (cursor + d) e) as [Hc|Hc].
    + rewrite (slotCount_step _ _ _ _ Hs Hc) in Hf. lia.
    + unfold slotCount. destruct (Z.leb_spec (cursor + d) e); [lia|reflexivity].
  - destruct (Z.leb_spec (cursor + d) e) as [Hc|Hc].
    + rewrite (slotCount_step _ _ _ _ Hs Hc) in *.
      rewrite IH by lia. simpl. f_equal. f_equal.
      * f_equal. lia.
      * rewrite <- seq_shift, map_map. apply map_ext. intros i. f_equal. lia.
    + unfold slotCount. destruct (Z.leb_spec (cursor + d) e); [lia|reflexivity].
Qed.

Lemma slotCount_bounds cursor e d step i :
  1 <= step -> (i < slotCount cursor e d step)%nat ->
  cursor + Z.of_nat i * step + d <= e.
Proof.
  intros Hs Hi. unfold slotCount in Hi.
  destruct (Z.leb_spec (cursor + d) e) as [Hc|Hc]; [|lia].
  assert (Hq : 0 <= (e - cursor - d) / step) by (apply Z.div_pos; lia).
  assert (Z.of_nat i <= (e - cursor - d) / step) by lia.
  pose proof (Z.mul_div_le (e - cursor - d) step ltac:(lia)).
  nia.
Qed.

Lemma slotCount_maximal cursor e d step :
  1 <= step ->
  e < cursor + Z.of_nat (slotCount cursor e d step) * step + d.
Proof.
  intros Hs. unfold slotCount.
  destruct (Z.leb_spec (cursor + d) e) as [Hc|Hc]; [|simpl; lia].
  assert (Hq : 0 <= (e - cursor - d) / step) by (apply Z.div_pos; lia).
  rewrite Nat2Z.inj_succ, Z2Nat.id by lia.
  pose proof (Z.div_mod (e - cursor - d) step ltac:(lia)).
  pose proof (Z.mod_pos_bound (e - cursor - d) step ltac:(lia)).
  nia.
Qed.

(** Without a positive step the loop never leaves a window that holds one
    slot: no amount of fuel is enough. *)
Lemma slotLoop_diverges fuel :
  forall cursor e d step,
    step <= 0 -> cursor + d <= e -> slotLoop fuel cursor e d step = None.
Proof.
  induction fuel as [|fuel IH]; intros cursor e d step Hs Hc; simpl;
    destruct (Z.leb_spec (cursor + d) e); try lia; [reflexivity|].
  rewrite IH by lia. reflexivity.
Qed.

Lemma generateTimeSlots_parsed fuel startTime endTime ws we duration bufferAfter :
  timeStringToMinutes startTime = Num ws ->
  timeStringToMinutes endTime = Num we ->
  generateTimeSlots fuel startTime endTime duration bufferAfter
  = slotLoop fuel ws we duration (duration + bufferAfter).
Proof.
  unfold timeStringToMinutes, generateTimeSlots.
  destruct (splitNumbers startTime) as [sh sm], (splitNumbers endTime) as [eh em].
  intros -> ->. reflexivity.
Qed.

(** *** The loop on doubles *)

Lemma nearest_exact z : Z.abs z <= 2 ^ 53 -> Double.nearest z = z.
Proof.
  intros H. unfold Double.nearest. apply Z.leb_le in H. now rewrite H.
Qed.

(** On small integers every sum of the loop is exact, and the loop on
    doubles is the loop on integers. *)
Lemma slotLoop64_small fuel :
  forall cursor e d step,
    1 <= step -> Z.abs e <= 2 ^ 51 -> Z.abs d <= 2 ^ 51 -> Z.abs (step - d) <= 2 ^ 51 ->
    - 2 ^ 51 <= cursor <= 2 * 2 ^ 51 ->
    slotLoop64 fuel cursor e d step = slotLoop fuel cursor e d step.
Proof.
  assert (P53 : 2 ^ 53 = 4 * 2 ^ 51) by reflexivity.
  induction fuel as [|fuel IH]; intros cursor e d step Hs He Hd Hb Hc;
    cbn [slotLoop64 slotLoop];
    rewrite (nearest_exact (cursor + d)) by lia.
  - reflexivity.
  - destruct (Z.leb_spec (cursor + d) e) as [Hfit|_]; [|reflexivity].
    rewrite (nearest_exact (cursor + step)) by lia.
    rewrite IH by lia. reflexivity.
Qed.

Lemma generateTimeSlots64_small fuel startTime endTime ws we duration bufferAfter :
  timeStringToMinutes64 startTime = Num ws ->
  timeStringToMinutes64 endTime = Num we ->
  Double.small ws -> Double.small we -> Double.small duration -> Double.small bufferAfter ->
  1 <= duration + bufferAfter ->
  generateTimeSlots64 fuel startTime endTime duration bufferAfter
  = slotLoop fuel ws we duration (duration + bufferAfter).
Proof.
  unfold Double.small. intros Hs He Hws Hwe Hd Hb Hstep.
  assert (P53 : 2 ^ 53 = 4 * 2 ^ 51) by reflexivity.
  unfold generateTimeSlots64. rewrite Hs, He.
  rewrite (nearest_exact (duration + bufferAfter)) by lia.
  apply slotLoop64_small; lia.
Qed.

(** When adding the step gives the cursor back, the loop on doubles never
    leaves its first iteration. *)
Lemma slotLoop64_stays fuel cursor e d step :
  Double.nearest (cursor + d) <= e ->
  Double.nearest (cursor + step) = cursor ->
  slotLoop64 fuel cursor e d step = None.
Proof.
  intros Hfit Hstay. apply Z.leb_le in Hfit.
  induction fuel as [|fuel IH]; cbn [slotLoop64]; rewrite Hfit; [reflexivity|].
  rewrite Hstay, IH. reflexivity.
Qed.

(** C5 (as the code has it). For a window whose bounds are small integers,
    small integer [duration] and [bufferAfter], and a step
    [duration + bufferAfter] of at least 1: the slots start at the window
    start, are [duration] long and [duration + bufferAfter] apart, lie
    inside the window, and stop exactly when the next one would not fit; a
    window shorter than [duration] gives none.  The slot times are the
    printed minute counts, which read back exactly when they are not
    negative. *)
Theorem generateTimeSlots_slots :
  forall fuel startTime endTime ws we duration bufferAfter,
    timeStringToMinutes64 startTime = Num ws ->
    timeStringToMinutes64 endTime = Num we ->
    Double.small ws -> Double.small we ->
    Double.small duration -> Double.small bufferAfter ->
    1 <= duration + bufferAfter ->
    (slotCount ws we duration (duration + bufferAfter) <= fuel)%nat ->
    exists slots,
      generateTimeSlots64 fuel startTime endTime duration bufferAfter = Some slots
      /\ slots = map (fun i => slotAt (ws + Z.of_nat i * (duration + bufferAfter)) duration)
                     (seq 0 (slotCount ws we duration (duration + bufferAfter)))
      /\ (we - ws < duration -> slots = [])
      /\ (forall i slot, nth_error slots i = Some slot ->
            let cursor := ws + Z.of_nat i * (duration + bufferAfter) in
            slot = {| slot_start_time := formatTime cursor;
                      slot_end_time := formatTime (cursor + duration);
                      slot_available := true;
                      slot_staff_member_id := None |}
            /\ ws <= cursor /\ cursor + duration <= we
            /\ (0 <= ws -> 0 <= duration ->
                timeStringToMinutes (slot_start_time slot) = Num cursor
                /\ timeStringToMinutes (slot_end_time slot) = Num (cursor + duration)))
      /\ we < ws + Z.of_nat (List.length slots) * (duration + bufferAfter) + duration.
Proof.
  intros fuel startTime endTime ws we d b Hs He Sws Swe Sd Sb Hstep Hfuel.
  rewrite (generateTimeSlots64_small fuel _ _ _ _ _ _ Hs He Sws Swe Sd Sb Hstep).
  set (step := d + b) in *.
  eexists. split; [|split; [reflexivity|]].
  - now apply slotLoop_spec.
  - split; [|split].
    + intros Hshort. unfold slotCount.
      destruct (Z.leb_spec (ws + d) we); [lia|reflexivity].
    + intros i slot Hnth cursor.
      assert (Hi : (i < slotCount ws we d step)%nat).
      { assert (Hlt : nth_error
            (map (fun i => slotAt (ws + Z.of_nat i * step) d)
                 (seq 0 (slotCount ws we d step))) i <> None) by congruence.
        apply nth_error_Some in Hlt.
        now rewrite length_map, length_seq in Hlt. }
      rewrite nth_error_map, nth_error_seq in Hnth.
      destruct (Nat.ltb_spec i (slotCount ws we d step)); [|lia].
      simpl in Hnth. injection Hnth as <-. fold cursor.
      pose proof (slotCount_bounds _ _ _ _ _ Hstep Hi) as Hfit. fold cursor in Hfit.
      assert (Hlow : ws <= cursor) by (unfold cursor; nia).
      split; [reflexivity|]. split; [exact Hlow|]. split; [exact Hfit|].
      intros Hws Hd. simpl. rewrite !timeStringToMinutes_formatTime by lia. auto.
    + rewrite length_map, length_seq. now apply slotCount_maximal.
Qed.

(** C10 (as the code has it). With a step of at least 1 and a window,
    duration and buffer that are small integers the slot loop terminates:
    some number of iterations suffices for every larger fuel, and the
    result is a finite list of that length.  Beyond 2^53 a cursor can be a
    double that the step no longer moves. *)
Theorem generateTimeSlots_terminates :
  forall startTime endTime ws we duration bufferAfter,
    timeStringToMinutes64 startTime = Num ws ->
    timeStringToMinutes64 endTime = Num we ->
    Double.small ws -> Double.small we ->
    Double.small duration -> Double.small bufferAfter ->
    1 <= duration + bufferAfter ->
    exists n slots,
      List.length slots = n
      /\ forall fuel, (n <= fuel)%nat ->
           generateTimeSlots64 fuel startTime endTime duration bufferAfter = Some slots.
Proof.
  intros startTime endTime ws we d b Hs He Sws Swe Sd Sb Hstep.
  exists (slotCount ws we d (d + b)).
  eexists. split.
  2:{ intros fuel Hfuel.
      rewrite (generateTimeSlots64_small fuel _ _ _ _ _ _ Hs He Sws Swe Sd Sb Hstep).
      now apply slotLoop_spec. }
  now rewrite length_map, length_seq.
Qed.

(** On the integers the precondition on the step is all there is: with
    [duration + bufferAfter <= 0] and room for one slot the call never
    returns. *)
Lemma generateTimeSlots_diverges :
  forall fuel startTime endTime ws we duration bufferAfter,
    timeStringToMinutes startTime = Num ws ->
    timeStringToMinutes endTime = Num we ->
    duration + bufferAfter <= 0 -> ws + duration <= we ->
    generateTimeSlots fuel startTime endTime duration bufferAfter = None.
Proof.
  intros fuel startTime endTime ws we d b Hs He Hstep Hroom.
  rewrite (generateTimeSlots_parsed _ _ _ _ _ _ _ Hs He).
  now apply slotLoop_diverges.
Qed.

(* ================================================================== *)
(** ** timeStringToMinutes and the time pattern *)
(* ================================================================== *)

Lemma charIn_cases lo hi c :
  charIn lo hi c = true ->
  In c (map ascii_of_nat
            (seq (nat_of_ascii lo) (nat_of_ascii hi - nat_of_ascii lo + 1))).
Proof.
  intros H. apply charIn_bounds in H.
  rewrite <- (ascii_nat_embedding c). apply in_map, in_seq. lia.
Qed.

Ltac pick_char H :=
  repeat (destruct H as [H|H]; [subst|]); try contradiction.

(** C4 (as the code has it). On a string that matches the time pattern,
    [timeStringToMinutes] returns the minutes since midnight: hours * 60 +
    minutes with the hour in 0..23 and the minute in 0..59, the string being
    that hour (with or without a leading zero), a colon and the two-digit
    minute. *)
Theorem timeStringToMinutes_wellformed :
  forall s,
    timeFormatTest s = true ->
    exists h m,
      0 <= h <= 23 /\ 0 <= m <= 59
      /\ timeStringToMinutes s = Num (h * 60 + m)
      /\ (s = formatTime (h * 60 + m)
          \/ s = (toString h ++ ":" ++ padStart 2 "0" (toString m))%string).
Proof.
  intros s H.
  pose (dv := fun c : ascii => Z.of_nat (nat_of_ascii c) - 48).
  destruct s as [|a [|b [|c [|d [|e [|f r]]]]]]; simpl in H;
    rewrite ?andb_false_r, ?orb_false_r, ?orb_false_l in H; try discriminate.
  - (* "H:MM" *)
    exists (dv a), (10 * dv c + dv d).
    rewrite !andb_true_iff in H. destruct H as [Ha [[Hb Hc] Hd]].
    apply Ascii.eqb_eq in Hb. subst b.
    apply charIn_cases in Ha, Hc, Hd. cbn in Ha, Hc, Hd.
    pick_char Ha; pick_char Hc; pick_char Hd;
      (split; [vm_compute; split; congruence|]);
      (split; [vm_compute; split; congruence|]);
      (split; [vm_compute; reflexivity|]);
      right; vm_compute; reflexivity.
  - (* "HH:MM" *)
    exists (10 * dv a + dv b), (10 * dv d + dv e).
    rewrite !andb_true_iff in H. destruct H as [Hab [[Hc Hd] He]].
    apply Ascii.eqb_eq in Hc. subst c.
    apply charIn_cases in Hd, He. cbn in Hd, He.
    rewrite orb_true_iff, !andb_true_iff in Hab.
    destruct Hab as [[Ha Hb]|[Ha Hb]].
    + apply charIn_cases in Ha, Hb. cbn in Ha, Hb.
      pick_char Ha; pick_char Hb; pick_char Hd; pick_char He;
        (split; [vm_compute; split; congruence|]);
        (split; [vm_compute; split; congruence|]);
        (split; [vm_compute; reflexivity|]);
        ((left; vm_compute; reflexivity) || (right; vm_compute; reflexivity)).
    + apply Ascii.eqb_eq in Ha. subst a.
      apply charIn_cases in Hb. cbn in Hb.
      pick_char Hb; pick_char Hd; pick_char He;
        (split; [vm_compute; split; congruence|]);
        (split; [vm_compute; split; congruence|]);
        (split; [vm_compute; reflexivity|]);
        left; vm_compute; reflexivity.
Qed.

(** The pattern is applied by [validateBookingRequest]: a start or end time
    outside it is reported as an error message in the result, and the
    request is not valid. *)
Lemma validateBookingRequest_format_error host now db businessId serviceId staffMemberId
      bookingDate startTime endTime partySize excludeBookingId :
  timeFormatTest startTime = false \/ timeFormatTest endTime = false ->
  valid (validateBookingRequest host now db businessId serviceId staffMemberId bookingDate
           startTime endTime partySize excludeBookingId) = false
  /\ In "Invalid time format. Use HH:MM"
        (errors (validateBookingRequest host now db businessId serviceId staffMemberId
                   bookingDate startTime endTime partySize excludeBookingId)).
Proof.
  intros Hbad.
  assert (Hfmt : negb (timeFormatTest startTime) || negb (timeFormatTest endTime) = true).
  { destruct Hbad as [-> | ->]; [reflexivity|apply orb_true_r]. }
  unfold validateBookingRequest. rewrite Hfmt.
  destruct (le (timeStringToMinutes endTime) (timeStringToMinutes startTime));
    destruct (lt (Date_parse host bookingDate) (Num (Date_setHours0 host now)));
    destruct (getServiceDetails db serviceId businessId) as [service|];
    simpl; try (split; [reflexivity|tauto]);
    destruct (requires_staff service); simpl; try (split; [reflexivity|tauto]);
    destruct (truthyOptNumber staffMemberId); simpl; try (split; [reflexivity|tauto]);
    destruct (canStaffPerformService db (orNumber staffMemberId 0) serviceId);
    simpl; split; (reflexivity || tauto).
Qed.

(* ================================================================== *)
(** ** getAvailableSlots: termination and shape of the result *)
(* ================================================================== *)

Lemma generateTimeSlots_cases fuel startTime endTime duration bufferAfter :
  generateTimeSlots fuel startTime endTime duration bufferAfter
  = match timeStringToMinutes startTime, timeStringToMinutes endTime with
    | Num s, Num e => slotLoop fuel s e duration (duration + bufferAfter)
    | _, _ => Some []
    end.
Proof.
  unfold timeStringToMinutes, generateTimeSlots.
  destruct (splitNumbers startTime) as [sh sm], (splitNumbers endTime) as [eh em].
  reflexivity.
Qed.

Lemma rulesFuel_In service rules r :
  In r rules -> (ruleFuel service r <= rulesFuel service rules)%nat.
Proof.
  induction rules as [|x rules IH]; simpl; [tauto|].
  intros [->|H]; [lia|]. specialize (IH H). lia.
Qed.

Lemma slotsForRules_returns fuel service rules :
  1 <= slotStep service ->
  (forall r, In r rules -> (ruleFuel service r <= fuel)%nat) ->
  exists slots,
    slotsForRules fuel rules service = Returned slots
    /\ Forall (fun s => slot_available s = true) slots.
Proof.
  intros Hstep. induction rules as [|r rules IH]; intros Hfuel; simpl.
  - exists []. split; [reflexivity|constructor].
  - destruct IH as (more & Hmore & Hav); [intros; apply Hfuel; now right|].
    specialize (Hfuel r (or_introl eq_refl)). unfold ruleFuel in Hfuel.
    rewrite generateTimeSlots_cases, Hmore.
    destruct (timeStringToMinutes (rule_start_time r)) as [s|];
      [destruct (timeStringToMinutes (rule_end_time r)) as [e|]|];
      try (exists more; split; [reflexivity|exact Hav]).
    rewrite slotLoop_spec by assumption. simpl.
    eexists. split; [reflexivity|].
    apply Forall_app. split; [|exact Hav].
    apply Forall_forall. intros x Hx. apply in_map_iff in Hx.
    destruct Hx as (i & <- & _). reflexivity.
Qed.

Lemma slotsForStaff_returns fuel db dayOfWeek service staffServices :
  1 <= slotStep service ->
  (dbFuel db service <= fuel)%nat ->
  exists slots,
    slotsForStaff fuel db dayOfWeek service staffServices = Returned slots
    /\ Forall (fun s => slot_available s = true) slots.
Proof.
  intros Hstep Hfuel. induction staffServices as [|staffId rest IH]; simpl.
  - exists []. split; [reflexivity|constructor].
  - destruct IH as (more & Hmore & Hav).
    destruct (slotsForRules_returns fuel service
                (selectStaffRules db staffId dayOfWeek) Hstep) as (own & Hown & Hoav).
    { intros r Hr. apply filter_In in Hr. destruct Hr as [Hr _].
      pose proof (rulesFuel_In service _ _ Hr). unfold dbFuel in Hfuel. lia. }
    rewrite Hown, Hmore. simpl. eexists. split; [reflexivity|].
    apply Forall_app. split; [|exact Hav].
    apply Forall_forall. intros x Hx. apply in_map_iff in Hx.
    destruct Hx as (y & <- & Hy). simpl.
    rewrite Forall_forall in Hoav. now apply Hoav.
Qed.

(** With a positive step and enough fuel the day's computation returns, and
    its slot list is the generated candidates after closures, marking,
    sorting and removal of duplicates. *)
Lemma getAvailableSlots_returns host db businessId serviceId date service fuel :
  selectService db serviceId businessId = Some service ->
  1 <= slotStep service ->
  (dbFuel db service <= fuel)%nat ->
  exists generated,
    Forall (fun s => slot_available s = true) generated
    /\ (requires_staff service = false ->
        slotsForRules fuel
          (selectBusinessRules db businessId (getDay host (Date_parse host date))) service
        = Returned generated)
    /\ getAvailableSlots host fuel db businessId serviceId date
       = Returned
           {| day_date := Date_parse host date;
              day_of_week := getDay host (Date_parse host date);
              time_slots :=
                uniqueSlots
                  (sort compareSlots
                     (map (markSlot service (selectActiveBookings db businessId serviceId date))
                        (applySpecialAvailability
                           (selectSpecialForService db businessId serviceId
                              (requires_staff service) date)
                           generated))) |}.
Proof.
  intros Hsel Hstep Hfuel. unfold getAvailableSlots. rewrite Hsel.
  destruct (requires_staff service) eqn:Hstaff.
  - destruct (slotsForStaff_returns fuel db (getDay host (Date_parse host date)) service
                (selectStaffForService db serviceId) Hstep Hfuel) as (g & Hg & Hav).
    exists g. rewrite Hg. simpl. split; [exact Hav|split; [discriminate|reflexivity]].
  - destruct (slotsForRules_returns fuel service
                (selectBusinessRules db businessId (getDay host (Date_parse host date)))
                Hstep) as (g & Hg & Hav).
    { intros r Hr. apply filter_In in Hr. destruct Hr as [Hr _].
      pose proof (rulesFuel_In service _ _ Hr). unfold dbFuel in Hfuel. lia. }
    exists g. rewrite Hg. simpl. split; [exact Hav|split; reflexivity].
Qed.

Lemma insertSorted_In {A : Type} (cmp : A -> A -> number) (y x : A) (l : list A) :
  In x (insertSorted cmp y l) -> x = y \/ In x l.
Proof.
  induction l as [|z l IH]; simpl.
  - intros [<-|[]]. now left.
  - destruct (lt (cmp y z) (Num 0)); simpl.
    + intros [<-|[<-|H]]; auto.
    + intros [<-|H]; auto. destruct (IH H); auto.
Qed.

Lemma sort_In {A : Type} (cmp : A -> A -> number) (x : A) (l : list A) :
  In x (sort cmp l) -> In x l.
Proof.
  unfold sort.
  assert (G : forall acc, In x (fold_left (fun acc y => insertSorted cmp y acc) l acc) ->
                          In x acc \/ In x l).
  { induction l as [|y l IH]; simpl; intros acc H; [now left|].
    destruct (IH _ H) as [H'|H']; [|now right; right].
    destruct (insertSorted_In _ _ _ _ H') as [->|H'']; [right; now left|now left]. }
  intros H. destruct (G [] H) as [[]|H']. exact H'.
Qed.

Lemma filterIndexed_In {A : Type} (p : A -> nat -> bool) (x : A) (l : list A) :
  forall i, In x (filterIndexed p i l) -> In x l.
Proof.
  induction l as [|y l IH]; simpl; intros i H; [exact H|].
  destruct (p y i); [destruct H as [->|H]|]; eauto.
Qed.

Lemma uniqueSlots_In x l : In x (uniqueSlots l) -> In x l.
Proof. apply filterIndexed_In. Qed.

Lemma applySpecialAvailability_In specials :
  forall slots x, In x (applySpecialAvailability specials slots) -> In x slots.
Proof.
  induction specials as [|sp specials IH]; simpl; intros slots x H; [exact H|].
  destruct (special_is_available sp); simpl in H; [now apply IH|].
  destruct (closureWindow sp) as [[s e]|]; [|destruct H].
  apply IH in H. apply filter_In in H. tauto.
Qed.

(** A full-day closure anywhere in the list empties the candidates. *)
Lemma applySpecialAvailability_full_day specials closure :
  In closure specials ->
  special_is_available closure = false ->
  closureWindow closure = None ->
  forall slots, applySpecialAvailability specials slots = [].
Proof.
  intros Hin Hclosed Hwhole.
  induction specials as [|sp specials IH]; [destruct Hin|].
  intros slots. simpl. destruct Hin as [->|Hin].
  - now rewrite Hclosed, Hwhole.
  - destruct (special_is_available sp); simpl; [now apply IH|].
    destruct (closureWindow sp) as [[s e]|]; [now apply IH|reflexivity].
Qed.

Lemma markSlot_capacity service existingBookings slot :
  requires_staff service = false ->
  markSlot service existingBookings slot
  = if existsb (capacityConflict service slot) existingBookings
    then markUnavailable slot else slot.
Proof.
  intros Hstaff. induction existingBookings as [|b rest IH]; simpl; [reflexivity|].
  unfold capacityConflict at 1. rewrite Hstaff.
  destruct (timeSlotsOverlap _ _ _ _); simpl; [|exact IH].
  destruct (party_size b >=? capacity service); simpl; [reflexivity|exact IH].
Qed.

Lemma selectActiveBookings_In db businessId serviceId date b :
  In b (selectActiveBookings db businessId serviceId date) <->
  In b (bookings db)
  /\ booking_business_id b = businessId /\ booking_service_id b = serviceId
  /\ booking_date b = date /\ (status b = confirmed \/ status b = pending).
Proof.
  unfold selectActiveBookings. rewrite filter_In, !andb_true_iff, !Z.eqb_eq, String.eqb_eq.
  unfold activeBooking. destruct (status b); intuition discriminate.
Qed.

(** A returned day carries the requested date and its weekday. *)
Lemma getAvailableSlots_date host fuel db businessId serviceId date day :
  getAvailableSlots host fuel db businessId serviceId date = Returned day ->
  day_date day = Date_parse host date
  /\ day_of_week day = getDay host (Date_parse host date).
Proof.
  unfold getAvailableSlots.
  destruct (selectService db serviceId businessId) as [service|]; [|discriminate].
  match goal with |- context [bind ?m _] => destruct m end; simpl; try discriminate.
  intros [= <-]. split; reflexivity.
Qed.

(** C6. A whole-day closure of the business on the date empties the day:
    the computation returns the empty slot list whatever the weekly rules
    generate. *)
Theorem getAvailableSlots_full_day_closure :
  forall host db businessId serviceId date service closure fuel,
    selectService db serviceId businessId = Some service ->
    requires_staff service = false ->
    1 <= slotStep service ->
    (dbFuel db service <= fuel)%nat ->
    In closure (special_availability db) ->
    special_business_id closure = Some businessId ->
    special_date closure = date ->
    special_is_available closure = false ->
    special_start_time closure = None ->
    special_end_time closure = None ->
    getAvailableSlots host fuel db businessId serviceId date
    = Returned {| day_date := Date_parse host date;
                  day_of_week := getDay host (Date_parse host date);
                  time_slots := [] |}.
Proof.
  intros host db businessId serviceId date service closure fuel
         Hsel Hstaff Hstep Hfuel Hin Hbus Hdate Hclosed Hs He.
  destruct (getAvailableSlots_returns host db businessId serviceId date service fuel
              Hsel Hstep Hfuel) as (generated & _ & _ & Hret).
  rewrite Hret. do 2 f_equal.
  rewrite (applySpecialAvailability_full_day _ closure); [reflexivity| |exact Hclosed|].
  - unfold selectSpecialForService. apply filter_In. split; [exact Hin|].
    rewrite Hbus, Hdate. simpl. now rewrite Z.eqb_refl, String.eqb_refl.
  - unfold closureWindow. now rewrite Hs.
Qed.

(* ================================================================== *)
(** ** The validator's conflict rule against the marking step *)
(* ================================================================== *)

Lemma hasBookingConflict_capacity service startTime endTime partySize existingBookings :
  requires_staff service = false ->
  hasBookingConflict service startTime endTime partySize existingBookings
  = existsb (fun b =>
        timeSlotsOverlap startTime endTime (booking_start_time b) (booking_end_time b)
        && negb (partySize + party_size b <=? capacity service)) existingBookings.
Proof.
  intros Hstaff. induction existingBookings as [|b rest IH]; simpl; [reflexivity|].
  rewrite Hstaff. simpl.
  destruct (timeSlotsOverlap _ _ _ _); simpl; [|exact IH].
  destruct (partySize + party_size b <=? capacity service); simpl; [exact IH|reflexivity].
Qed.

Lemma selectConflictCandidates_plain db businessId serviceId date :
  selectConflictCandidates db businessId serviceId date None None
  = selectActiveBookings db businessId serviceId date.
Proof.
  unfold selectConflictCandidates. simpl.
  induction (selectActiveBookings db businessId serviceId date) as [|b l IH];
    simpl; [reflexivity|]. now rewrite IH.
Qed.

(** In the validator, for a capacity-scoped service and no excluded booking,
    a conflict under its rule among the day's pending and confirmed bookings
    makes the slot unavailable. *)
Lemma isTimeSlotAvailable_conflict host db businessId serviceId staffMemberId
      date startTime endTime partySize service :
  selectService db serviceId businessId = Some service ->
  requires_staff service = false ->
  hasBookingConflict service startTime endTime partySize
    (selectActiveBookings db businessId serviceId date) = true ->
  available (isTimeSlotAvailable host db businessId serviceId staffMemberId date
               startTime endTime partySize None) = false.
Proof.
  intros Hsel Hstaff Hconf. unfold isTimeSlotAvailable. rewrite Hsel, Hstaff. simpl.
  destruct (partySize >? capacity service); [reflexivity|].
  destruct (selectBusinessRules db businessId _) as [|r rules]; [reflexivity|].
  destruct (negb (withinHours startTime endTime (r :: rules))); [reflexivity|].
  destruct (specialClosure _ startTime endTime); [reflexivity|].
  now rewrite selectConflictCandidates_plain, Hconf.
Qed.

(** C1 (as the code has it). For a capacity-scoped service the validator's
    rule is "an overlapping booking with partySize + party_size > capacity",
    the marking step's is "an overlapping booking with party_size >=
    capacity".  Whatever the marking step marks unavailable is a conflict
    for the validator, for any party of at least one; the two agree for a
    party of exactly one. *)
Theorem validator_conflict_vs_marking :
  forall service existingBookings slot partySize,
    requires_staff service = false ->
    slot_available slot = true ->
    1 <= partySize ->
    (slot_available (markSlot service existingBookings slot) = false ->
     hasBookingConflict service (slot_start_time slot) (slot_end_time slot)
                        partySize existingBookings = true)
    /\ (partySize = 1 ->
        hasBookingConflict service (slot_start_time slot) (slot_end_time slot)
                           partySize existingBookings = true ->
        slot_available (markSlot service existingBookings slot) = false).
Proof.
  intros service existingBookings slot partySize Hstaff Hav Hparty.
  rewrite markSlot_capacity, hasBookingConflict_capacity by assumption.
  split.
  - destruct (existsb (capacityConflict service slot) existingBookings) eqn:E;
      [intros _|simpl; congruence].
    apply existsb_exists in E. destruct E as (b & Hb & Hc).
    apply existsb_exists. exists b. split; [exact Hb|].
    unfold capacityConflict in Hc. apply andb_true_iff in Hc. destruct Hc as [Ho Hp].
    rewrite Ho. simpl. apply Z.geb_le in Hp.
    apply negb_true_iff, Z.leb_gt. lia.
  - intros -> E. apply existsb_exists in E. destruct E as (b & Hb & Hc).
    apply andb_true_iff in Hc. destruct Hc as [Ho Hp].
    apply negb_true_iff, Z.leb_gt in Hp.
    assert (E' : existsb (capacityConflict service slot) existingBookings = true).
    { apply existsb_exists. exists b. split; [exact Hb|].
      unfold capacityConflict. rewrite Ho. simpl. apply Z.geb_le. lia. }
    now rewrite E'.
Qed.

(* ================================================================== *)
(** ** getWeekAvailability *)
(* ================================================================== *)





(* ================================================================== *)
(** ** BookingService: cancel and update *)
(* ================================================================== *)

Lemma find_map_same_id (f : Booking -> Booking) (id : Z) (l : list Booking) :
  (forall b, booking_id (f b) = booking_id b) ->
  find (fun b => booking_id b =? id) (map f l)
  = option_map f (find (fun b => booking_id b =? id) l).
Proof.
  intros Hid. induction l as [|b l IH]; simpl; [reflexivity|].
  rewrite Hid. destruct (booking_id b =? id); [reflexivity|exact IH].
Qed.

Lemma statusOf_executeUpdate now db bookingId updates stamp anyId :
  statusOf (executeUpdate now db bookingId updates stamp) anyId
  = option_map (fun st => if anyId =? bookingId
                          then orElse (upd_status updates) st else st)
               (statusOf db anyId).
Proof.
  unfold statusOf, executeUpdate. simpl.
  rewrite find_map_same_id.
  2:{ intros b. destruct (booking_id b =? bookingId); reflexivity. }
  destruct (find (fun b => booking_id b =? anyId) (bookings db)) as [b|] eqn:E;
    [|reflexivity].
  apply find_some in E. destruct E as [_ E]. apply Z.eqb_eq in E. subst anyId.
  simpl. destruct (booking_id b =? bookingId); reflexivity.
Qed.

Lemma getBookingById_status db bookingId details :
  getBookingById db bookingId = Some details ->
  statusOf db bookingId = Some (status (details_booking details)).
Proof.
  unfold getBookingById, statusOf.
  destruct (find (fun b => booking_id b =? bookingId) (bookings db)) as [b|];
    [|discriminate].
  destruct (find _ (business db)); [|discriminate].
  destruct (find _ (services db)); [|discriminate].
  intros [= <-]. reflexivity.
Qed.

(** An update writes nothing unless it succeeds. *)
Lemma updateBooking_failure_keeps host now db bookingId updates :
  success (snd (updateBooking host now db bookingId updates)) = false ->
  fst (updateBooking host now db bookingId updates) = db.
Proof.
  unfold updateBooking.
  destruct (getBookingById db bookingId); [|reflexivity].
  match goal with |- context [negb (valid ?v)] => destruct (valid v) end;
    [|reflexivity].
  simpl. destruct (hasAllowedField updates); simpl; [|reflexivity].
  destruct (storeUpdates host db bookingId updates); simpl; [discriminate|reflexivity].
Qed.

(** C7. A requester whose e-mail differs, case aside, from the booking's
    is rejected with "Email does not match booking" and nothing is
    written: the ledger is the one before the call.  The two e-mails are
    compared after the engine's own [toLowerCase], whatever it does to the
    letters outside ASCII. *)
Theorem cancelBooking_email_mismatch :
  forall host now db bookingId customerEmail reason details,
    getBookingById db bookingId = Some details ->
    String_toLowerCase host (customer_email (details_booking details))
    <> String_toLowerCase host customerEmail ->
    cancelBooking host now db bookingId customerEmail reason
    = (db, {| success := false; data := None;
              result_errors := Some ["Email does not match booking"] |}).
Proof.
  intros host now db bookingId customerEmail reason details Hget Hmail.
  unfold cancelBooking. rewrite Hget.
  apply String.eqb_neq in Hmail. now rewrite Hmail.
Qed.

(** The comparison in hours is the comparison of the millisecond
    difference with the threshold in milliseconds. *)
Lemma belowHours_milliseconds t now hours :
  belowHours (hoursUntilBooking (Num t) now) hours = (t - now <? hours * 3600000).
Proof.
  unfold belowHours, hoursUntilBooking, QArith_base.Qle_bool. simpl.
  rewrite Z.mul_1_r. destruct (Z.leb_spec (hours * 3600000) (t - now));
    destruct (Z.ltb_spec (t - now) (hours * 3600000)); simpl; try reflexivity; lia.
Qed.

(** The policy step of [cancelBooking], once the booking is found, the
    e-mail matches and the booking is not cancelled yet. *)
Lemma cancelBooking_policy host now db bookingId customerEmail reason details :
  getBookingById db bookingId = Some details ->
  String_toLowerCase host (customer_email (details_booking details))
  = String_toLowerCase host customerEmail ->
  status (details_booking details) <> cancelled ->
  cancelBooking host now db bookingId customerEmail reason
  = if belowHours
         (hoursUntilBooking (bookingDateTime host (details_booking details)) now)
         (policyHours details)
    then (db, failure [("Must cancel at least " ++ toString (policyHours details)
                        ++ " hours before booking")%string])
    else updateBooking host now db bookingId
           {| upd_service_id := None; upd_staff_member_id := None; upd_customer_name := None;
              upd_customer_email := None; upd_customer_phone := None; upd_booking_date := None;
              upd_start_time := None; upd_end_time := None; upd_party_size := None;
              upd_special_requests := None;
              upd_status := Some cancelled;
              upd_payment_status := None;
              upd_cancellation_reason := Some (orString reason "Customer cancellation") |}.
Proof.
  intros Hget Hmail Hst. unfold cancelBooking, policyHours. rewrite Hget, Hmail.
  rewrite String.eqb_refl. simpl.
  destruct (status (details_booking details)); try reflexivity. congruence.
Qed.

(** When the printed date followed by the start time is no date, the hours
    are NaN, no threshold is above them, and the cancellation goes on to
    the update whatever the clock says. *)
Lemma cancelBooking_invalid_date_passes host now db bookingId customerEmail reason details :
  getBookingById db bookingId = Some details ->
  String_toLowerCase host (customer_email (details_booking details))
  = String_toLowerCase host customerEmail ->
  status (details_booking details) <> cancelled ->
  bookingDateTime host (details_booking details) = NaN ->
  cancelBooking host now db bookingId customerEmail reason
  = updateBooking host now db bookingId (cancellationPatch reason).
Proof.
  intros Hget Hmail Hst Hnan.
  rewrite (cancelBooking_policy host now db bookingId customerEmail reason details
             Hget Hmail Hst), Hnan.
  reflexivity.
Qed.

Lemma policyHours_set details h :
  details_cancellation_hours details = Some h -> h <> 0 -> policyHours details = h.
Proof.
  intros E Hh. unfold policyHours, orNumber, truthyNumber. rewrite E.
  destruct (Z.eqb_spec h 0); [contradiction|reflexivity].
Qed.

Lemma policyHours_unset details :
  details_cancellation_hours details = None -> policyHours details = 24.
Proof. intros E. unfold policyHours. now rewrite E. Qed.

(** C2 (as the code has it). [cancelBooking] leaves a cancelled booking
    alone: it rejects and writes nothing.  [updateBooking] keeps every
    status when its patch carries none; it has no check of the current
    status, so this is all that protects a terminal state. *)
Theorem status_kept_without_status_patch :
  forall host now db bookingId st updates customerEmail reason anyId,
    statusOf db bookingId = Some st ->
    upd_status updates = None ->
    statusOf (fst (updateBooking host now db bookingId updates)) anyId = statusOf db anyId
    /\ (st = cancelled ->
        fst (cancelBooking host now db bookingId customerEmail reason) = db
        /\ success (snd (cancelBooking host now db bookingId customerEmail reason)) = false).
Proof.
  intros host now db bookingId st updates customerEmail reason anyId Hst Hupd. split.
  - unfold updateBooking.
    destruct (getBookingById db bookingId); [|reflexivity].
    match goal with |- context [negb (valid ?v)] => destruct (valid v) end;
      [|reflexivity].
    simpl. destruct (hasAllowedField updates); simpl; [|reflexivity].
    destruct (storeUpdates host db bookingId updates); simpl; [|reflexivity].
    rewrite statusOf_executeUpdate, Hupd. simpl.
    destruct (statusOf db anyId); simpl; [|reflexivity].
    destruct (anyId =? bookingId); reflexivity.
  - intros ->. unfold cancelBooking.
    destruct (getBookingById db bookingId) as [details|] eqn:Hget; [|split; reflexivity].
    rewrite (getBookingById_status _ _ _ Hget) in Hst. injection Hst as Hst.
    destruct (negb _); [split; reflexivity|]. rewrite Hst. split; reflexivity.
Qed.

(* ================================================================== *)
(** ** More on the time arithmetic *)
(* ================================================================== *)

(** X1. On parsed, non-empty time ranges [timeSlotsOverlap] is the
    intersection test of the half-open intervals: the ranges overlap exactly
    when some minute lies in both, so ranges that only touch do not. *)
Theorem timeSlotsOverlap_common_minute :
  forall slot1Start slot1End slot2Start slot2End s1 e1 s2 e2,
    timeStringToMinutes slot1Start = Num s1 ->
    timeStringToMinutes slot1End = Num e1 ->
    timeStringToMinutes slot2Start = Num s2 ->
    timeStringToMinutes slot2End = Num e2 ->
    s1 < e1 -> s2 < e2 ->
    (timeSlotsOverlap slot1Start slot1End slot2Start slot2End = true
     <-> exists t, (s1 <= t < e1) /\ (s2 <= t < e2)).
Proof.
  intros a1 b1 a2 b2 s1 e1 s2 e2 H1 H2 H3 H4 Hne1 Hne2.
  unfold timeSlotsOverlap. rewrite H1, H2, H3, H4. simpl.
  rewrite andb_true_iff, !Z.ltb_lt. split.
  - intros [Ha Hb]. exists (Z.max s1 s2). lia.
  - intros (t & Ht1 & Ht2). lia.
Qed.

Lemma split_colonless s : hasColon s = false -> split ":" s = [s].
Proof.
  induction s as [|c r IH]; simpl; [reflexivity|].
  intros H. apply orb_false_iff in H. destruct H as [Hc Hr].
  rewrite Hc, (IH Hr). reflexivity.
Qed.

(** Without a colon the minutes are [undefined] and the sum is NaN. *)
Lemma timeStringToMinutes_colonless s : hasColon s = false -> timeStringToMinutes s = NaN.
Proof.
  intros H. unfold timeStringToMinutes, splitNumbers. rewrite (split_colonless s H).
  cbn [map]. destruct (mul (Number s) (Num 60)); reflexivity.
Qed.

(** X2. The overlap test does not depend on the order of the two ranges,
    and a range one of whose times has no colon overlaps nothing and is
    overlapped by nothing. *)
Theorem timeSlotsOverlap_symmetric_colonless :
  forall slot1Start slot1End slot2Start slot2End,
    timeSlotsOverlap slot1Start slot1End slot2Start slot2End
    = timeSlotsOverlap slot2Start slot2End slot1Start slot1End
    /\ ((hasColon slot1Start = false \/ hasColon slot1End = false
         \/ hasColon slot2Start = false \/ hasColon slot2End = false) ->
        timeSlotsOverlap slot1Start slot1End slot2Start slot2End = false).
Proof.
  intros a1 b1 a2 b2. unfold timeSlotsOverlap. split; [apply andb_comm|].
  intros [H|[H|[H|H]]]; rewrite (timeStringToMinutes_colonless _ H);
    destruct (timeStringToMinutes a1), (timeStringToMinutes b1),
             (timeStringToMinutes a2), (timeStringToMinutes b2);
    simpl; rewrite ?andb_false_r; try reflexivity; discriminate.
Qed.




(** X4. The other way round: a five-character string that matches the time
    pattern is exactly the printed form of the minute count it parses to. *)
Theorem padded_time_round_trip :
  forall s,
    timeFormatTest s = true -> String.length s = 5%nat ->
    exists n, 0 <= n < 1440 /\ timeStringToMinutes s = Num n /\ formatTime n = s.
Proof.
  intros s H Hlen.
  pose (dv := fun c : ascii => Z.of_nat (nat_of_ascii c) - 48).
  destruct s as [|a [|b [|c [|d [|e [|f r]]]]]]; simpl in Hlen; try discriminate.
  simpl in H. rewrite ?andb_false_r, ?orb_false_r, ?orb_false_l in H.
  exists ((10 * dv a + dv b) * 60 + (10 * dv d + dv e)).
  rewrite !andb_true_iff in H. destruct H as [Hab [[Hc Hd] He]].
  apply Ascii.eqb_eq in Hc. subst c.
  apply charIn_cases in Hd, He. cbn in Hd, He.
  rewrite orb_true_iff, !andb_true_iff in Hab.
  destruct Hab as [[Ha Hb]|[Ha Hb]].
  - apply charIn_cases in Ha, Hb. cbn in Ha, Hb.
    pick_char Ha; pick_char Hb; pick_char Hd; pick_char He;
      (split; [vm_compute; split; congruence|]);
      split; vm_compute; reflexivity.
  - apply Ascii.eqb_eq in Ha. subst a.
    apply charIn_cases in Hb. cbn in Hb.
    pick_char Hb; pick_char Hd; pick_char He;
      (split; [vm_compute; split; congruence|]);
      split; vm_compute; reflexivity.
Qed.

(* ================================================================== *)
(** ** Where the slots of a day come from *)
(* ================================================================== *)

Lemma slotLoop_inv fuel :
  forall cursor e d step l,
    1 <= step ->
    slotLoop fuel cursor e d step = Some l ->
    l = map (fun i => slotAt (cursor + Z.of_nat i * step) d)
            (seq 0 (slotCount cursor e d step)).
Proof.
  induction fuel as [|fuel IH]; intros cursor e d step l Hs H; simpl in H.
  - destruct (Z.leb_spec (cursor + d) e) as [Hc|Hc]; [discriminate|].
    injection H as <-. unfold slotCount.
    destruct (Z.leb_spec (cursor + d) e); [lia|reflexivity].
  - destruct (Z.leb_spec (cursor + d) e) as [Hc|Hc].
    + destruct (slotLoop fuel (cursor + step) e d step) as [l'|] eqn:E;
        [|discriminate].
      injection H as <-. rewrite (IH _ _ _ _ _ Hs E).
      rewrite (slotCount_step _ _ _ _ Hs Hc). simpl. f_equal.
      * f_equal. lia.
      * rewrite <- seq_shift, map_map. apply map_ext. intros i. f_equal. lia.
    + injection H as <-. unfold slotCount.
      destruct (Z.leb_spec (cursor + d) e); [lia|reflexivity].
Qed.

(** A slot of one rule window: printed from a cursor inside the window. *)
Lemma generateTimeSlots_In fuel startTime endTime duration bufferAfter l x :
  1 <= duration + bufferAfter ->
  generateTimeSlots fuel startTime endTime duration bufferAfter = Some l ->
  In x l ->
  exists ws we c,
    timeStringToMinutes startTime = Num ws
    /\ timeStringToMinutes endTime = Num we
    /\ ws <= c /\ c + duration <= we
    /\ x = slotAt c duration.
Proof.
  intros Hstep Hgen Hin. rewrite generateTimeSlots_cases in Hgen.
  destruct (timeStringToMinutes startTime) as [ws|];
    [destruct (timeStringToMinutes endTime) as [we|]|];
    try (injection Hgen as <-; destruct Hin).
  apply slotLoop_inv in Hgen; [|exact Hstep]. subst l.
  apply in_map_iff in Hin. destruct Hin as (i & <- & Hi). apply in_seq in Hi.
  exists ws, we, (ws + Z.of_nat i * (duration + bufferAfter)).
  pose proof (slotCount_bounds ws we duration (duration + bufferAfter) i Hstep ltac:(lia)).
  repeat split; try reflexivity; try assumption. nia.
Qed.

Lemma slotsForRules_In fuel service rules :
  forall l x,
    slotsForRules fuel rules service = Returned l ->
    In x l ->
    exists rule l',
      In rule rules
      /\ generateTimeSlots fuel (rule_start_time rule) (rule_end_time rule)
           (duration_minutes service) (orNumber (buffer_after_minutes service) 0) = Some l'
      /\ In x l'.
Proof.
  induction rules as [|r rules IH]; intros l x H Hin; simpl in H.
  - injection H as <-. destruct Hin.
  - destruct (generateTimeSlots fuel (rule_start_time r) (rule_end_time r)
                (duration_minutes service) (orNumber (buffer_after_minutes service) 0))
      as [own|] eqn:Eown; simpl in H; [|discriminate].
    destruct (slotsForRules fuel rules service) as [more| |] eqn:Emore;
      simpl in H; try discriminate.
    injection H as <-. apply in_app_or in Hin. destruct Hin as [Hin|Hin].
    + exists r, own. repeat split; auto. now left.
    + destruct (IH more x eq_refl Hin) as (rule & l' & Hr & Hg & Hx).
      exists rule, l'. repeat split; auto. now right.
Qed.

Lemma slotsForStaff_In fuel db dayOfWeek service staffServices :
  forall l x,
    slotsForStaff fuel db dayOfWeek service staffServices = Returned l ->
    In x l ->
    exists staffId y,
      In staffId staffServices
      /\ (exists own, slotsForRules fuel (selectStaffRules db staffId dayOfWeek) service
                      = Returned own /\ In y own)
      /\ x = withStaff staffId y.
Proof.
  induction staffServices as [|s rest IH]; intros l x H Hin; simpl in H.
  - injection H as <-. destruct Hin.
  - destruct (slotsForRules fuel (selectStaffRules db s dayOfWeek) service)
      as [own| |] eqn:Eown; simpl in H; try discriminate.
    destruct (slotsForStaff fuel db dayOfWeek service rest) as [more| |] eqn:Emore;
      simpl in H; try discriminate.
    injection H as <-. apply in_app_or in Hin. destruct Hin as [Hin|Hin].
    + apply in_map_iff in Hin. destruct Hin as (y & <- & Hy).
      exists s, y. split; [now left|]. split; [|reflexivity]. now exists own.
    + destruct (IH more x eq_refl Hin) as (staffId & y & Hs & Hy & Hx).
      exists staffId, y. split; [now right|]. auto.
Qed.

(** The shape of a returned day, whatever the fuel was. *)
Lemma getAvailableSlots_inv host fuel db businessId serviceId date day :
  getAvailableSlots host fuel db businessId serviceId date = Returned day ->
  exists service generated,
    selectService db serviceId businessId = Some service
    /\ (if requires_staff service
        then slotsForStaff fuel db (getDay host (Date_parse host date)) service
               (selectStaffForService db serviceId)
        else slotsForRules fuel
               (selectBusinessRules db businessId (getDay host (Date_parse host date)))
               service) = Returned generated
    /\ time_slots day
       = uniqueSlots
           (sort compareSlots
              (map (markSlot service (selectActiveBookings db businessId serviceId date))
                 (applySpecialAvailability
                    (selectSpecialForService db businessId serviceId
                       (requires_staff service) date)
                    generated))).
Proof.
  unfold getAvailableSlots.
  destruct (selectService db serviceId businessId) as [service|]; [|discriminate].
  intros H. exists service.
  match type of H with bind ?m _ = _ => destruct m as [generated| |] eqn:E end;
    simpl in H; try discriminate.
  exists generated. injection H as <-. auto.
Qed.

Lemma markSlot_cases service existingBookings x :
  markSlot service existingBookings x = x
  \/ markSlot service existingBookings x = markUnavailable x.
Proof.
  induction existingBookings as [|b rest IH]; simpl; [now left|].
  destruct (negb _); [exact IH|].
  destruct (requires_staff service).
  - destruct (sameStaff _ _); [now right|exact IH].
  - destruct (party_size b >=? capacity service); [now right|exact IH].
Qed.

Lemma markSlot_key service existingBookings x :
  slot_start_time (markSlot service existingBookings x) = slot_start_time x
  /\ slot_end_time (markSlot service existingBookings x) = slot_end_time x
  /\ slot_staff_member_id (markSlot service existingBookings x) = slot_staff_member_id x.
Proof.
  destruct (markSlot_cases service existingBookings x) as [-> | ->]; simpl; auto.
Qed.

(** Every listed slot is a generated candidate that survived the closures,
    after marking. *)
Lemma listed_slot_origin host fuel db businessId serviceId date day slot :
  getAvailableSlots host fuel db businessId serviceId date = Returned day ->
  In slot (time_slots day) ->
  exists service generated cand,
    selectService db serviceId businessId = Some service
    /\ (if requires_staff service
        then slotsForStaff fuel db (getDay host (Date_parse host date)) service
               (selectStaffForService db serviceId)
        else slotsForRules fuel
               (selectBusinessRules db businessId (getDay host (Date_parse host date)))
               service) = Returned generated
    /\ In cand generated
    /\ In cand (applySpecialAvailability
                  (selectSpecialForService db businessId serviceId
                     (requires_staff service) date) generated)
    /\ slot = markSlot service (selectActiveBookings db businessId serviceId date) cand.
Proof.
  intros Hret Hin.
  destruct (getAvailableSlots_inv _ _ _ _ _ _ _ Hret) as (service & generated & Hsel & Hgen & Hts).
  rewrite Hts in Hin. apply uniqueSlots_In, sort_In, in_map_iff in Hin.
  destruct Hin as (cand & <- & Hcand).
  exists service, generated, cand. repeat split; auto.
  now apply applySpecialAvailability_In in Hcand.
Qed.

(* ================================================================== *)
(** ** What the slot generator and the day listing guarantee *)
(* ================================================================== *)


(** The rule and the cursor a listed slot comes from. *)
Lemma listed_slot_window :
  forall host fuel db businessId serviceId date day service slot,
    getAvailableSlots host fuel db businessId serviceId date = Returned day ->
    selectService db serviceId businessId = Some service ->
    1 <= slotStep service ->
    In slot (time_slots day) ->
    exists rule ws we c,
      (if requires_staff service
       then exists staffId,
              slot_staff_member_id slot = Some staffId
              /\ In staffId (selectStaffForService db serviceId)
              /\ In rule (selectStaffRules db staffId (getDay host (Date_parse host date)))
       else slot_staff_member_id slot = None
            /\ In rule (selectBusinessRules db businessId (getDay host (Date_parse host date))))
      /\ timeStringToMinutes (rule_start_time rule) = Num ws
      /\ timeStringToMinutes (rule_end_time rule) = Num we
      /\ ws <= c /\ c + duration_minutes service <= we
      /\ slot_start_time slot = formatTime c
      /\ slot_end_time slot = formatTime (c + duration_minutes service).
Proof.
  intros host fuel db businessId serviceId date day service slot Hret Hsel Hstep Hin.
  destruct (listed_slot_origin _ _ _ _ _ _ _ _ Hret Hin)
    as (service' & generated & cand & Hsel' & Hgen & Hcand & _ & Hslot).
  rewrite Hsel in Hsel'. injection Hsel' as <-.
  destruct (markSlot_key service (selectActiveBookings db businessId serviceId date) cand)
    as (Ks & Ke & Kf). rewrite <- Hslot in Ks, Ke, Kf. rewrite Ks, Ke, Kf.
  destruct (requires_staff service).
  - destruct (slotsForStaff_In _ _ _ _ _ _ _ Hgen Hcand)
      as (staffId & y & Hstaff & (own & Hown & Hy) & ->).
    destruct (slotsForRules_In _ _ _ _ _ Hown Hy) as (rule & l' & Hr & Hg & Hx).
    destruct (generateTimeSlots_In _ _ _ _ _ _ _ Hstep Hg Hx)
      as (ws & we & c & Hws & Hwe & Hlo & Hhi & ->).
    exists rule, ws, we, c. simpl. repeat split; auto. exists staffId. auto.
  - destruct (slotsForRules_In _ _ _ _ _ Hgen Hcand) as (rule & l' & Hr & Hg & Hx).
    destruct (generateTimeSlots_In _ _ _ _ _ _ _ Hstep Hg Hx)
      as (ws & we & c & Hws & Hwe & Hlo & Hhi & ->).
    exists rule, ws, we, c. simpl. repeat split; auto.
Qed.


Lemma applySpecialAvailability_clear specials :
  forall slots x special s e,
    In x (applySpecialAvailability specials slots) ->
    In special specials ->
    special_is_available special = false ->
    closureWindow special = Some (s, e) ->
    timeSlotsOverlap (slot_start_time x) (slot_end_time x) s e = false.
Proof.
  induction specials as [|sp specials IH]; intros slots x special s e Hx Hsp Hc Hw;
    [destruct Hsp|].
  simpl in Hx. destruct Hsp as [->|Hsp].
  - rewrite Hc, Hw in Hx. simpl in Hx.
    apply applySpecialAvailability_In, filter_In in Hx.
    destruct Hx as [_ Hx]. now apply negb_true_iff in Hx.
  - destruct (special_is_available sp); simpl in Hx; [eapply IH; eauto|].
    destruct (closureWindow sp) as [[s' e']|]; [|destruct Hx].
    eapply IH; eauto.
Qed.

(** X7. Closures: no slot of a returned day overlaps a partial closure of
    the business on that date, and a day with a whole-day closure of the
    business has no slots at all. *)
Theorem getAvailableSlots_respects_closures :
  forall host fuel db businessId serviceId date day special,
    getAvailableSlots host fuel db businessId serviceId date = Returned day ->
    In special (special_availability db) ->
    special_business_id special = Some businessId ->
    special_date special = date ->
    special_is_available special = false ->
    match closureWindow special with
    | Some (s, e) =>
        forall slot, In slot (time_slots day) ->
          timeSlotsOverlap (slot_start_time slot) (slot_end_time slot) s e = false
    | None => time_slots day = []
    end.
Proof.
  intros host fuel db businessId serviceId date day special Hret Hin Hbus Hdate Hclosed.
  destruct (getAvailableSlots_inv _ _ _ _ _ _ _ Hret) as (service & generated & Hsel & Hgen & Hts).
  assert (Hsp : In special (selectSpecialForService db businessId serviceId
                              (requires_staff service) date)).
  { unfold selectSpecialForService. apply filter_In. split; [exact Hin|].
    rewrite Hbus, Hdate. simpl. now rewrite Z.eqb_refl, String.eqb_refl. }
  destruct (closureWindow special) as [[s e]|] eqn:Hw.
  - intros slot Hslot. rewrite Hts in Hslot.
    apply uniqueSlots_In, sort_In, in_map_iff in Hslot.
    destruct Hslot as (cand & <- & Hcand).
    destruct (markSlot_key service (selectActiveBookings db businessId serviceId date) cand)
      as (-> & -> & _).
    now apply (applySpecialAvailability_clear _ _ _ special s e Hcand).
  - rewrite Hts, (applySpecialAvailability_full_day _ special Hsp Hclosed Hw). reflexivity.
Qed.

(* ================================================================== *)
(** ** Order and duplicates in a day's slot list *)
(* ================================================================== *)

Lemma compareSlots_parsed a b :
  startParses a -> startParses b ->
  compareSlots a b = Num (startMinutes a - startMinutes b).
Proof.
  intros [za Ha] [zb Hb]. unfold compareSlots, startMinutes. now rewrite Ha, Hb.
Qed.

Lemma insertSorted_starts x l :
  startParses x -> Forall startParses l ->
  StronglySorted startsBefore l ->
  StronglySorted startsBefore (insertSorted compareSlots x l).
Proof.
  intros Hx Hl Hs. induction l as [|y l IH]; simpl.
  - constructor; constructor.
  - inversion Hl as [|? ? Hy Hl']; subst. inversion Hs as [|? ? Hs' Hall]; subst.
    rewrite (compareSlots_parsed x y Hx Hy). simpl.
    destruct (Z.ltb_spec (startMinutes x - startMinutes y) 0) as [Hlt|Hge].
    + constructor; [exact Hs|]. constructor; [unfold startsBefore; lia|].
      eapply Forall_impl; [|exact Hall]. unfold startsBefore. intros; lia.
    + constructor; [now apply IH|].
      apply Forall_forall. intros z Hz. apply insertSorted_In in Hz.
      destruct Hz as [->|Hz]; [unfold startsBefore; lia|].
      rewrite Forall_forall in Hall. now apply Hall.
Qed.

Lemma sort_starts l :
  Forall startParses l -> StronglySorted startsBefore (sort compareSlots l).
Proof.
  unfold sort.
  assert (G : forall acc, Forall startParses acc -> Forall startParses l ->
                          StronglySorted startsBefore acc ->
                          StronglySorted startsBefore
                            (fold_left (fun acc x => insertSorted compareSlots x acc) l acc)).
  { induction l as [|x l IH]; intros acc Hacc Hl Hs; simpl; [exact Hs|].
    inversion Hl as [|? ? Hx Hl']; subst. apply IH; [|exact Hl'|].
    - apply Forall_forall. intros z Hz. apply insertSorted_In in Hz.
      destruct Hz as [->|Hz]; [exact Hx|]. rewrite Forall_forall in Hacc. now apply Hacc.
    - now apply insertSorted_starts. }
  intros Hl. apply G; [constructor|exact Hl|constructor].
Qed.

Lemma filterIndexed_sorted {A : Type} (R : A -> A -> Prop) (p : A -> nat -> bool) l :
  forall i, StronglySorted R l -> StronglySorted R (filterIndexed p i l).
Proof.
  induction l as [|x l IH]; intros i Hs; simpl; [constructor|].
  inversion Hs as [|? ? Hs' Hall]; subst.
  destruct (p x i); [|now apply IH].
  constructor; [now apply IH|].
  apply Forall_forall. intros y Hy. apply filterIndexed_In in Hy.
  rewrite Forall_forall in Hall. now apply Hall.
Qed.

Lemma StronglySorted_nth_error {A : Type} (R : A -> A -> Prop) l :
  StronglySorted R l ->
  forall i j a b, (i < j)%nat -> nth_error l i = Some a -> nth_error l j = Some b -> R a b.
Proof.
  induction 1 as [|x l Hs IH Hall]; intros i j a b Hij Ha Hb.
  - destruct i; discriminate.
  - destruct j as [|j]; [lia|]. simpl in Hb. destruct i as [|i]; simpl in Ha.
    + injection Ha as <-. rewrite Forall_forall in Hall.
      apply Hall. eapply nth_error_In; eauto.
    + eapply IH; [|eauto|eauto]. lia.
Qed.

(** A generated candidate starts at a printed cursor of a rule window. *)
Lemma generated_start host fuel db businessId serviceId date service generated cand :
  (if requires_staff service
   then slotsForStaff fuel db (getDay host (Date_parse host date)) service
          (selectStaffForService db serviceId)
   else slotsForRules fuel
          (selectBusinessRules db businessId (getDay host (Date_parse host date)))
          service) = Returned generated ->
  1 <= slotStep service ->
  In cand generated ->
  exists rule ws we c,
    In rule (availability_rules db)
    /\ timeStringToMinutes (rule_start_time rule) = Num ws
    /\ timeStringToMinutes (rule_end_time rule) = Num we
    /\ ws <= c /\ c + duration_minutes service <= we
    /\ slot_start_time cand = formatTime c
    /\ slot_end_time cand = formatTime (c + duration_minutes service)
    /\ slot_available cand = true.
Proof.
  intros Hgen Hstep Hcand. destruct (requires_staff service).
  - destruct (slotsForStaff_In _ _ _ _ _ _ _ Hgen Hcand)
      as (staffId & y & Hstaff & (own & Hown & Hy) & ->).
    destruct (slotsForRules_In _ _ _ _ _ Hown Hy) as (rule & l' & Hr & Hg & Hx).
    destruct (generateTimeSlots_In _ _ _ _ _ _ _ Hstep Hg Hx)
      as (ws & we & c & Hws & Hwe & Hlo & Hhi & ->).
    apply filter_In in Hr. exists rule, ws, we, c. simpl. tauto.
  - destruct (slotsForRules_In _ _ _ _ _ Hgen Hcand) as (rule & l' & Hr & Hg & Hx).
    destruct (generateTimeSlots_In _ _ _ _ _ _ _ Hstep Hg Hx)
      as (ws & we & c & Hws & Hwe & Hlo & Hhi & ->).
    apply filter_In in Hr. exists rule, ws, we, c. simpl. tauto.
Qed.

(** X8. The slots of a returned day are in ascending order of their start
    time, provided no rule window starts at a negative minute count. *)
Theorem getAvailableSlots_sorted :
  forall host fuel db businessId serviceId date day service i j a b,
    getAvailableSlots host fuel db businessId serviceId date = Returned day ->
    selectService db serviceId businessId = Some service ->
    1 <= slotStep service ->
    rulesStartAtOrAfterMidnight db ->
    (i < j)%nat ->
    nth_error (time_slots day) i = Some a ->
    nth_error (time_slots day) j = Some b ->
    exists sa sb,
      timeStringToMinutes (slot_start_time a) = Num sa
      /\ timeStringToMinutes (slot_start_time b) = Num sb
      /\ sa <= sb.
Proof.
  intros host fuel db businessId serviceId date day service i j a b
         Hret Hsel Hstep Hrules Hij Ha Hb.
  destruct (getAvailableSlots_inv _ _ _ _ _ _ _ Hret)
    as (service' & generated & Hsel' & Hgen & Hts).
  rewrite Hsel in Hsel'. injection Hsel' as <-.
  set (marked := map (markSlot service (selectActiveBookings db businessId serviceId date))
                   (applySpecialAvailability
                      (selectSpecialForService db businessId serviceId
                         (requires_staff service) date) generated)) in *.
  assert (Hparse : Forall startParses marked).
  { apply Forall_forall. intros x Hx. apply in_map_iff in Hx.
    destruct Hx as (cand & <- & Hcand). apply applySpecialAvailability_In in Hcand.
    destruct (generated_start _ _ _ _ _ _ _ _ _ Hgen Hstep Hcand)
      as (rule & ws & we & c & Hr & Hws & _ & Hlo & _ & Hst & _).
    destruct (markSlot_key service (selectActiveBookings db businessId serviceId date) cand)
      as (Ks & _). exists c. rewrite Ks, Hst.
    apply timeStringToMinutes_formatTime. pose proof (Hrules rule ws Hr Hws). lia. }
  assert (Hsorted : StronglySorted startsBefore (time_slots day)).
  { rewrite Hts. apply filterIndexed_sorted, sort_starts, Hparse. }
  pose proof (StronglySorted_nth_error _ _ Hsorted i j a b Hij Ha Hb) as Hab.
  assert (Hall : forall x, In x (time_slots day) -> startParses x).
  { intros x Hx. rewrite Hts in Hx. apply uniqueSlots_In, sort_In in Hx.
    rewrite Forall_forall in Hparse. now apply Hparse. }
  destruct (Hall a (nth_error_In _ _ Ha)) as [sa Hsa].
  destruct (Hall b (nth_error_In _ _ Hb)) as [sb Hsb].
  exists sa, sb. repeat split; auto.
  unfold startsBefore, startMinutes in Hab. now rewrite Hsa, Hsb in Hab.
Qed.

Lemma sameSlot_key x y : sameSlot x y = true <-> slotKey y = slotKey x.
Proof.
  unfold sameSlot, slotKey. rewrite !andb_true_iff, !String.eqb_eq. split.
  - intros [[-> ->] H]. f_equal.
    destruct (slot_staff_member_id y), (slot_staff_member_id x); simpl in H;
      try discriminate; [apply Z.eqb_eq in H; now subst|reflexivity].
  - intros [= -> -> ->]. repeat split.
    destruct (slot_staff_member_id x); simpl; [apply Z.eqb_refl|reflexivity].
Qed.

Lemma findIndex_early {A : Type} (q : A -> bool) pre rest y :
  In y pre -> q y = true ->
  exists k, findIndex q (pre ++ rest) = Some k /\ (k < List.length pre)%nat.
Proof.
  induction pre as [|z pre IH]; intros Hin Hq; [destruct Hin|]. simpl.
  destruct (q z) eqn:Ez.
  - exists O. split; [reflexivity|lia].
  - destruct Hin as [->|Hin]; [congruence|].
    destruct (IH Hin Hq) as (k & -> & Hk). exists (S k). split; [reflexivity|lia].
Qed.

Lemma uniqueSlots_from suf :
  forall pre,
    let keep := fun slot index =>
                  match findIndex (sameSlot slot) (pre ++ suf) with
                  | Some j => Nat.eqb index j
                  | None => false
                  end in
    NoDup (map slotKey (filterIndexed keep (List.length pre) suf))
    /\ forall y, In y (filterIndexed keep (List.length pre) suf) ->
                 ~ In (slotKey y) (map slotKey pre).
Proof.
  induction suf as [|x suf IH]; intros pre keep; simpl.
  - split; [constructor|tauto].
  - specialize (IH (pre ++ [x])). simpl in IH.
    rewrite <- app_assoc, length_app, Nat.add_1_r in IH. simpl in IH.
    fold keep in IH. destruct IH as [Hnd Hout].
    subst keep. cbv beta.
    destruct (findIndex (sameSlot x) (pre ++ x :: suf)) as [j|] eqn:Ej.
    + destruct (Nat.eqb_spec (List.length pre) j) as [<-|Hne].
      * split.
        -- simpl. constructor; [|exact Hnd].
           intros Hin. apply in_map_iff in Hin. destruct Hin as (y & Hk & Hy).
           apply (Hout y Hy). rewrite map_app, in_app_iff. right. simpl. now left.
        -- intros y [<-|Hy].
           ++ intros Hin. apply in_map_iff in Hin. destruct Hin as (z & Hk & Hz).
              destruct (findIndex_early (sameSlot x) pre (x :: suf) z Hz) as (k & Hk1 & Hk2).
              { now apply sameSlot_key. }
              rewrite Ej in Hk1. injection Hk1 as <-. lia.
           ++ intros Hin. apply (Hout y Hy). rewrite map_app, in_app_iff. now left.
      * split; [exact Hnd|].
        intros y Hy Hin. apply (Hout y Hy). rewrite map_app, in_app_iff. now left.
    + split; [exact Hnd|].
      intros y Hy Hin. apply (Hout y Hy). rewrite map_app, in_app_iff. now left.
Qed.

(** X9. No two slots of a returned day agree in start time, end time and
    staff member. *)
Theorem getAvailableSlots_no_duplicates :
  forall host fuel db businessId serviceId date day,
    getAvailableSlots host fuel db businessId serviceId date = Returned day ->
    NoDup (map slotKey (time_slots day)).
Proof.
  intros host fuel db businessId serviceId date day Hret.
  destruct (getAvailableSlots_inv _ _ _ _ _ _ _ Hret) as (service & generated & _ & _ & Hts).
  rewrite Hts. unfold uniqueSlots.
  match goal with |- context [sort compareSlots ?m] => set (l := sort compareSlots m) end.
  exact (proj1 (uniqueSlots_from l [])).
Qed.

(* ================================================================== *)
(** ** The candidates of a day and their marking *)
(* ================================================================== *)










(** X6. Working hours: every slot of a returned day lies inside the window
    of an active rule of that weekday, a rule of the business for a
    capacity-scoped service and a rule of the slot's staff member, who is
    active and capable of the service, otherwise: both of its times parse,
    it lasts the service's duration, and it neither starts before the
    rule's start nor ends after the rule's end. *)
Theorem getAvailableSlots_within_rule :
  forall host fuel db businessId serviceId date day service slot,
    getAvailableSlots host fuel db businessId serviceId date = Returned day ->
    selectService db serviceId businessId = Some service ->
    1 <= slotStep service ->
    0 <= duration_minutes service ->
    rulesStartAtOrAfterMidnight db ->
    In slot (time_slots day) ->
    exists rule ws we s,
      (if requires_staff service
       then exists staffId,
              slot_staff_member_id slot = Some staffId
              /\ In staffId (selectStaffForService db serviceId)
              /\ In rule (selectStaffRules db staffId (getDay host (Date_parse host date)))
       else slot_staff_member_id slot = None
            /\ In rule (selectBusinessRules db businessId (getDay host (Date_parse host date))))
      /\ timeStringToMinutes (rule_start_time rule) = Num ws
      /\ timeStringToMinutes (rule_end_time rule) = Num we
      /\ timeStringToMinutes (slot_start_time slot) = Num s
      /\ timeStringToMinutes (slot_end_time slot) = Num (s + duration_minutes service)
      /\ ws <= s /\ s + duration_minutes service <= we.
Proof.
  intros host fuel db businessId serviceId date day service slot
         Hret Hsel Hstep Hdur Hrules Hin.
  destruct (listed_slot_window host fuel db businessId serviceId date day service slot
              Hret Hsel Hstep Hin)
    as (rule & ws & we & c & Hscope & Hws & Hwe & Hlo & Hhi & Hst & Hen).
  assert (Hrule : In rule (availability_rules db)).
  { destruct (requires_staff service).
    - destruct Hscope as (staffId & _ & _ & Hr). apply filter_In in Hr. tauto.
    - destruct Hscope as (_ & Hr). apply filter_In in Hr. tauto. }
  pose proof (Hrules rule ws Hrule Hws) as Hnonneg.
  exists rule, ws, we, c. rewrite Hst, Hen.
  rewrite !timeStringToMinutes_formatTime by lia. auto 10.
Qed.

(* ================================================================== *)
(** ** Marking for a staff service, and from the listing to the validator *)
(* ================================================================== *)



Lemma markSlot_staff service existingBookings x :
  requires_staff service = true ->
  markSlot service existingBookings x
  = if existsb (fun b =>
        timeSlotsOverlap (slot_start_time x) (slot_end_time x)
                         (booking_start_time b) (booking_end_time b)
        && sameStaff (slot_staff_member_id x) (booking_staff_member_id b))
        existingBookings
    then markUnavailable x else x.
Proof.
  intros Hstaff. induction existingBookings as [|b rest IH]; simpl; [reflexivity|].
  rewrite Hstaff. destruct (timeSlotsOverlap _ _ _ _); simpl; [|exact IH].
  destruct (sameStaff _ _); simpl; [reflexivity|exact IH].
Qed.


Lemma applySpecialAvailability_survivor specials :
  forall slots x special,
    In x (applySpecialAvailability specials slots) ->
    In special specials ->
    special_is_available special = false ->
    exists s e,
      closureWindow special = Some (s, e)
      /\ timeSlotsOverlap (slot_start_time x) (slot_end_time x) s e = false.
Proof.
  intros slots x special Hx Hsp Hc.
  destruct (closureWindow special) as [[s e]|] eqn:Hw.
  - exists s, e. split; [reflexivity|].
    eapply applySpecialAvailability_clear; eauto.
  - rewrite (applySpecialAvailability_full_day _ special Hsp Hc Hw) in Hx. destruct Hx.
Qed.

Lemma specialClosure_none specials startTime endTime :
  (forall special, In special specials -> special_is_available special = false ->
     exists s e, closureWindow special = Some (s, e)
                 /\ timeSlotsOverlap startTime endTime s e = false) ->
  specialClosure specials startTime endTime = None.
Proof.
  induction specials as [|sp specials IH]; intros H; simpl; [reflexivity|].
  destruct (special_is_available sp) eqn:Ea; simpl.
  - apply IH. intros; apply H; auto. now right.
  - destruct (H sp (or_introl eq_refl) Ea) as (s & e & -> & ->).
    apply IH. intros; apply H; auto. now right.
Qed.

Lemma selectStaffForService_In db serviceId staffId :
  In staffId (selectStaffForService db serviceId) ->
  exists ss, In ss (staff_services db)
             /\ ss_service_id ss = serviceId /\ ss_staff_member_id ss = staffId.
Proof.
  unfold selectStaffForService. rewrite in_flat_map. intros (ss & Hss & Hin).
  destruct (Z.eqb_spec (ss_service_id ss) serviceId) as [Hs|]; [|destruct Hin].
  apply in_map_iff in Hin. destruct Hin as (sm & <- & Hsm).
  apply filter_In in Hsm. destruct Hsm as [_ Hsm].
  apply andb_true_iff in Hsm. destruct Hsm as [Hsm _]. apply Z.eqb_eq in Hsm.
  exists ss. auto.
Qed.

(** X11. From the listing to the validator: a slot that a returned day
    lists as available passes [isTimeSlotAvailable] for a party of one and
    the slot's staff member (none for a capacity-scoped service). *)
Theorem listed_available_slot_accepted :
  forall host fuel db businessId serviceId date day service slot,
    getAvailableSlots host fuel db businessId serviceId date = Returned day ->
    selectService db serviceId businessId = Some service ->
    1 <= slotStep service ->
    0 <= duration_minutes service ->
    1 <= capacity service ->
    rulesStartAtOrAfterMidnight db ->
    (forall staffId, slot_staff_member_id slot = Some staffId -> staffId <> 0) ->
    In slot (time_slots day) ->
    slot_available slot = true ->
    isTimeSlotAvailable host db businessId serviceId (slot_staff_member_id slot) date
      (slot_start_time slot) (slot_end_time slot) 1 None
    = {| available := true; reason := None |}.
Proof.
  intros host fuel db businessId serviceId date day service slot
         Hret Hsel Hstep Hdur Hcap Hrules Hnz Hin Hfree.
  pose proof (listed_slot_window _ _ _ _ _ _ _ _ _ Hret Hsel Hstep Hin)
    as (rule & ws & we & c & Hscope & Hws & Hwe & Hlo & Hhi & Hst & Hen).
  destruct (listed_slot_origin _ _ _ _ _ _ _ _ Hret Hin)
    as (service' & generated & cand & Hsel' & Hgen & Hcand & Hsurv & Hslot).
  rewrite Hsel in Hsel'. injection Hsel' as <-.
  destruct (markSlot_key service (selectActiveBookings db businessId serviceId date) cand)
    as (Ks & Ke & Kf). rewrite <- Hslot in Ks, Ke, Kf.
  set (dow := getDay host (Date_parse host date)) in *.
  assert (Hrule_in : In rule (availability_rules db)).
  { destruct (requires_staff service).
    - destruct Hscope as (staffId & _ & _ & Hr). apply filter_In in Hr. tauto.
    - destruct Hscope as (_ & Hr). apply filter_In in Hr. tauto. }
  pose proof (Hrules rule ws Hrule_in Hws) as Hws0.
  assert (Hps : timeStringToMinutes (slot_start_time slot) = Num c)
    by (rewrite Hst; apply timeStringToMinutes_formatTime; lia).
  assert (Hpe : timeStringToMinutes (slot_end_time slot) = Num (c + duration_minutes service))
    by (rewrite Hen; apply timeStringToMinutes_formatTime; lia).
  assert (Hwithin : forall rules, In rule rules ->
            withinHours (slot_start_time slot) (slot_end_time slot) rules = true).
  { intros rules Hr. unfold withinHours. apply existsb_exists. exists rule.
    split; [exact Hr|]. rewrite Hps, Hpe, Hws, Hwe. unfold ge. simpl.
    apply andb_true_iff. split; apply Z.leb_le; lia. }
  assert (Hclosures : forall specials,
            (forall sp, In sp specials ->
               In sp (selectSpecialForService db businessId serviceId
                        (requires_staff service) date)) ->
            specialClosure specials (slot_start_time slot) (slot_end_time slot) = None).
  { intros specials Hsub. apply specialClosure_none. intros sp Hsp Hclosed.
    destruct (applySpecialAvailability_survivor _ _ cand sp Hsurv (Hsub sp Hsp) Hclosed)
      as (s & e & Hw & Ho).
    exists s, e. rewrite Ks, Ke. auto. }
  unfold isTimeSlotAvailable. rewrite Hsel.
  replace (1 >? capacity service) with false
    by (symmetry; rewrite Z.gtb_ltb; apply Z.ltb_ge; lia).
  fold dow.
  destruct (requires_staff service) eqn:Hstaff.
  - (* staff service *)
    destruct Hscope as (staffId & Hsid & Hcapable & Hr).
    rewrite Hsid. specialize (Hnz staffId Hsid).
    assert (Htruthy : truthyOptNumber (Some staffId) = true).
    { simpl. unfold truthyNumber. now destruct (Z.eqb_spec staffId 0). }
    assert (Hor : orNumber (Some staffId) 0 = staffId).
    { unfold orNumber. simpl in Htruthy. now rewrite Htruthy. }
    rewrite Htruthy, Hor. cbn [andb].
    destruct (selectStaffRules db staffId dow) as [|r0 rules0] eqn:Erules; [destruct Hr|].
    rewrite (Hwithin (r0 :: rules0) Hr). cbn [negb].
    rewrite Hclosures.
    2:{ intros sp Hsp. apply filter_In in Hsp. destruct Hsp as [Hsp Hc].
        unfold selectSpecialForService. apply filter_In. split; [exact Hsp|].
        apply andb_true_iff in Hc. destruct Hc as [Hc ->]. rewrite andb_true_r.
        apply orb_true_iff in Hc. apply orb_true_iff.
        destruct Hc as [Hc|Hc]; [now left|right]. simpl.
        destruct (selectStaffForService_In _ _ _ Hcapable) as (ss & Hss & Hs1 & Hs2).
        apply existsb_exists. exists ss. split; [exact Hss|].
        rewrite Hs1, Hs2, Z.eqb_refl. exact Hc. }
    rewrite markSlot_staff in Hslot by assumption.
    match type of Hslot with context [existsb ?f ?l] => destruct (existsb f l) eqn:E end;
      [subst slot; discriminate|].
    assert (Hnone : hasBookingConflict service (slot_start_time slot) (slot_end_time slot) 1
                      (selectConflictCandidates db businessId serviceId date (Some staffId) None)
                    = false).
    { unfold selectConflictCandidates. cbn [truthyOptNumber].
      induction (selectActiveBookings db businessId serviceId date) as [|b l IH];
        [reflexivity|].
      cbn [existsb filter] in *. apply orb_false_iff in E. destruct E as [Eb El].
      rewrite andb_true_r.
      destruct (sqlEq (booking_staff_member_id b) staffId) eqn:Esql; simpl; [|now apply IH].
      rewrite Hstaff. simpl.
      assert (Hsame : sameStaff (slot_staff_member_id cand) (booking_staff_member_id b) = true).
      { rewrite <- Kf, Hsid. unfold sqlEq in Esql. unfold sameStaff.
        destruct (booking_staff_member_id b) as [v|]; [|discriminate].
        apply Z.eqb_eq in Esql. subst v. apply Z.eqb_refl. }
      rewrite Hsame, andb_true_r, <- Ks, <- Ke in Eb. rewrite Eb. now apply IH. }
    rewrite Hnone. reflexivity.
  - (* capacity-scoped service *)
    destruct Hscope as (Hsid & Hr). rewrite Hsid. cbn [truthyOptNumber andb].
    destruct (selectBusinessRules db businessId dow) as [|r0 rules0] eqn:Erules; [destruct Hr|].
    rewrite (Hwithin (r0 :: rules0) Hr). cbn [negb].
    rewrite Hclosures.
    2:{ intros sp Hsp. apply filter_In in Hsp. destruct Hsp as [Hsp Hc].
        unfold selectSpecialForService. apply filter_In. split; [exact Hsp|].
        simpl in Hc. simpl. exact Hc. }
    rewrite selectConflictCandidates_plain, hasBookingConflict_capacity by assumption.
    rewrite markSlot_capacity in Hslot by assumption.
    destruct (existsb (capacityConflict service cand)
                (selectActiveBookings db businessId serviceId date)) eqn:E;
      [subst slot; discriminate|].
    assert (Hnone : existsb (fun b =>
                timeSlotsOverlap (slot_start_time slot) (slot_end_time slot)
                  (booking_start_time b) (booking_end_time b)
                && negb (1 + party_size b <=? capacity service))
              (selectActiveBookings db businessId serviceId date) = false).
    { induction (selectActiveBookings db businessId serviceId date) as [|b l IH];
        [reflexivity|].
      cbn [existsb] in *. apply orb_false_iff in E. destruct E as [Eb El].
      apply orb_false_iff. split; [|now apply IH].
      unfold capacityConflict in Eb. rewrite Ks, Ke.
      destruct (timeSlotsOverlap _ _ _ _); cbn [andb] in *; [|reflexivity].
      apply negb_false_iff, Z.leb_le. rewrite Z.geb_leb in Eb. apply Z.leb_gt in Eb. lia. }
    rewrite Hnone. reflexivity.
Qed.

(* ================================================================== *)
(** ** What the validator's verdict guarantees *)
(* ================================================================== *)

(** The checks behind a positive verdict of [isTimeSlotAvailable]. *)
Lemma isTimeSlotAvailable_inv host db businessId serviceId staffMemberId date
      startTime endTime partySize excludeBookingId :
  available (isTimeSlotAvailable host db businessId serviceId staffMemberId date
               startTime endTime partySize excludeBookingId) = true ->
  exists service,
    selectService db serviceId businessId = Some service
    /\ partySize <= capacity service
    /\ withinHours startTime endTime
         (if requires_staff service && truthyOptNumber staffMemberId
          then selectStaffRules db (orNumber staffMemberId 0)
                 (getDay host (Date_parse host date))
          else selectBusinessRules db businessId (getDay host (Date_parse host date)))
       = true
    /\ specialClosure (specialsForRequest db businessId staffMemberId date)
         startTime endTime = None
    /\ hasBookingConflict service startTime endTime partySize
         (selectConflictCandidates db businessId serviceId date
            (if requires_staff service && truthyOptNumber staffMemberId
             then staffMemberId else None) excludeBookingId) = false
    /\ isTimeSlotAvailable host db businessId serviceId staffMemberId date
         startTime endTime partySize excludeBookingId
       = {| available := true; reason := None |}.
Proof.
  unfold isTimeSlotAvailable, specialsForRequest.
  destruct (selectService db serviceId businessId) as [service|]; [|discriminate].
  intros H. exists service. split; [reflexivity|].
  destruct (Z.gtb_spec partySize (capacity service)) as [|Hcap]; [discriminate|].
  split; [lia|].
  destruct (requires_staff service && truthyOptNumber staffMemberId).
  - destruct (selectStaffRules db (orNumber staffMemberId 0) _) as [|r rules];
      [discriminate|].
    destruct (withinHours startTime endTime (r :: rules)); [|discriminate].
    split; [reflexivity|]. cbn [negb] in *.
    destruct (specialClosure _ startTime endTime); [discriminate|].
    split; [reflexivity|].
    destruct (hasBookingConflict _ _ _ _ _); [discriminate|]. auto.
  - destruct (selectBusinessRules db businessId _) as [|r rules]; [discriminate|].
    destruct (withinHours startTime endTime (r :: rules)); [|discriminate].
    split; [reflexivity|]. cbn [negb] in *.
    destruct (specialClosure _ startTime endTime); [discriminate|].
    split; [reflexivity|].
    destruct (hasBookingConflict _ _ _ _ _); [discriminate|]. auto.
Qed.

Lemma hasBookingConflict_false service startTime endTime partySize existingBookings b :
  hasBookingConflict service startTime endTime partySize existingBookings = false ->
  In b existingBookings ->
  timeSlotsOverlap startTime endTime (booking_start_time b) (booking_end_time b) = true ->
  requires_staff service = false /\ partySize + party_size b <= capacity service.
Proof.
  induction existingBookings as [|x rest IH]; intros H Hin Ho; [destruct Hin|].
  simpl in H. destruct Hin as [->|Hin].
  - rewrite Ho in H. destruct (requires_staff service); cbn [negb andb] in H;
      [discriminate|].
    destruct (Z.leb_spec (partySize + party_size b) (capacity service));
      [auto|discriminate H].
  - destruct (timeSlotsOverlap startTime endTime (booking_start_time x)
                (booking_end_time x)); [|now apply IH].
    destruct (negb (requires_staff service) && _); [now apply IH|discriminate H].
Qed.

Lemma selectConflictCandidates_In db businessId serviceId date staffFilter excludeBookingId b :
  In b (bookings db) ->
  booking_business_id b = businessId -> booking_service_id b = serviceId ->
  booking_date b = date ->
  (status b = pending \/ status b = confirmed) ->
  (forall staffId, staffFilter = Some staffId -> booking_staff_member_id b = Some staffId) ->
  excludeBookingId <> Some (booking_id b) ->
  In b (selectConflictCandidates db businessId serviceId date staffFilter excludeBookingId).
Proof.
  intros Hin Hb Hs Hd Hst Hstaff Hex. unfold selectConflictCandidates.
  apply filter_In. split.
  - apply selectActiveBookings_In. tauto.
  - apply andb_true_iff. split.
    + destruct staffFilter as [staffId|]; [|reflexivity].
      rewrite (Hstaff staffId eq_refl). simpl. apply Z.eqb_refl.
    + destruct excludeBookingId as [x|]; [|reflexivity]. cbn [truthyOptNumber].
      destruct (truthyNumber x) eqn:Ex; [|reflexivity].
      unfold orNumber. rewrite Ex. apply negb_true_iff, Z.eqb_neq. congruence.
Qed.

(** The conflict loop behind a positive verdict: a pending or confirmed
    booking the conflict query selects and that overlaps the accepted range
    belongs to a capacity service and fits beside the party. *)
Lemma accepted_range_candidates host db businessId serviceId staffMemberId date
      startTime endTime partySize excludeBookingId service b :
  available (isTimeSlotAvailable host db businessId serviceId staffMemberId date
               startTime endTime partySize excludeBookingId) = true ->
  selectService db serviceId businessId = Some service ->
  In b (bookings db) ->
  booking_business_id b = businessId -> booking_service_id b = serviceId ->
  booking_date b = date ->
  (status b = pending \/ status b = confirmed) ->
  (forall staffId,
     (if requires_staff service && truthyOptNumber staffMemberId
      then staffMemberId else None) = Some staffId ->
     booking_staff_member_id b = Some staffId) ->
  excludeBookingId <> Some (booking_id b) ->
  timeSlotsOverlap startTime endTime (booking_start_time b) (booking_end_time b) = true ->
  requires_staff service = false /\ partySize + party_size b <= capacity service.
Proof.
  intros Hav Hsel Hin Hb Hs Hd Hst Hstaff Hex Ho.
  destruct (isTimeSlotAvailable_inv _ _ _ _ _ _ _ _ _ _ Hav)
    as (service' & Hsel' & _ & _ & _ & Hconf & _).
  rewrite Hsel in Hsel'. injection Hsel' as <-.
  refine (hasBookingConflict_false _ _ _ _ _ b Hconf _ Ho).
  apply selectConflictCandidates_In; auto.
Qed.

(** X12. A staff member is never double-booked by the validator: when
    [isTimeSlotAvailable] accepts a time range for a staff service and a
    staff member, no pending or confirmed booking of that staff member for
    the business, service and date (other than an excluded one) overlaps
    the range. *)
Theorem isTimeSlotAvailable_no_staff_overlap :
  forall host db businessId serviceId staffId date startTime endTime partySize
         excludeBookingId service b,
    available (isTimeSlotAvailable host db businessId serviceId (Some staffId) date
                 startTime endTime partySize excludeBookingId) = true ->
    selectService db serviceId businessId = Some service ->
    requires_staff service = true ->
    staffId <> 0 ->
    In b (bookings db) ->
    booking_business_id b = businessId -> booking_service_id b = serviceId ->
    booking_date b = date ->
    (status b = pending \/ status b = confirmed) ->
    booking_staff_member_id b = Some staffId ->
    excludeBookingId <> Some (booking_id b) ->
    timeSlotsOverlap startTime endTime (booking_start_time b) (booking_end_time b) = false.
Proof.
  intros host db businessId serviceId staffId date startTime endTime partySize
         excludeBookingId service b Hav Hsel Hstaff Hnz Hin Hb Hs Hd Hst Hbs Hex.
  destruct (timeSlotsOverlap startTime endTime _ _) eqn:Ho; [|reflexivity].
  destruct (accepted_range_candidates _ _ _ _ _ _ _ _ _ _ _ b Hav Hsel Hin Hb Hs Hd Hst)
    as [Hno _]; auto; [|congruence].
  intros x Hx. destruct (requires_staff service && _); [|discriminate]. congruence.
Qed.

(** X13. Capacity: when [isTimeSlotAvailable] accepts a party for a
    capacity-scoped service, the party alone fits the capacity, and together
    with each single overlapping pending or confirmed booking of the
    business, service and date (other than an excluded one) it still fits. *)
Theorem isTimeSlotAvailable_pairwise_capacity :
  forall host db businessId serviceId staffMemberId date startTime endTime partySize
         excludeBookingId service,
    available (isTimeSlotAvailable host db businessId serviceId staffMemberId date
                 startTime endTime partySize excludeBookingId) = true ->
    selectService db serviceId businessId = Some service ->
    requires_staff service = false ->
    partySize <= capacity service
    /\ forall b,
         In b (bookings db) ->
         booking_business_id b = businessId -> booking_service_id b = serviceId ->
         booking_date b = date ->
         (status b = pending \/ status b = confirmed) ->
         excludeBookingId <> Some (booking_id b) ->
         timeSlotsOverlap startTime endTime (booking_start_time b) (booking_end_time b) = true ->
         partySize + party_size b <= capacity service.
Proof.
  intros host db businessId serviceId staffMemberId date startTime endTime partySize
         excludeBookingId service Hav Hsel Hstaff.
  split.
  - destruct (isTimeSlotAvailable_inv _ _ _ _ _ _ _ _ _ _ Hav)
      as (service' & Hsel' & Hcap & _).
    rewrite Hsel in Hsel'. now injection Hsel' as <-.
  - intros b Hin Hb Hs Hd Hst Hex Ho.
    refine (proj2 (accepted_range_candidates _ _ _ _ _ _ _ _ _ _ _ b Hav Hsel Hin Hb Hs Hd
                     Hst _ Hex Ho)).
    rewrite Hstaff. discriminate.
Qed.

Lemma specialClosure_clear specials startTime endTime :
  specialClosure specials startTime endTime = None ->
  forall special, In special specials -> special_is_available special = false ->
    exists s e, closureWindow special = Some (s, e)
                /\ timeSlotsOverlap startTime endTime s e = false.
Proof.
  induction specials as [|sp specials IH]; intros H special Hin Hc; [destruct Hin|].
  simpl in H. destruct Hin as [->|Hin].
  - rewrite Hc in H. simpl in H.
    destruct (closureWindow special) as [[s e]|]; [|discriminate].
    exists s, e. split; [reflexivity|].
    destruct (timeSlotsOverlap startTime endTime s e); [discriminate|reflexivity].
  - apply IH; auto. destruct (special_is_available sp); simpl in H; [exact H|].
    destruct (closureWindow sp) as [[s e]|]; [|discriminate].
    destruct (timeSlotsOverlap startTime endTime s e); [discriminate|exact H].
Qed.

(** X14. Hours and closures: a time range that [isTimeSlotAvailable]
    accepts lies inside one active rule of the weekday (a rule of the given
    staff member for a staff service, of the business otherwise), and every
    closure of the business on that date has a window that the range does
    not overlap; in particular the date has no whole-day closure. *)
Theorem isTimeSlotAvailable_hours_and_closures :
  forall host db businessId serviceId staffMemberId date startTime endTime partySize
         excludeBookingId,
    available (isTimeSlotAvailable host db businessId serviceId staffMemberId date
                 startTime endTime partySize excludeBookingId) = true ->
    (exists service rule rs re s e,
       selectService db serviceId businessId = Some service
       /\ In rule (availability_rules db)
       /\ rule_is_active rule = true
       /\ Num (rule_day_of_week rule) = getDay host (Date_parse host date)
       /\ (if requires_staff service && truthyOptNumber staffMemberId
           then rule_staff_member_id rule = staffMemberId
           else rule_business_id rule = Some businessId)
       /\ timeStringToMinutes (rule_start_time rule) = Num rs
       /\ timeStringToMinutes (rule_end_time rule) = Num re
       /\ timeStringToMinutes startTime = Num s
       /\ timeStringToMinutes endTime = Num e
       /\ rs <= s /\ e <= re)
    /\ forall special,
         In special (special_availability db) ->
         special_business_id special = Some businessId ->
         special_date special = date ->
         special_is_available special = false ->
         exists w1 w2,
           closureWindow special = Some (w1, w2)
           /\ timeSlotsOverlap startTime endTime w1 w2 = false.
Proof.
  intros host db businessId serviceId staffMemberId date startTime endTime partySize
         excludeBookingId Hav.
  destruct (isTimeSlotAvailable_inv _ _ _ _ _ _ _ _ _ _ Hav)
    as (service & Hsel & _ & Hwithin & Hclosure & _ & _).
  split.
  - unfold withinHours in Hwithin. apply existsb_exists in Hwithin.
    destruct Hwithin as (rule & Hr & Hc). apply andb_true_iff in Hc.
    destruct Hc as [Hge Hle]. unfold ge, le in Hge, Hle.
    destruct (timeStringToMinutes (rule_start_time rule)) as [rs|] eqn:Ers; [|discriminate].
    destruct (timeStringToMinutes startTime) as [s|] eqn:Es; [|discriminate].
    destruct (timeStringToMinutes endTime) as [e|] eqn:Ee; [|discriminate].
    destruct (timeStringToMinutes (rule_end_time rule)) as [re|] eqn:Ere; [|discriminate].
    apply Z.leb_le in Hge, Hle.
    exists service, rule, rs, re, s, e.
    assert (Hday : forall col, sqlEqNumber col (getDay host (Date_parse host date)) = true ->
                               Num col = getDay host (Date_parse host date)).
    { intros col Hcol. unfold sqlEqNumber, strictEq in Hcol.
      destruct (getDay host (Date_parse host date)); [|discriminate].
      apply Z.eqb_eq in Hcol. now subst. }
    destruct (requires_staff service && truthyOptNumber staffMemberId) eqn:Escoped.
    + apply filter_In in Hr. destruct Hr as [Hr Hf].
      rewrite !andb_true_iff in Hf. destruct Hf as [[Hstaff Hdow] Hact].
      repeat split; auto.
      apply andb_true_iff in Escoped. destruct Escoped as [_ Htruthy].
      destruct staffMemberId as [sid|]; [|discriminate]. simpl in Htruthy.
      unfold orNumber in Hstaff. rewrite Htruthy in Hstaff. unfold sqlEq in Hstaff.
      destruct (rule_staff_member_id rule) as [v|]; [|discriminate].
      apply Z.eqb_eq in Hstaff. now subst.
    + apply filter_In in Hr. destruct Hr as [Hr Hf].
      rewrite !andb_true_iff in Hf. destruct Hf as [[Hbus Hdow] Hact].
      repeat split; auto.
      unfold sqlEq in Hbus. destruct (rule_business_id rule) as [v|]; [|discriminate].
      apply Z.eqb_eq in Hbus. now subst.
  - intros special Hin Hbus Hdate Hclosed.
    apply (specialClosure_clear _ _ _ Hclosure special); [|exact Hclosed].
    unfold specialsForRequest. apply filter_In. split; [exact Hin|].
    rewrite Hbus, Hdate. simpl. now rewrite Z.eqb_refl, String.eqb_refl.
Qed.

Lemma filter_twice {A : Type} (f g : A -> bool) (l : list A) :
  filter f (filter g l) = filter (fun x => g x && f x) l.
Proof.
  induction l as [|x l IH]; simpl; [reflexivity|].
  destruct (g x); simpl; [destruct (f x)|]; now rewrite IH.
Qed.

(** X15. Excluding a booking is the same as checking against the ledger
    without it: for a non-zero id, [isTimeSlotAvailable] with
    [excludeBookingId] gives the verdict it gives, without exclusion, on the
    database from which the bookings of that id are removed. *)
Theorem isTimeSlotAvailable_exclude :
  forall host db businessId serviceId staffMemberId date startTime endTime partySize
         bookingId,
    bookingId <> 0 ->
    isTimeSlotAvailable host db businessId serviceId staffMemberId date
      startTime endTime partySize (Some bookingId)
    = isTimeSlotAvailable host (withoutBooking db bookingId) businessId serviceId
        staffMemberId date startTime endTime partySize None.
Proof.
  intros host db businessId serviceId staffMemberId date startTime endTime partySize
         bookingId Hnz.
  assert (Hcands : forall staffFilter,
            selectConflictCandidates db businessId serviceId date staffFilter (Some bookingId)
            = selectConflictCandidates (withoutBooking db bookingId) businessId serviceId
                date staffFilter None).
  { intros staffFilter. unfold selectConflictCandidates, selectActiveBookings. simpl.
    unfold truthyNumber, orNumber, truthyNumber.
    destruct (Z.eqb_spec bookingId 0) as [|_]; [contradiction|]. simpl.
    rewrite !filter_twice. apply filter_ext. intros b.
    destruct (booking_id b =? bookingId); simpl;
      rewrite ?andb_true_r, ?andb_false_r; reflexivity. }
  unfold isTimeSlotAvailable.
  change (selectService (withoutBooking db bookingId)) with (selectService db).
  destruct (selectService db serviceId businessId) as [service|]; [|reflexivity].
  destruct (partySize >? capacity service); [reflexivity|].
  rewrite Hcands. reflexivity.
Qed.

(* ================================================================== *)
(** ** What a valid request has passed *)
(* ================================================================== *)

Lemma uint_of_string_digits s :
  allDigits s = true -> exists d, NilEmpty.uint_of_string s = Some d.
Proof.
  induction s as [|c r IH]; intros H; [now exists Decimal.Nil|].
  simpl in H. apply andb_true_iff in H. destruct H as [Hc Hr].
  destruct (IH Hr) as [d Hd]. simpl. rewrite Hd.
  apply charIn_cases in Hc. cbn in Hc.
  pick_char Hc; eexists; reflexivity.
Qed.

Lemma Number_digits s :
  allDigits s = true -> s <> EmptyString -> exists z, 0 <= z /\ Number s = Num z.
Proof.
  intros H Hne. rewrite (Number_allDigits s H Hne).
  destruct (uint_of_string_digits s H) as [d Hd].
  unfold decimalDigits, NilZero.uint_of_string.
  destruct s; [congruence|]. rewrite Hd.
  exists (Z.of_uint d). split; [|reflexivity].
  unfold Z.of_uint. apply N2Z.is_nonneg.
Qed.

Lemma charIn_digit lo hi c :
  (48 <= nat_of_ascii lo)%nat -> (nat_of_ascii hi <= 57)%nat ->
  charIn lo hi c = true -> charIn "0" "9" c = true.
Proof.
  intros Hlo Hhi H. apply charIn_bounds in H. unfold charIn.
  apply andb_true_iff. split; apply Nat.leb_le; cbn; lia.
Qed.

Lemma minutesSuffix_digits s :
  minutesSuffix s = true ->
  exists mm, s = String ":" mm /\ allDigits mm = true /\ mm <> EmptyString.
Proof.
  destruct s as [|c [|m1 [|m2 [|x r]]]]; simpl; try discriminate.
  rewrite !andb_true_iff. intros [[Hc H1] H2].
  apply Ascii.eqb_eq in Hc. subst c.
  exists (String m1 (String m2 EmptyString)). split; [reflexivity|]. split; [|discriminate].
  simpl. rewrite H2, (charIn_digit "0" "5" m1); auto; cbn; lia.
Qed.

(** A time that matches the pattern parses to a non-negative minute count. *)
Lemma timeFormatTest_parses s :
  timeFormatTest s = true -> exists n, 0 <= n /\ timeStringToMinutes s = Num n.
Proof.
  intros H.
  assert (Hshape : exists hh mm,
             s = (hh ++ String ":" mm)%string
             /\ allDigits hh = true /\ hh <> EmptyString
             /\ allDigits mm = true /\ mm <> EmptyString).
  { destruct s as [|a r]; [discriminate|]. simpl in H.
    apply orb_true_iff in H. destruct H as [H|H].
    - apply andb_true_iff in H. destruct H as [Ha Hr].
      destruct (minutesSuffix_digits r Hr) as (mm & -> & Hmm & Hne).
      exists (String a EmptyString), mm. simpl. rewrite Ha.
      repeat split; auto; discriminate.
    - destruct r as [|b r']; [discriminate|].
      apply andb_true_iff in H. destruct H as [Hab Hr].
      destruct (minutesSuffix_digits r' Hr) as (mm & -> & Hmm & Hne).
      exists (String a (String b EmptyString)), mm. simpl.
      assert (Hd : charIn "0" "9" a = true /\ charIn "0" "9" b = true).
      { apply orb_true_iff in Hab. destruct Hab as [Hab|Hab];
          apply andb_true_iff in Hab; destruct Hab as [Ha Hb].
        - split; [apply (charIn_digit "0" "1")|]; auto; cbn; lia.
        - apply Ascii.eqb_eq in Ha. subst a.
          split; [reflexivity|apply (charIn_digit "0" "3")]; auto; cbn; lia. }
      destruct Hd as [-> ->]. repeat split; auto; discriminate. }
  destruct Hshape as (hh & mm & -> & Hh & Hhne & Hm & Hmne).
  destruct (Number_digits hh Hh Hhne) as (zh & Hzh & Eh).
  destruct (Number_digits mm Hm Hmne) as (zm & Hzm & Em).
  exists (zh * 60 + zm). split; [lia|].
  unfold timeStringToMinutes, splitNumbers.
  rewrite (split_allDigits_app _ _ Hh), (split_allDigits _ Hm). simpl.
  now rewrite Eh, Em.
Qed.

(** The checks behind a request that [validateBookingRequest] declares
    valid. *)
Lemma validateBookingRequest_checks :
  forall host now db businessId serviceId staffMemberId bookingDate startTime endTime
         partySize excludeBookingId,
    valid (validateBookingRequest host now db businessId serviceId staffMemberId
             bookingDate startTime endTime partySize excludeBookingId) = true ->
    timeFormatTest startTime = true /\ timeFormatTest endTime = true
    /\ (exists s e, timeStringToMinutes startTime = Num s
                    /\ timeStringToMinutes endTime = Num e /\ 0 <= s < e)
    /\ lt (Date_parse host bookingDate) (Num (Date_setHours0 host now)) = false
    /\ (exists service,
          selectService db serviceId businessId = Some service
          /\ (requires_staff service = true ->
              exists staffId, staffMemberId = Some staffId /\ staffId <> 0
                              /\ canStaffPerformService db staffId serviceId = true))
    /\ isTimeSlotAvailable host db businessId serviceId staffMemberId bookingDate
         startTime endTime partySize excludeBookingId
       = {| available := true; reason := None |}
    /\ errors (validateBookingRequest host now db businessId serviceId staffMemberId
                 bookingDate startTime endTime partySize excludeBookingId) = [].
Proof.
  intros host now db businessId serviceId staffMemberId bookingDate startTime endTime
         partySize excludeBookingId.
  unfold validateBookingRequest, getServiceDetails.
  destruct (timeFormatTest startTime) eqn:Efs; cbn [negb orb].
  2:{ destruct (le _ _), (lt _ _), (selectService db serviceId businessId) as [sv|];
        simpl; try discriminate;
        destruct (requires_staff sv); simpl; try discriminate;
        destruct (truthyOptNumber staffMemberId); simpl; try discriminate;
        destruct (canStaffPerformService _ _ _); simpl; discriminate. }
  destruct (timeFormatTest endTime) eqn:Efe; cbn [negb orb].
  2:{ destruct (le _ _), (lt _ _), (selectService db serviceId businessId) as [sv|];
        simpl; try discriminate;
        destruct (requires_staff sv); simpl; try discriminate;
        destruct (truthyOptNumber staffMemberId); simpl; try discriminate;
        destruct (canStaffPerformService _ _ _); simpl; discriminate. }
  destruct (le (timeStringToMinutes endTime) (timeStringToMinutes startTime)) eqn:Ele.
  { destruct (lt _ _), (selectService db serviceId businessId) as [sv|];
      simpl; try discriminate;
      destruct (requires_staff sv); simpl; try discriminate;
      destruct (truthyOptNumber staffMemberId); simpl; try discriminate;
      destruct (canStaffPerformService _ _ _); simpl; discriminate. }
  destruct (lt (Date_parse host bookingDate) (Num (Date_setHours0 host now))) eqn:Epast.
  { destruct (selectService db serviceId businessId) as [sv|];
      simpl; try discriminate;
      destruct (requires_staff sv); simpl; try discriminate;
      destruct (truthyOptNumber staffMemberId); simpl; try discriminate;
      destruct (canStaffPerformService _ _ _); simpl; discriminate. }
  destruct (selectService db serviceId businessId) as [service|] eqn:Esel;
    [|simpl; discriminate].
  cbn [app].
  assert (Htimes : exists s e, timeStringToMinutes startTime = Num s
                               /\ timeStringToMinutes endTime = Num e /\ 0 <= s < e).
  { destruct (timeFormatTest_parses _ Efs) as (s & Hs & Es).
    destruct (timeFormatTest_parses _ Efe) as (e & He & Ee).
    exists s, e. rewrite Es, Ee in *. simpl in Ele. apply Z.leb_gt in Ele. auto. }
  assert (Hfinish : forall staffOk : Prop, staffOk ->
    valid
      (let errors0 :=
         if negb (available (isTimeSlotAvailable host db businessId serviceId staffMemberId
                               bookingDate startTime endTime partySize excludeBookingId))
         then [] ++ [orString (reason (isTimeSlotAvailable host db businessId serviceId
                                         staffMemberId bookingDate startTime endTime
                                         partySize excludeBookingId))
                       "Time slot not available"]
         else [] in
       {| valid := match errors0 with [] => true | _ => false end; errors := errors0 |})
    = true ->
    staffOk
    /\ isTimeSlotAvailable host db businessId serviceId staffMemberId bookingDate
         startTime endTime partySize excludeBookingId
       = {| available := true; reason := None |}
    /\ (if negb (available (isTimeSlotAvailable host db businessId serviceId staffMemberId
                              bookingDate startTime endTime partySize excludeBookingId))
        then [] ++ [orString (reason (isTimeSlotAvailable host db businessId serviceId
                                        staffMemberId bookingDate startTime endTime
                                        partySize excludeBookingId))
                      "Time slot not available"]
        else []) = []).
  { intros staffOk Hok Hv. cbv zeta in Hv.
    destruct (available (isTimeSlotAvailable host db businessId serviceId staffMemberId
                bookingDate startTime endTime partySize excludeBookingId)) eqn:Eav;
      simpl in Hv; [|discriminate].
    destruct (isTimeSlotAvailable_inv _ _ _ _ _ _ _ _ _ _ Eav) as (_ & _ & _ & _ & _ & _ & Heq).
    auto. }
  destruct (requires_staff service) eqn:Estaff.
  - destruct (truthyOptNumber staffMemberId) eqn:Etruthy; cbn [negb]; [|simpl; discriminate].
    destruct (canStaffPerformService db (orNumber staffMemberId 0) serviceId) eqn:Ecan;
      cbn [negb]; [|simpl; discriminate].
    intros Hv.
    destruct (Hfinish
                (exists staffId, staffMemberId = Some staffId /\ staffId <> 0
                                 /\ canStaffPerformService db staffId serviceId = true))
      as (Hstaff & Hav & Herr); [|exact Hv|].
    { destruct staffMemberId as [sid|]; [|discriminate]. exists sid.
      simpl in Etruthy. unfold orNumber in Ecan. rewrite Etruthy in Ecan.
      unfold truthyNumber in Etruthy. apply negb_true_iff, Z.eqb_neq in Etruthy. auto. }
    repeat split; auto. exists service. auto.
  - intros Hv. destruct (Hfinish True I Hv) as (_ & Hav & Herr).
    repeat split; auto. exists service. split; [reflexivity|congruence].
Qed.

(** X16. [validateBookingRequest] declares a request valid exactly when
    every check passes: both times match the pattern and the end is after
    the start, the date is not before today, the service exists and is
    active, a staff service comes with a staff member who can perform it,
    and the availability check accepts the range. *)
Theorem validateBookingRequest_valid_iff :
  forall host now db businessId serviceId staffMemberId bookingDate startTime endTime
         partySize excludeBookingId,
    valid (validateBookingRequest host now db businessId serviceId staffMemberId
             bookingDate startTime endTime partySize excludeBookingId) = true
    <->
    (timeFormatTest startTime = true /\ timeFormatTest endTime = true
     /\ (exists s e, timeStringToMinutes startTime = Num s
                     /\ timeStringToMinutes endTime = Num e /\ 0 <= s < e)
     /\ lt (Date_parse host bookingDate) (Num (Date_setHours0 host now)) = false
     /\ (exists service,
           selectService db serviceId businessId = Some service
           /\ (requires_staff service = true ->
               exists staffId, staffMemberId = Some staffId /\ staffId <> 0
                               /\ canStaffPerformService db staffId serviceId = true))
     /\ available (isTimeSlotAvailable host db businessId serviceId staffMemberId bookingDate
                     startTime endTime partySize excludeBookingId) = true).
Proof.
  intros host now db businessId serviceId staffMemberId bookingDate startTime endTime
         partySize excludeBookingId.
  split.
  - intros Hv.
    destruct (validateBookingRequest_checks _ _ _ _ _ _ _ _ _ _ _ Hv)
      as (Hs & He & Ht & Hd & Hsv & Hav & _).
    rewrite Hav. auto 10.
  - intros (Hs & He & (s & e & Es & Ee & Hse) & Hd & (service & Hsel & Hstaff) & Hav).
    unfold validateBookingRequest, getServiceDetails.
    rewrite Hs, He, Es, Ee, Hd, Hsel. cbn [negb orb le].
    destruct (Z.leb_spec e s) as [|_]; [lia|].
    destruct (requires_staff service).
    + destruct (Hstaff eq_refl) as (staffId & -> & Hnz & Hcan).
      cbn [truthyOptNumber orNumber]. unfold truthyNumber.
      destruct (Z.eqb_spec staffId 0) as [|_]; [contradiction|]. cbn [negb].
      rewrite Hcan. cbn [negb]. rewrite Hav. reflexivity.
    + rewrite Hav. reflexivity.
Qed.

(* ================================================================== *)
(** ** What update and cancel write *)
(* ================================================================== *)

Lemma ledgerFrame_refl bookingId db : ledgerFrame bookingId db db.
Proof.
  unfold ledgerFrame. repeat split; try reflexivity.
  induction (bookings db); constructor; auto.
Qed.

Lemma ledgerFrame_executeUpdate now db bookingId updates stamp :
  ledgerFrame bookingId db (executeUpdate now db bookingId updates stamp).
Proof.
  unfold ledgerFrame, executeUpdate. simpl. repeat split; try reflexivity.
  induction (bookings db) as [|row l IH]; simpl; constructor; auto.
  destruct (Z.eqb_spec (booking_id row) bookingId); simpl; repeat split; congruence.
Qed.

(** The three ways [updateBooking] ends. *)
Lemma updateBooking_cases host now db bookingId updates :
  (success (snd (updateBooking host now db bookingId updates)) = false
   /\ fst (updateBooking host now db bookingId updates) = db)
  \/ exists details,
       getBookingById db bookingId = Some details
       /\ hasAllowedField updates = true
       /\ (changesSchedule updates = true ->
           valid (validateBookingRequest host now db
                    (booking_business_id (details_booking details))
                    (booking_service_id (details_booking details))
                    (booking_staff_member_id (details_booking details))
                    (orString (upd_booking_date updates)
                       (dateText host (details_booking details)))
                    (orString (upd_start_time updates)
                       (booking_start_time (details_booking details)))
                    (orString (upd_end_time updates)
                       (booking_end_time (details_booking details)))
                    (orNumber (upd_party_size updates) (party_size (details_booking details)))
                    (Some bookingId)) = true)
       /\ storeUpdates host db bookingId updates = true
       /\ updateBooking host now db bookingId updates
          = (let stamp := match upd_status updates with
                          | Some cancelled =>
                              negb (BookingStatus_eqb (status (details_booking details))
                                      cancelled)
                          | _ => false
                          end in
             let db' := executeUpdate now db bookingId updates stamp in
             (db', {| success := true; data := getBookingById db' bookingId;
                      result_errors := None |})).
Proof.
  unfold updateBooking, changesSchedule.
  destruct (getBookingById db bookingId) as [details|]; [|left; split; reflexivity].
  destruct (truthyOptString (upd_booking_date updates) || truthyOptString (upd_start_time updates)
            || truthyOptString (upd_end_time updates) || truthyOptNumber (upd_party_size updates)).
  - match goal with |- context [negb (valid ?v)] => destruct (valid v) eqn:Ev end;
      cbn [negb]; [|left; split; reflexivity].
    destruct (hasAllowedField updates) eqn:Ea; cbn [negb]; [|left; split; reflexivity].
    destruct (storeUpdates host db bookingId updates) eqn:Es; cbn [negb];
      [|left; split; reflexivity].
    right. exists details. repeat split; auto.
  - cbn [valid negb].
    destruct (hasAllowedField updates) eqn:Ea; cbn [negb]; [|left; split; reflexivity].
    destruct (storeUpdates host db bookingId updates) eqn:Es; cbn [negb];
      [|left; split; reflexivity].
    right. exists details. repeat split; auto. discriminate.
Qed.

(** The ways [cancelBooking] ends: a rejection that writes nothing, or the
    update with the cancellation patch. *)
Lemma cancelBooking_cases host now db bookingId customerEmail reason :
  (success (snd (cancelBooking host now db bookingId customerEmail reason)) = false
   /\ fst (cancelBooking host now db bookingId customerEmail reason) = db)
  \/ exists details,
       getBookingById db bookingId = Some details
       /\ String_toLowerCase host (customer_email (details_booking details))
          = String_toLowerCase host customerEmail
       /\ status (details_booking details) <> cancelled
       /\ belowHours
            (hoursUntilBooking (bookingDateTime host (details_booking details)) now)
            (policyHours details) = false
       /\ storeUpdates host db bookingId (cancellationPatch reason) = true
       /\ cancelBooking host now db bookingId customerEmail reason
          = (let db' := executeUpdate now db bookingId (cancellationPatch reason) true in
             (db', {| success := true; data := getBookingById db' bookingId;
                      result_errors := None |})).
Proof.
  destruct (getBookingById db bookingId) as [details|] eqn:Hget.
  2:{ left. unfold cancelBooking. rewrite Hget. split; reflexivity. }
  destruct (String.eqb_spec (String_toLowerCase host (customer_email (details_booking details)))
              (String_toLowerCase host customerEmail)) as [Hmail|Hmail].
  2:{ left. unfold cancelBooking. rewrite Hget.
      apply String.eqb_neq in Hmail. rewrite Hmail. split; reflexivity. }
  destruct (BookingStatus_eqb (status (details_booking details)) cancelled) eqn:Est.
  { left. unfold cancelBooking. rewrite Hget, Hmail, String.eqb_refl, Est. split; reflexivity. }
  assert (Hst : status (details_booking details) <> cancelled).
  { intros E. rewrite E in Est. discriminate. }
  rewrite (cancelBooking_policy host now db bookingId customerEmail reason details
             Hget Hmail Hst).
  destruct (belowHours _ _) eqn:Ebelow; [left; split; reflexivity|].
  fold (cancellationPatch reason).
  destruct (storeUpdates host db bookingId (cancellationPatch reason)) eqn:Estore.
  - right. exists details. repeat split; auto.
    unfold updateBooking. rewrite Hget. cbn [changesSchedule cancellationPatch
      upd_booking_date upd_start_time upd_end_time upd_party_size truthyOptString
      truthyOptNumber orb valid negb hasAllowedField upd_customer_name upd_customer_email
      upd_customer_phone upd_special_requests upd_status upd_payment_status
      upd_cancellation_reason isSome].
    fold (cancellationPatch reason). rewrite Estore, Est. reflexivity.
  - left. unfold updateBooking. rewrite Hget. cbn [changesSchedule cancellationPatch
      upd_booking_date upd_start_time upd_end_time upd_party_size truthyOptString
      truthyOptNumber orb valid negb hasAllowedField upd_customer_name upd_customer_email
      upd_customer_phone upd_special_requests upd_status upd_payment_status
      upd_cancellation_reason isSome].
    fold (cancellationPatch reason). rewrite Estore. split; reflexivity.
Qed.

Lemma getBookingById_executeUpdate now db bookingId updates stamp details :
  getBookingById db bookingId = Some details ->
  getBookingById (executeUpdate now db bookingId updates stamp) bookingId
  = Some {| details_booking := setFields now updates stamp (details_booking details);
            details_cancellation_hours := details_cancellation_hours details |}.
Proof.
  unfold getBookingById, executeUpdate. simpl.
  rewrite find_map_same_id.
  2:{ intros b. destruct (booking_id b =? bookingId); reflexivity. }
  destruct (find (fun b => booking_id b =? bookingId) (bookings db)) as [b|] eqn:E;
    [|discriminate].
  pose proof (find_some _ _ E) as [_ Hid]. simpl. rewrite Hid. simpl.
  destruct (find _ (business db)) as [bus|]; [|discriminate].
  destruct (find _ (services db)) as [sv|]; [|discriminate].
  intros [= <-]. reflexivity.
Qed.

(** X17. Neither [updateBooking] nor [cancelBooking] touches a table other
    than the ledger, adds or removes a row, changes a row of another
    booking, or changes a booking's id, business, service or staff member,
    whatever the patch carries. *)
Theorem update_and_cancel_frame :
  forall host now db bookingId updates customerEmail reason,
    ledgerFrame bookingId db (fst (updateBooking host now db bookingId updates))
    /\ ledgerFrame bookingId db
         (fst (cancelBooking host now db bookingId customerEmail reason)).
Proof.
  intros host now db bookingId updates customerEmail reason. split.
  - destruct (updateBooking_cases host now db bookingId updates)
      as [[_ ->]|(details & _ & _ & _ & _ & ->)];
      [apply ledgerFrame_refl|apply ledgerFrame_executeUpdate].
  - destruct (cancelBooking_cases host now db bookingId customerEmail reason)
      as [[_ ->]|(details & _ & _ & _ & _ & _ & ->)];
      [apply ledgerFrame_refl|apply ledgerFrame_executeUpdate].
Qed.

(** X18. A call that does not succeed has written nothing: a failed
    update or cancellation returns the database it was given. *)
Theorem failed_write_keeps_database :
  forall host now db bookingId updates customerEmail reason,
    (success (snd (updateBooking host now db bookingId updates)) = false ->
     fst (updateBooking host now db bookingId updates) = db)
    /\ (success (snd (cancelBooking host now db bookingId customerEmail reason)) = false ->
        fst (cancelBooking host now db bookingId customerEmail reason) = db).
Proof.
  intros host now db bookingId updates customerEmail reason. split; intros Hfail.
  - destruct (updateBooking_cases host now db bookingId updates)
      as [[_ E]|(details & _ & _ & _ & _ & E)]; [exact E|].
    rewrite E in Hfail. discriminate.
  - destruct (cancelBooking_cases host now db bookingId customerEmail reason)
      as [[_ E]|(details & _ & _ & _ & _ & _ & E)]; [exact E|].
    rewrite E in Hfail. discriminate.
Qed.

(** X19. An update that asks for no new date, time or party size is
    applied without any availability check: for an existing booking and a
    patch with at least one updatable field that the store executes it
    succeeds, and the status becomes the one of the patch, if it has one,
    whatever the old status. *)
Theorem updateBooking_without_schedule_change :
  forall host now db bookingId updates details,
    getBookingById db bookingId = Some details ->
    changesSchedule updates = false ->
    hasAllowedField updates = true ->
    storeUpdates host db bookingId updates = true ->
    success (snd (updateBooking host now db bookingId updates)) = true
    /\ statusOf (fst (updateBooking host now db bookingId updates)) bookingId
       = Some (orElse (upd_status updates) (status (details_booking details))).
Proof.
  intros host now db bookingId updates details Hget Hsched Hallowed Hstore.
  unfold updateBooking. unfold changesSchedule in Hsched.
  rewrite Hget, Hsched, Hallowed, Hstore. cbn [valid negb fst snd success].
  split; [reflexivity|].
  rewrite statusOf_executeUpdate, Z.eqb_refl, (getBookingById_status _ _ _ Hget).
  reflexivity.
Qed.

Lemma setFields_cancellation now reason row :
  setFields now (cancellationPatch reason) true row = cancelledRow now reason row.
Proof. reflexivity. Qed.

(** X20. [cancelBooking] succeeds exactly when the booking exists, the
    two e-mails are equal after the engine's [toLowerCase], the booking is
    not cancelled yet, the hours the engine computes from the printed date
    of the row and its start time are not below the policy threshold (an
    invalid date is never below it), and the store executes the update; it
    then sets the status, the cancellation stamp, the reason and the update
    stamp of that booking and nothing else. *)
Theorem cancelBooking_success :
  forall host now db bookingId customerEmail reason,
    (success (snd (cancelBooking host now db bookingId customerEmail reason)) = true <->
     exists details,
       getBookingById db bookingId = Some details
       /\ String_toLowerCase host (customer_email (details_booking details))
          = String_toLowerCase host customerEmail
       /\ status (details_booking details) <> cancelled
       /\ belowHours
            (hoursUntilBooking
               (Date_parse host
                  (Date_toString host
                     (Date_ofColumn host (booking_date (details_booking details)))
                   ++ " " ++ booking_start_time (details_booking details))) now)
            (policyHours details) = false
       /\ storeUpdates host db bookingId (cancellationPatch reason) = true)
    /\ (success (snd (cancelBooking host now db bookingId customerEmail reason)) = true ->
        bookings (fst (cancelBooking host now db bookingId customerEmail reason))
        = map (fun row => if booking_id row =? bookingId
                          then cancelledRow now reason row else row) (bookings db)).
Proof.
  intros host now db bookingId customerEmail reason.
  destruct (cancelBooking_cases host now db bookingId customerEmail reason)
    as [[Hfail Hdb]|(details & Hget & Hmail & Hst & Hpol & Hstore & E)].
  - split; [split|]; try (rewrite Hfail; discriminate).
    intros (details & Hget & Hmail & Hst & Hpol & Hstore).
    fold (dateText host (details_booking details)) in Hpol.
    fold (bookingDateTime host (details_booking details)) in Hpol.
    rewrite (cancelBooking_policy host now db bookingId customerEmail reason details
               Hget Hmail Hst), Hpol in Hfail.
    fold (cancellationPatch reason) in Hfail.
    unfold updateBooking in Hfail. rewrite Hget in Hfail.
    cbn [changesSchedule cancellationPatch
      upd_booking_date upd_start_time upd_end_time upd_party_size truthyOptString
      truthyOptNumber orb valid negb hasAllowedField upd_customer_name upd_customer_email
      upd_customer_phone upd_special_requests upd_status upd_payment_status
      upd_cancellation_reason isSome] in Hfail.
    fold (cancellationPatch reason) in Hfail. rewrite Hstore in Hfail.
    cbn [negb snd success] in Hfail. discriminate Hfail.
  - rewrite E. cbn [fst snd success]. split; [split; [|reflexivity]|].
    + intros _. exists details. auto 6.
    + intros _. unfold executeUpdate. cbn [bookings]. reflexivity.
Qed.

(** X21. Cancelling twice: after a successful cancellation every further
    cancellation of that booking with the same e-mail is rejected with
    "Booking already cancelled" and writes nothing. *)
Theorem cancelBooking_twice :
  forall host now db bookingId customerEmail reason now' reason',
    success (snd (cancelBooking host now db bookingId customerEmail reason)) = true ->
    cancelBooking host now' (fst (cancelBooking host now db bookingId customerEmail reason))
      bookingId customerEmail reason'
    = (fst (cancelBooking host now db bookingId customerEmail reason),
       failure ["Booking already cancelled"]).
Proof.
  intros host now db bookingId customerEmail reason now' reason' Hok.
  destruct (cancelBooking_cases host now db bookingId customerEmail reason)
    as [[Hfail _]|(details & Hget & Hmail & Hst & Hpol & _ & E)]; [congruence|].
  rewrite E. cbn [fst]. unfold cancelBooking at 1.
  rewrite (getBookingById_executeUpdate _ _ _ _ _ _ Hget). cbn [details_booking].
  rewrite setFields_cancellation. cbn [customer_email cancelledRow status].
  rewrite Hmail, String.eqb_refl. reflexivity.
Qed.

Lemma selectActiveBookings_cancelled now db bookingId reason businessId serviceId date :
  selectActiveBookings (executeUpdate now db bookingId (cancellationPatch reason) true)
    businessId serviceId date
  = filter (fun b => negb (booking_id b =? bookingId))
      (selectActiveBookings db businessId serviceId date).
Proof.
  unfold selectActiveBookings, executeUpdate. cbn [bookings].
  induction (bookings db) as [|row l IH]; [reflexivity|].
  cbn [map filter]. rewrite IH.
  destruct (Z.eqb_spec (booking_id row) bookingId) as [Hid|Hid].
  - rewrite setFields_cancellation. unfold activeBooking at 1. cbn [cancelledRow status].
    rewrite andb_false_r.
    destruct (_ && activeBooking row); [|reflexivity].
    cbn [filter]. apply Z.eqb_eq in Hid. now rewrite Hid.
  - destruct (_ && activeBooking row); [|reflexivity].
    cbn [filter]. apply Z.eqb_neq in Hid. now rewrite Hid.
Qed.

(** X22. A successful cancellation frees the time: the booking leaves the
    pending and confirmed bookings of its day, the others stay, and from
    then on the validator answers as it did before with that booking
    excluded. *)
Theorem cancelBooking_frees_slot :
  forall host now db bookingId customerEmail reason,
    success (snd (cancelBooking host now db bookingId customerEmail reason)) = true ->
    bookingId <> 0 ->
    forall businessId serviceId date,
      selectActiveBookings (fst (cancelBooking host now db bookingId customerEmail reason))
        businessId serviceId date
      = filter (fun b => negb (booking_id b =? bookingId))
          (selectActiveBookings db businessId serviceId date)
      /\ forall staffMemberId startTime endTime partySize,
           isTimeSlotAvailable host
             (fst (cancelBooking host now db bookingId customerEmail reason))
             businessId serviceId staffMemberId date startTime endTime partySize None
           = isTimeSlotAvailable host db businessId serviceId staffMemberId date
               startTime endTime partySize (Some bookingId).
Proof.
  intros host now db bookingId customerEmail reason Hok Hnz businessId serviceId date.
  destruct (cancelBooking_cases host now db bookingId customerEmail reason)
    as [[Hfail _]|(details & _ & _ & _ & _ & _ & E)]; [congruence|].
  rewrite E. cbn [fst]. split; [apply selectActiveBookings_cancelled|].
  intros staffMemberId startTime endTime partySize.
  assert (Hcands : forall staffFilter,
            selectConflictCandidates
              (executeUpdate now db bookingId (cancellationPatch reason) true)
              businessId serviceId date staffFilter None
            = selectConflictCandidates db businessId serviceId date staffFilter
                (Some bookingId)).
  { intros staffFilter. unfold selectConflictCandidates.
    rewrite selectActiveBookings_cancelled. cbn [truthyOptNumber].
    unfold orNumber, truthyNumber.
    destruct (Z.eqb_spec bookingId 0) as [|_]; [contradiction|]. cbn [negb].
    rewrite filter_twice. apply filter_ext. intros b.
    destruct (booking_id b =? bookingId); cbn [negb andb];
      rewrite ?andb_true_r, ?andb_false_r; reflexivity. }
  unfold isTimeSlotAvailable.
  change (selectService (executeUpdate now db bookingId (cancellationPatch reason) true))
    with (selectService db).
  destruct (selectService db serviceId businessId) as [service|]; [|reflexivity].
  destruct (partySize >? capacity service); [reflexivity|].
  rewrite Hcands. reflexivity.
Qed.

Lemma orString_orElse o d : o <> Some EmptyString -> orString o d = orElse o d.
Proof.
  destruct o as [x|]; [|reflexivity]. intros H. simpl. unfold truthyString.
  destruct (String.eqb_spec x EmptyString) as [->|_]; [congruence|reflexivity].
Qed.

Lemma orNumber_orElse o d : o <> Some 0 -> orNumber o d = orElse o d.
Proof.
  destruct o as [x|]; [|reflexivity]. intros H. simpl. unfold truthyNumber.
  destruct (Z.eqb_spec x 0) as [->|_]; [congruence|reflexivity].
Qed.

Lemma executeUpdate_other now db bookingId updates stamp other :
  In other (bookings (executeUpdate now db bookingId updates stamp)) ->
  booking_id other <> bookingId ->
  In other (bookings db).
Proof.
  unfold executeUpdate. cbn [bookings]. intros Hin Hid.
  apply in_map_iff in Hin. destruct Hin as (row & Hrow & Hin).
  destruct (Z.eqb_spec (booking_id row) bookingId) as [E|_].
  - subst other. simpl in Hid. contradiction.
  - now subst other.
Qed.

(** X23. Rescheduling to a date the patch names is checked against the
    other bookings: after an update that carries a date (and no empty time
    or zero party size) has succeeded, a pending or confirmed booking of
    another id for the same business, service and date (and, for a staff
    service, the same staff member) that overlaps the moved booking
    belongs to a capacity service and fits beside it; for a staff service
    there is none.  (Without a date in the patch the check runs on the
    printed form of the row's [Date], which is no date of the ledger.) *)
Theorem updateBooking_reschedule_checked :
  forall host now db bookingId updates after service other,
    success (snd (updateBooking host now db bookingId updates)) = true ->
    truthyOptString (upd_booking_date updates) = true ->
    noEmptyScheduleField updates ->
    data (snd (updateBooking host now db bookingId updates)) = Some after ->
    selectService db (booking_service_id (details_booking after))
      (booking_business_id (details_booking after)) = Some service ->
    In other (bookings (fst (updateBooking host now db bookingId updates))) ->
    booking_id other <> bookingId ->
    booking_business_id other = booking_business_id (details_booking after) ->
    booking_service_id other = booking_service_id (details_booking after) ->
    booking_date other = booking_date (details_booking after) ->
    (status other = pending \/ status other = confirmed) ->
    (requires_staff service = true ->
     booking_staff_member_id other = booking_staff_member_id (details_booking after)) ->
    timeSlotsOverlap (booking_start_time (details_booking after))
      (booking_end_time (details_booking after))
      (booking_start_time other) (booking_end_time other) = true ->
    requires_staff service = false
    /\ party_size (details_booking after) + party_size other <= capacity service.
Proof.
  intros host now db bookingId updates after service other Hok Hnew
         (Hdate & Hstart & Hend & Hparty) Hdata Hsel Hin Hid Hb Hs Hd Hst Hstaff Ho.
  destruct (updateBooking_cases host now db bookingId updates)
    as [[Hfail _]|(details & Hget & _ & Hvalid & _ & E)]; [congruence|].
  assert (Hsched : changesSchedule updates = true)
    by (unfold changesSchedule; now rewrite Hnew).
  specialize (Hvalid Hsched).
  assert (Hnewdate : forall d, orString (upd_booking_date updates) d
                               = orElse (upd_booking_date updates)
                                   (booking_date (details_booking details))).
  { intros d. destruct (upd_booking_date updates) as [x|]; [|discriminate Hnew].
    simpl in Hnew |- *. now rewrite Hnew. }
  rewrite E in Hdata, Hin. cbv zeta in Hdata, Hin. cbn [fst snd data] in Hdata, Hin.
  rewrite (getBookingById_executeUpdate _ _ _ _ _ _ Hget) in Hdata.
  injection Hdata as <-. cbn [details_booking setFields booking_business_id
    booking_service_id booking_date booking_start_time booking_end_time party_size
    booking_staff_member_id] in *.
  apply executeUpdate_other in Hin; [|exact Hid].
  destruct (validateBookingRequest_checks _ _ _ _ _ _ _ _ _ _ _ Hvalid)
    as (_ & _ & _ & _ & _ & Hav & _).
  rewrite Hnewdate, (orString_orElse _ _ Hstart),
    (orString_orElse _ _ Hend), (orNumber_orElse _ _ Hparty) in Hav.
  assert (Hav' : available (isTimeSlotAvailable host db
                             (booking_business_id (details_booking details))
                             (booking_service_id (details_booking details))
                             (booking_staff_member_id (details_booking details))
                             (orElse (upd_booking_date updates)
                                (booking_date (details_booking details)))
                             (orElse (upd_start_time updates)
                                (booking_start_time (details_booking details)))
                             (orElse (upd_end_time updates)
                                (booking_end_time (details_booking details)))
                             (orElse (upd_party_size updates)
                                (party_size (details_booking details)))
                             (Some bookingId)) = true)
    by now rewrite Hav.
  refine (accepted_range_candidates _ _ _ _ _ _ _ _ _ _ _ other Hav' Hsel Hin Hb Hs Hd Hst
            _ _ Ho).
  - intros staffId Hf. destruct (requires_staff service); [|discriminate Hf].
    rewrite (Hstaff eq_refl).
    destruct (truthyOptNumber _); [exact Hf|discriminate Hf].
  - congruence.
Qed.

(* ================================================================== *)
(** ** Creating bookings *)
(* ================================================================== *)

Lemma validateBookingRequest_invalid_errors host now db businessId serviceId staffMemberId
      bookingDate startTime endTime partySize excludeBookingId :
  valid (validateBookingRequest host now db businessId serviceId staffMemberId
           bookingDate startTime endTime partySize excludeBookingId) = false ->
  errors (validateBookingRequest host now db businessId serviceId staffMemberId
            bookingDate startTime endTime partySize excludeBookingId) <> [].
Proof.
  unfold validateBookingRequest. cbv zeta.
  destruct (getServiceDetails db serviceId businessId) as [service|]; cbn [valid errors].
  - match goal with |- match ?e with _ => _ end = false -> _ => destruct e end;
      [discriminate|]. intros _. discriminate.
  - intros _ H. apply app_eq_nil in H. destruct H as [_ H]. discriminate H.
Qed.

(** The ways [createBooking] ends: a rejection that writes nothing and
    names an error, or the insertion of the row of a valid request. *)
Lemma createBooking_cases host require_phone storeAccepts now insertId db bookingData :
  (exists errs,
     errs <> []
     /\ createBooking host require_phone storeAccepts now insertId db bookingData
        = (db, createFailure errs))
  \/ exists businessRow service,
       find (fun b => (business_id b =? new_business_id bookingData) && business_is_active b)
            (business db) = Some businessRow
       /\ (require_phone businessRow = true ->
           truthyOptString (new_customer_phone bookingData) = true)
       /\ valid (validateBookingRequest host now db (new_business_id bookingData)
                   (new_service_id bookingData) (orNullNumber (new_staff_member_id bookingData))
                   (new_booking_date bookingData) (new_start_time bookingData)
                   (new_end_time bookingData) (orElse (new_party_size bookingData) 1) None)
          = true
       /\ selectService db (new_service_id bookingData) (new_business_id bookingData)
          = Some service
       /\ storeAccepts db (newRow now insertId bookingData) = true
       /\ createBooking host require_phone storeAccepts now insertId db bookingData
          = (let db' := insertBooking db (newRow now insertId bookingData) in
             (db', {| created := true;
                      created_booking_id := Some insertId;
                      created_data := getBookingById db' insertId;
                      created_errors := None |})).
Proof.
  unfold createBooking. cbv zeta.
  destruct (find _ (business db)) as [businessRow|];
    [|left; eexists; split; [|reflexivity]; discriminate].
  destruct (require_phone businessRow && negb (truthyOptString (new_customer_phone bookingData)))
    eqn:Ephone; [left; eexists; split; [|reflexivity]; discriminate|].
  match goal with |- context [negb (valid ?v)] => destruct (valid v) eqn:Ev end; cbn [negb].
  2:{ left. eexists. split; [|reflexivity].
      now apply validateBookingRequest_invalid_errors. }
  unfold getServiceDetails.
  destruct (selectService db _ _) as [service|] eqn:Esel;
    [|left; eexists; split; [|reflexivity]; discriminate].
  destruct (storeAccepts db _) eqn:Estore;
    [|left; eexists; split; [|reflexivity]; discriminate].
  right. exists businessRow, service. repeat split; auto.
  intros Hp. rewrite Hp in Ephone. simpl in Ephone. now apply negb_false_iff in Ephone.
Qed.

Lemma orNullNumber_Some o x : orNullNumber o = Some x -> o = Some x /\ x <> 0.
Proof.
  unfold orNullNumber. destruct o as [y|]; [|discriminate]. cbn [truthyOptNumber].
  unfold truthyNumber. destruct (Z.eqb_spec y 0); [discriminate|].
  intros [= ->]. auto.
Qed.

Lemma find_fresh_last (p : Booking -> bool) l row :
  (forall b, In b l -> p b = false) -> p row = true -> find p (l ++ [row]) = Some row.
Proof.
  intros Hl Hrow. induction l as [|x l IH]; simpl.
  - now rewrite Hrow.
  - rewrite (Hl x (or_introl eq_refl)). apply IH. intros b Hb. apply Hl. now right.
Qed.

Lemma find_weaken {A : Type} (p q : A -> bool) l x :
  find (fun a => p a && q a) l = Some x -> exists y, find p l = Some y.
Proof.
  induction l as [|a l IH]; [discriminate|]. simpl.
  destruct (p a); [intros _; now exists a|]. exact IH.
Qed.

(** X24. What a successful [createBooking] has stored: exactly one row is
    appended and nothing else changes; the row is pending, belongs to an
    active service of an active business, carries times that match the
    pattern with the end after the start and a date not before today; and
    when the id is new, the row is the one handed back. *)
Theorem createBooking_stores_valid_row :
  forall host require_phone storeAccepts now insertId db bookingData,
    created (snd (createBooking host require_phone storeAccepts now insertId db bookingData))
    = true ->
    let row := newRow now insertId bookingData in
    fst (createBooking host require_phone storeAccepts now insertId db bookingData)
    = insertBooking db row
    /\ status row = pending
    /\ (exists businessRow,
          In businessRow (business db) /\ business_id businessRow = booking_business_id row
          /\ business_is_active businessRow = true)
    /\ (exists service,
          In service (services db) /\ service_id service = booking_service_id row
          /\ service_business_id service = booking_business_id row
          /\ service_is_active service = true)
    /\ timeFormatTest (booking_start_time row) = true
    /\ timeFormatTest (booking_end_time row) = true
    /\ (exists s e, timeStringToMinutes (booking_start_time row) = Num s
                    /\ timeStringToMinutes (booking_end_time row) = Num e /\ 0 <= s < e)
    /\ lt (Date_parse host (booking_date row)) (Num (Date_setHours0 host now)) = false
    /\ ((forall b, In b (bookings db) -> booking_id b <> insertId) ->
        exists details,
          created_data (snd (createBooking host require_phone storeAccepts now insertId db
                               bookingData)) = Some details
          /\ details_booking details = row).
Proof.
  intros host require_phone storeAccepts now insertId db bookingData Hok row. subst row.
  destruct (createBooking_cases host require_phone storeAccepts now insertId db bookingData)
    as [(errs & _ & E)|(businessRow & service & Hbus & _ & Hvalid & Hsel & _ & E)].
  { rewrite E in Hok. discriminate. }
  rewrite E. cbv zeta. cbn [fst snd created_data].
  destruct (validateBookingRequest_checks _ _ _ _ _ _ _ _ _ _ _ Hvalid)
    as (Hs & He & Ht & Hd & _ & _ & _).
  pose proof (find_some _ _ Hbus) as [Hbin Hbp].
  apply andb_true_iff in Hbp. destruct Hbp as [Hbid Hbact]. apply Z.eqb_eq in Hbid.
  pose proof (find_some _ _ Hsel) as [Hsin Hsp].
  apply andb_true_iff in Hsp. destruct Hsp as [Hsp Hsact].
  apply andb_true_iff in Hsp. destruct Hsp as [Hsid Hsbus].
  apply Z.eqb_eq in Hsid, Hsbus.
  split; [reflexivity|]. split; [reflexivity|].
  split; [exists businessRow; auto|]. split; [exists service; auto|].
  split; [exact Hs|]. split; [exact He|]. split; [exact Ht|]. split; [exact Hd|].
  intros Hfresh. unfold getBookingById, insertBooking. cbn [bookings business services].
  rewrite (find_fresh_last (fun b => booking_id b =? insertId) (bookings db)
             (newRow now insertId bookingData)).
  2:{ intros b Hb. apply Z.eqb_neq. now apply Hfresh. }
  2:{ apply Z.eqb_refl. }
  cbn [newRow booking_business_id booking_service_id].
  destruct (find_weaken (fun b => business_id b =? new_business_id bookingData)
              business_is_active _ _ Hbus) as (bus & ->).
  unfold selectService in Hsel.
  assert (Hsv : exists sv, find (fun s => service_id s =? new_service_id bookingData)
                             (services db) = Some sv).
  { clear - Hsel. induction (services db) as [|a l IH]; [discriminate|]. simpl in *.
    destruct (service_id a =? new_service_id bookingData); [now exists a|].
    apply IH. exact Hsel. }
  destruct Hsv as (sv & ->). eexists. split; reflexivity.
Qed.

(** X25. A [createBooking] that does not succeed has written nothing and
    names at least one error. *)
Theorem createBooking_failure_writes_nothing :
  forall host require_phone storeAccepts now insertId db bookingData,
    created (snd (createBooking host require_phone storeAccepts now insertId db bookingData))
    = false ->
    fst (createBooking host require_phone storeAccepts now insertId db bookingData) = db
    /\ exists errs,
         errs <> []
         /\ created_errors
              (snd (createBooking host require_phone storeAccepts now insertId db bookingData))
            = Some errs.
Proof.
  intros host require_phone storeAccepts now insertId db bookingData Hfail.
  destruct (createBooking_cases host require_phone storeAccepts now insertId db bookingData)
    as [(errs & Hne & E)|(businessRow & service & _ & _ & _ & _ & _ & E)].
  - rewrite E. split; [reflexivity|]. exists errs. auto.
  - rewrite E in Hfail. discriminate.
Qed.

(** The availability verdict behind a successful [createBooking]. *)
Lemma createBooking_accepted host require_phone storeAccepts now insertId db bookingData :
  created (snd (createBooking host require_phone storeAccepts now insertId db bookingData))
  = true ->
  available (isTimeSlotAvailable host db (new_business_id bookingData)
               (new_service_id bookingData) (orNullNumber (new_staff_member_id bookingData))
               (new_booking_date bookingData) (new_start_time bookingData)
               (new_end_time bookingData) (orElse (new_party_size bookingData) 1) None) = true.
Proof.
  intros Hok.
  destruct (createBooking_cases host require_phone storeAccepts now insertId db bookingData)
    as [(errs & _ & E)|(businessRow & service & _ & _ & Hvalid & _ & _ & _)].
  { rewrite E in Hok. discriminate. }
  destruct (validateBookingRequest_checks _ _ _ _ _ _ _ _ _ _ _ Hvalid)
    as (_ & _ & _ & _ & _ & Hav & _).
  now rewrite Hav.
Qed.

(** X26. A created booking was checked against the bookings already
    there: a pending or confirmed booking for the same business, service
    and date (and, for a staff service, the same staff member) that
    overlaps the new one belongs to a capacity service and fits beside it;
    for a staff service there is none. *)
Theorem createBooking_checked_against_ledger :
  forall host require_phone storeAccepts now insertId db bookingData service other,
    created (snd (createBooking host require_phone storeAccepts now insertId db bookingData))
    = true ->
    selectService db (new_service_id bookingData) (new_business_id bookingData)
    = Some service ->
    In other (bookings db) ->
    booking_business_id other = new_business_id bookingData ->
    booking_service_id other = new_service_id bookingData ->
    booking_date other = new_booking_date bookingData ->
    (status other = pending \/ status other = confirmed) ->
    (requires_staff service = true ->
     booking_staff_member_id other = new_staff_member_id bookingData) ->
    timeSlotsOverlap (new_start_time bookingData) (new_end_time bookingData)
      (booking_start_time other) (booking_end_time other) = true ->
    requires_staff service = false
    /\ orElse (new_party_size bookingData) 1 + party_size other <= capacity service.
Proof.
  intros host require_phone storeAccepts now insertId db bookingData service other
         Hok Hsel Hin Hb Hs Hd Hst Hstaff Ho.
  pose proof (createBooking_accepted _ _ _ _ _ _ _ Hok) as Hav.
  refine (accepted_range_candidates _ _ _ _ _ _ _ _ _ _ _ other Hav Hsel Hin Hb Hs Hd Hst
            _ _ Ho); [|discriminate].
  intros staffId Hf. destruct (requires_staff service); [|discriminate Hf].
  rewrite (Hstaff eq_refl).
  destruct (truthyOptNumber _); [|discriminate Hf].
  now apply orNullNumber_Some in Hf.
Qed.

(** [createBooking] only ever appends to the ledger. *)
Lemma createBooking_appends host require_phone storeAccepts now insertId db bookingData :
  services (fst (createBooking host require_phone storeAccepts now insertId db bookingData))
  = services db
  /\ forall row, In row (bookings db) ->
       In row (bookings (fst (createBooking host require_phone storeAccepts now insertId db
                                bookingData))).
Proof.
  destruct (createBooking_cases host require_phone storeAccepts now insertId db bookingData)
    as [(errs & _ & E)|(businessRow & service & _ & _ & _ & _ & _ & E)]; rewrite E.
  - split; [reflexivity|]. intros row Hrow. exact Hrow.
  - cbv zeta. cbn [fst insertBooking services bookings]. split; [reflexivity|].
    intros row Hrow. apply in_or_app. now left.
Qed.

Lemma createBookings_appends host require_phone storeAccepts calls :
  forall db,
    services (createBookings host require_phone storeAccepts calls db) = services db
    /\ forall row, In row (bookings db) ->
         In row (bookings (createBookings host require_phone storeAccepts calls db)).
Proof.
  induction calls as [|[[now insertId] bookingData] calls IH]; intros db;
    cbn [createBookings]; [split; auto|].
  destruct (createBooking_appends host require_phone storeAccepts now insertId db bookingData)
    as [Hs Hb].
  destruct (IH (fst (createBooking host require_phone storeAccepts now insertId db bookingData)))
    as [Hs' Hb'].
  split; [now rewrite Hs'|]. intros row Hrow. apply Hb', Hb, Hrow.
Qed.

(** X27. Within one service a staff member is not booked twice by
    successive requests: once a booking for a staff service is created,
    then after any further [createBooking] calls a request for the same
    business, service, staff member and date whose time range overlaps it
    is refused.  (The conflict query filters by service: a request for the
    same staff member through another service is not checked against
    it.) *)
Theorem createBooking_staff_slot_taken :
  forall host require_phone storeAccepts now insertId db first service calls
         now' insertId' second,
    created (snd (createBooking host require_phone storeAccepts now insertId db first))
    = true ->
    selectService db (new_service_id first) (new_business_id first) = Some service ->
    requires_staff service = true ->
    new_business_id second = new_business_id first ->
    new_service_id second = new_service_id first ->
    new_staff_member_id second = new_staff_member_id first ->
    new_booking_date second = new_booking_date first ->
    timeSlotsOverlap (new_start_time second) (new_end_time second)
      (new_start_time first) (new_end_time first) = true ->
    created
      (snd (createBooking host require_phone storeAccepts now' insertId'
              (createBookings host require_phone storeAccepts calls
                 (fst (createBooking host require_phone storeAccepts now insertId db first)))
              second)) = false.
Proof.
  intros host require_phone storeAccepts now insertId db first service calls
         now' insertId' second Hok Hsel Hstaff Hb Hs Hsm Hd Ho.
  destruct (createBooking_cases host require_phone storeAccepts now insertId db first)
    as [(errs & _ & E)|(businessRow & service' & _ & _ & _ & _ & _ & E)].
  { rewrite E in Hok. discriminate. }
  rewrite E. cbv zeta. cbn [fst].
  destruct (createBookings_appends host require_phone storeAccepts calls
              (insertBooking db (newRow now insertId first))) as [Hservices Hrows].
  set (later := createBookings host require_phone storeAccepts calls
                  (insertBooking db (newRow now insertId first))) in *.
  destruct (created (snd (createBooking host require_phone storeAccepts now' insertId' later
                            second))) eqn:Hsecond; [|reflexivity].
  pose proof (createBooking_accepted _ _ _ _ _ _ _ Hsecond) as Hav.
  assert (Hsel' : selectService later (new_service_id second) (new_business_id second)
                  = Some service).
  { rewrite Hs, Hb. unfold selectService in *. rewrite Hservices. exact Hsel. }
  destruct (accepted_range_candidates _ _ _ _ _ _ _ _ _ _ _ (newRow now insertId first)
              Hav Hsel') as [Hno _]; try (cbn; congruence).
  - apply Hrows. unfold insertBooking. cbn [bookings]. apply in_or_app. right. now left.
  - now left.
  - intros x Hf. rewrite Hstaff in Hf. cbn [andb] in Hf.
    destruct (truthyOptNumber _); [|discriminate Hf].
    cbn [newRow booking_staff_member_id]. now rewrite <- Hsm.
Qed.

(* ================================================================== *)
(** ** The services on the example ledger *)
(* ================================================================== *)

Import Example.

(** Scenario B of the specification, with the single-booking capacity rule
    visible: two bookings of two guests fill the four seats of the
    10:00 slot, yet no single one reaches the capacity and the slot stays
    available; the booking of four closes the 11:00 slot. *)
Example monday_slots :
  getAvailableSlots UTC.host 3 db 1 1 "2030-01-07"
  = Returned {| day_date := Num monday; day_of_week := Num 1;
                time_slots := [slot "09:00" "10:00" true;
                               slot "10:00" "11:00" true;
                               slot "11:00" "12:00" false] |}.
Proof. vm_compute. reflexivity. Qed.

(** A week in which one day's computation throws: the other six days keep
    their results. *)
Example week_with_one_failing_day :
  weekLoop UTC.host 7 0 monday flakyDay
  = Returned
      (map (fun i =>
              if i =? 2 then emptyDay UTC.host (monday + 2 * UTC.msPerDay)
              else {| day_date := Num (monday + i * UTC.msPerDay);
                      day_of_week := Num ((i + 1) mod 7);
                      time_slots := if i =? 0
                                    then [slot "09:00" "10:00" true;
                                          slot "10:00" "11:00" true;
                                          slot "11:00" "12:00" false]
                                    else [] |})
           [0; 1; 2; 3; 4; 5; 6]).
Proof. vm_compute. reflexivity. Qed.

(** Across services the staff member's time is not protected: the conflict
    query of [isTimeSlotAvailable] selects the bookings of the requested
    service only, and the same half hour of the same staff member is booked
    once through each service. *)
Example staff_booked_through_two_services :
  created (snd (createBooking UTC.host Salon.noPhone Salon.takesAll newYear 1
                  Salon.twoServices (Salon.request 1 1 (Some 7) "09:30" "10:00" None)))
  = true
  /\ created
       (snd (createBooking UTC.host Salon.noPhone Salon.takesAll newYear 2
               (fst (createBooking UTC.host Salon.noPhone Salon.takesAll newYear 1
                       Salon.twoServices
                       (Salon.request 1 1 (Some 7) "09:30" "10:00" None)))
               (Salon.request 1 2 (Some 7) "09:30" "10:00" None)))
     = true.
Proof. split; vm_compute; reflexivity. Qed.

(** C1, counterexample: for a party of three the validator refuses the
    10:00 slot ("Time slot already booked") although the day's computation
    lists that slot as available. *)
Lemma validator_conflict_not_marking :
  isTimeSlotAvailable UTC.host db 1 1 None "2030-01-07" "10:00" "11:00" 3 None
  = {| available := false; reason := Some "Time slot already booked" |}
  /\ validateBookingRequest UTC.host newYear db 1 1 None "2030-01-07" "10:00" "11:00" 3 None
     = {| valid := false; errors := ["Time slot already booked"] |}
  /\ exists day,
       getAvailableSlots UTC.host 3 db 1 1 "2030-01-07" = Returned day
       /\ In (slot "10:00" "11:00" true) (time_slots day).
Proof.
  split; [vm_compute; reflexivity|]. split; [vm_compute; reflexivity|].
  eexists. split; [apply monday_slots|]. simpl. tauto.
Qed.

Lemma validator_conflict_vs_marking_witness :
  requires_staff dinner = false
  /\ slot_available (slot "11:00" "12:00" true) = true
  /\ 1 <= 1
  /\ (slot_available
        (markSlot dinner (selectActiveBookings db 1 1 "2030-01-07")
                  (slot "11:00" "12:00" true)) = false ->
      hasBookingConflict dinner "11:00" "12:00" 1
        (selectActiveBookings db 1 1 "2030-01-07") = true)
  /\ (1 = 1 ->
      hasBookingConflict dinner "11:00" "12:00" 1
        (selectActiveBookings db 1 1 "2030-01-07") = true ->
      slot_available
        (markSlot dinner (selectActiveBookings db 1 1 "2030-01-07")
                  (slot "11:00" "12:00" true)) = false).
Proof.
  split; [reflexivity|]. split; [reflexivity|]. split; [lia|].
  apply (validator_conflict_vs_marking dinner (selectActiveBookings db 1 1 "2030-01-07")
           (slot "11:00" "12:00" true) 1); [reflexivity|reflexivity|lia].
Defined.

(** C2, counterexample: a status patch re-opens a cancelled booking, and a
    completed booking is cancelled by its customer. *)
Lemma terminal_status_left :
  statusOf db 4 = Some cancelled
  /\ statusOf (fst (updateBooking UTC.platform newYear db 4 (statusPatch pending))) 4
     = Some pending
  /\ statusOf db 5 = Some completed
  /\ statusOf (fst (cancelBooking UTC.platform newYear db 5 "eve@example.com" None)) 5
     = Some cancelled.
Proof. repeat split; vm_compute; reflexivity. Qed.

Lemma status_kept_without_status_patch_witness :
  statusOf db 4 = Some cancelled
  /\ upd_status (namePatch "Dan") = None
  /\ statusOf (fst (updateBooking UTC.platform newYear db 4 (namePatch "Dan"))) 4 = statusOf db 4
  /\ (cancelled = cancelled ->
      fst (cancelBooking UTC.platform newYear db 4 "dan@example.com" None) = db
      /\ success (snd (cancelBooking UTC.platform newYear db 4 "dan@example.com" None)) = false).
Proof.
  split; [reflexivity|]. split; [reflexivity|].
  apply (status_kept_without_status_patch UTC.platform newYear db 4 cancelled (namePatch "Dan")
           "dan@example.com" None 4); reflexivity.
Defined.


(** C4, counterexample: strings outside the pattern are parsed all the
    same, no error is raised. *)
Lemma timeStringToMinutes_unchecked :
  timeFormatTest "25:00" = false /\ timeStringToMinutes "25:00" = Num 1500
  /\ timeFormatTest "9:75" = false /\ timeStringToMinutes "9:75" = Num 615
  /\ timeFormatTest "noon" = false /\ timeStringToMinutes "noon" = NaN.
Proof. repeat split; vm_compute; reflexivity. Qed.

Lemma timeStringToMinutes_wellformed_witness :
  timeFormatTest "09:30" = true
  /\ exists h m,
       0 <= h <= 23 /\ 0 <= m <= 59
       /\ timeStringToMinutes "09:30" = Num (h * 60 + m)
       /\ ("09:30" = formatTime (h * 60 + m)
           \/ "09:30" = (toString h ++ ":" ++ padStart 2 "0" (toString m))%string).
Proof.
  split; [reflexivity|].
  exact (timeStringToMinutes_wellformed "09:30" eq_refl).
Defined.

(** C5, counterexample: with duration 0 and buffer 0 the cursor never
    moves and the call does not return, whatever the number of iterations;
    and beyond 2^53, where neighbouring doubles are 2 apart, the slots of a
    service of 3 minutes come out 4 minutes long and 4 minutes apart. *)
Lemma generateTimeSlots_step_not_kept :
  timeStringToMinutes64 "09:00" = Num 540
  /\ timeStringToMinutes64 "12:00" = Num 720
  /\ (forall fuel, generateTimeSlots64 fuel "09:00" "12:00" 0 0 = None)
  /\ timeStringToMinutes64 "150119987579017:00" = Num 9007199254741020
  /\ timeStringToMinutes64 "150119987579017:08" = Num 9007199254741028
  /\ generateTimeSlots64 3 "150119987579017:00" "150119987579017:08" 3 0
     = Some [slot "150119987579017:00" "150119987579017:04" true;
             slot "150119987579017:04" "150119987579017:08" true].
Proof.
  split; [vm_compute; reflexivity|]. split; [vm_compute; reflexivity|].
  split; [|repeat split; vm_compute; reflexivity].
  intros fuel. unfold generateTimeSlots64. cbv zeta.
  replace (timeStringToMinutes64 "09:00") with (Num 540) by (vm_compute; reflexivity).
  replace (timeStringToMinutes64 "12:00") with (Num 720) by (vm_compute; reflexivity).
  apply slotLoop64_stays; vm_compute; [discriminate|reflexivity].
Qed.

Lemma generateTimeSlots_slots_witness :
  timeStringToMinutes64 "09:00" = Num 540
  /\ timeStringToMinutes64 "12:00" = Num 720
  /\ Double.small 540 /\ Double.small 720 /\ Double.small 45 /\ Double.small 15
  /\ 1 <= 45 + 15
  /\ (slotCount 540 720 45 (45 + 15) <= 3)%nat
  /\ exists slots,
       generateTimeSlots64 3 "09:00" "12:00" 45 15 = Some slots
       /\ slots = map (fun i => slotAt (540 + Z.of_nat i * (45 + 15)) 45)
                      (seq 0 (slotCount 540 720 45 (45 + 15)))
       /\ (720 - 540 < 45 -> slots = [])
       /\ (forall i slot, nth_error slots i = Some slot ->
             let cursor := 540 + Z.of_nat i * (45 + 15) in
             slot = {| slot_start_time := formatTime cursor;
                       slot_end_time := formatTime (cursor + 45);
                       slot_available := true;
                       slot_staff_member_id := None |}
             /\ 540 <= cursor /\ cursor + 45 <= 720
             /\ (0 <= 540 -> 0 <= 45 ->
                 timeStringToMinutes (slot_start_time slot) = Num cursor
                 /\ timeStringToMinutes (slot_end_time slot) = Num (cursor + 45)))
       /\ 720 < 540 + Z.of_nat (List.length slots) * (45 + 15) + 45.
Proof.
  assert (Hfuel : (slotCount 540 720 45 (45 + 15) <= 3)%nat) by (vm_compute; lia).
  assert (S1 : Double.small 540) by (vm_compute; discriminate).
  assert (S2 : Double.small 720) by (vm_compute; discriminate).
  assert (S3 : Double.small 45) by (vm_compute; discriminate).
  assert (S4 : Double.small 15) by (vm_compute; discriminate).
  split; [reflexivity|]. split; [reflexivity|].
  split; [exact S1|]. split; [exact S2|]. split; [exact S3|]. split; [exact S4|].
  split; [lia|]. split; [exact Hfuel|].
  exact (generateTimeSlots_slots 3 "09:00" "12:00" 540 720 45 15 eq_refl eq_refl
           S1 S2 S3 S4 ltac:(lia) Hfuel).
Defined.

Lemma getAvailableSlots_full_day_closure_witness :
  selectService db 1 1 = Some dinner
  /\ requires_staff dinner = false
  /\ 1 <= slotStep dinner
  /\ (dbFuel db dinner <= 3)%nat
  /\ In holiday (special_availability db)
  /\ getAvailableSlots UTC.host 3 db 1 1 "2030-01-14"
     = Returned {| day_date := Date_parse UTC.host "2030-01-14";
                   day_of_week := getDay UTC.host (Date_parse UTC.host "2030-01-14");
                   time_slots := [] |}.
Proof.
  assert (Hstep : 1 <= slotStep dinner) by (vm_compute; congruence).
  assert (Hfuel : (dbFuel db dinner <= 3)%nat) by (vm_compute; lia).
  assert (Hin : In holiday (special_availability db)) by (simpl; tauto).
  split; [reflexivity|]. split; [reflexivity|]. split; [exact Hstep|]. split; [exact Hfuel|].
  split; [exact Hin|].
  exact (getAvailableSlots_full_day_closure UTC.host db 1 1 "2030-01-14" dinner holiday 3
           eq_refl eq_refl Hstep Hfuel Hin eq_refl eq_refl eq_refl eq_refl eq_refl).
Defined.

Lemma cancelBooking_email_mismatch_witness :
  String_toLowerCase UTC.platform "Ann@Example.com"
  <> String_toLowerCase UTC.platform "mallory@example.com"
  /\ cancelBooking UTC.platform newYear db 1 "mallory@example.com" None
     = (db, {| success := false; data := None;
               result_errors := Some ["Email does not match booking"] |}).
Proof.
  assert (Hmail : String_toLowerCase UTC.platform "Ann@Example.com"
                 <> String_toLowerCase UTC.platform "mallory@example.com")
    by (vm_compute; discriminate).
  split; [exact Hmail|].
  exact (cancelBooking_email_mismatch UTC.platform newYear db 1 "mallory@example.com" None
           {| details_booking := row 1 1 1 "Ann@Example.com" "2030-01-07" "10:00" "11:00"
                                     2 confirmed;
              details_cancellation_hours := Some 24 |}
           eq_refl Hmail).
Defined.

(** C8, the failing input: Scenario D of the specification.  Booking 1 is
    for 2030-01-07 at 10:00, its business asks for 24 hours, and the
    customer cancels at 12:00 of that day with the right e-mail.  The date
    column reaches the code as a [Date]; its printed form followed by the
    start time is no date, the hours until the booking are NaN,
    [NaN < 24] is false, and the booking is cancelled. *)
Theorem cancelBooking_policy_not_enforced :
  getBookingById db 1
  = Some {| details_booking := row 1 1 1 "Ann@Example.com" "2030-01-07" "10:00" "11:00"
                                   2 confirmed;
            details_cancellation_hours := Some 24 |}
  /\ mondayNoon = monday + 12 * 3600000
  /\ dateText UTC.platform
       (row 1 1 1 "Ann@Example.com" "2030-01-07" "10:00" "11:00" 2 confirmed)
     = "Mon Jan 07 2030 00:00:00 GMT+0000 (Coordinated Universal Time)"
  /\ bookingDateTime UTC.platform
       (row 1 1 1 "Ann@Example.com" "2030-01-07" "10:00" "11:00" 2 confirmed)
     = NaN
  /\ success (snd (cancelBooking UTC.platform mondayNoon db 1 "ann@example.com" None)) = true
  /\ statusOf (fst (cancelBooking UTC.platform mondayNoon db 1 "ann@example.com" None)) 1
     = Some cancelled.
Proof. repeat split; vm_compute; reflexivity. Qed.

(** C9, the failing input: a server in Europe/Berlin and the week that
    starts on Sunday 2030-03-31, the day the clocks go forward.  The loop
    sets the day of the month in local time and prints the date in UTC:
    the start is 01:00 local time, one day later it is 01:00 summer time,
    which is 23:00 UTC of the day before.  The second record is again for
    2030-03-31 and the week ends on 2030-04-05; Monday's slots are the
    third record. *)
Theorem getWeekAvailability_repeats_day :
  Date_parse Berlin.host "2030-03-31" = Num 1901145600000
  /\ weekDates Berlin.host 1901145600000
     = ["2030-03-31"; "2030-03-31"; "2030-04-01"; "2030-04-02"; "2030-04-03";
        "2030-04-04"; "2030-04-05"]
  /\ exists days,
       getWeekAvailability Berlin.host 3 db "bistro" 1 "2030-03-31" = Returned days
       /\ map day_date days
          = [Date_parse Berlin.host "2030-03-31"; Date_parse Berlin.host "2030-03-31";
             Date_parse Berlin.host "2030-04-01"; Date_parse Berlin.host "2030-04-02";
             Date_parse Berlin.host "2030-04-03"; Date_parse Berlin.host "2030-04-04";
             Date_parse Berlin.host "2030-04-05"]
       /\ map day_of_week days = [Num 0; Num 0; Num 1; Num 2; Num 3; Num 4; Num 5]
       /\ map time_slots days
          = [[]; [];
             [slot "09:00" "10:00" true; slot "10:00" "11:00" true;
              slot "11:00" "12:00" true];
             []; []; []; []].
Proof.
  split; [vm_compute; reflexivity|]. split; [vm_compute; reflexivity|].
  eexists. split; [vm_compute; reflexivity|].
  repeat split; vm_compute; reflexivity.
Qed.



(** C10, counterexample: both strings parse and the step is 1, yet the
    start is a double beyond 2^53 to which adding 1 gives the same double
    back: the cursor never moves and no number of iterations ends the
    loop. *)
Lemma generateTimeSlots_cursor_stuck :
  timeStringToMinutes64 "150119987579017:00" = Num 9007199254741020
  /\ timeStringToMinutes64 "150119987579018:00" = Num 9007199254741080
  /\ 1 <= 1 + 0
  /\ Double.nearest (9007199254741020 + 1) = 9007199254741020
  /\ forall fuel,
       generateTimeSlots64 fuel "150119987579017:00" "150119987579018:00" 1 0 = None.
Proof.
  split; [vm_compute; reflexivity|]. split; [vm_compute; reflexivity|].
  split; [lia|]. split; [vm_compute; reflexivity|].
  intros fuel. unfold generateTimeSlots64. cbv zeta.
  replace (timeStringToMinutes64 "150119987579017:00") with (Num 9007199254741020)
    by (vm_compute; reflexivity).
  replace (timeStringToMinutes64 "150119987579018:00") with (Num 9007199254741080)
    by (vm_compute; reflexivity).
  apply slotLoop64_stays; vm_compute; [discriminate|reflexivity].
Qed.

Lemma generateTimeSlots_terminates_witness :
  timeStringToMinutes64 "09:00" = Num 540
  /\ timeStringToMinutes64 "12:00" = Num 720
  /\ Double.small 540 /\ Double.small 720 /\ Double.small 45 /\ Double.small 15
  /\ 1 <= 45 + 15
  /\ exists n slots,
       List.length slots = n
       /\ forall fuel, (n <= fuel)%nat ->
            generateTimeSlots64 fuel "09:00" "12:00" 45 15 = Some slots.
Proof.
  assert (S1 : Double.small 540) by (vm_compute; discriminate).
  assert (S2 : Double.small 720) by (vm_compute; discriminate).
  assert (S3 : Double.small 45) by (vm_compute; discriminate).
  assert (S4 : Double.small 15) by (vm_compute; discriminate).
  split; [reflexivity|]. split; [reflexivity|].
  split; [exact S1|]. split; [exact S2|]. split; [exact S3|]. split; [exact S4|].
  split; [lia|].
  exact (generateTimeSlots_terminates "09:00" "12:00" 540 720 45 15 eq_refl eq_refl
           S1 S2 S3 S4 ltac:(lia)).
Defined.

(* ================================================================== *)
(** ** The further properties on the example ledgers *)
(* ================================================================== *)

Lemma timeSlotsOverlap_common_minute_witness :
  timeStringToMinutes "09:00" = Num 540
  /\ timeStringToMinutes "10:00" = Num 600
  /\ timeStringToMinutes "09:30" = Num 570
  /\ timeStringToMinutes "10:30" = Num 630
  /\ 540 < 600
  /\ 570 < 630
  /\ (timeSlotsOverlap "09:00" "10:00" "09:30" "10:30" = true <->
      exists t : Z, 540 <= t < 600 /\ 570 <= t < 630).
Proof.
  assert (H5 : 540 < 600) by (lia).
  assert (H6 : 570 < 630) by (lia).
  split; [reflexivity|].
  split; [reflexivity|].
  split; [reflexivity|].
  split; [reflexivity|].
  split; [exact H5|].
  split; [exact H6|].
  exact (timeSlotsOverlap_common_minute
           "09:00" "10:00" "09:30" "10:30" 540 600 570 630
           eq_refl eq_refl eq_refl eq_refl H5 H6).
Defined.


Lemma padded_time_round_trip_witness :
  timeFormatTest "09:30" = true
  /\ String.length "09:30" = 5%nat
  /\ (exists n : Z, 0 <= n < 1440 /\ timeStringToMinutes "09:30" = Num n /\ formatTime n = "09:30").
Proof.
  split; [reflexivity|].
  split; [reflexivity|].
  exact (padded_time_round_trip
           "09:30"
           eq_refl eq_refl).
Defined.


Lemma getAvailableSlots_within_rule_witness :
  getAvailableSlots UTC.host 5 Salon.db 1 1 "2030-01-07" = Returned Salon.mondayListing
  /\ selectService Salon.db 1 1 = Some Salon.haircut
  /\ 1 <= slotStep Salon.haircut
  /\ 0 <= duration_minutes Salon.haircut
  /\ rulesStartAtOrAfterMidnight Salon.db
  /\ In (Salon.staffSlot "09:30" "10:00" true) (time_slots Salon.mondayListing)
  /\ (exists (rule : AvailabilityRule) (ws we s : Z),
        (if requires_staff Salon.haircut
         then
          exists staffId : Z,
            slot_staff_member_id (Salon.staffSlot "09:30" "10:00" true) = Some staffId /\
            In staffId (selectStaffForService Salon.db 1) /\
            In rule
              (selectStaffRules Salon.db staffId
                 (getDay UTC.host (Date_parse UTC.host "2030-01-07")))
         else
          slot_staff_member_id (Salon.staffSlot "09:30" "10:00" true) = None /\
          In rule
            (selectBusinessRules Salon.db 1 (getDay UTC.host (Date_parse UTC.host "2030-01-07")))) /\
        timeStringToMinutes (rule_start_time rule) = Num ws /\
        timeStringToMinutes (rule_end_time rule) = Num we /\
        timeStringToMinutes (slot_start_time (Salon.staffSlot "09:30" "10:00" true)) = Num s /\
        timeStringToMinutes (slot_end_time (Salon.staffSlot "09:30" "10:00" true)) =
        Num (s + duration_minutes Salon.haircut) /\
        ws <= s /\ s + duration_minutes Salon.haircut <= we).
Proof.
  assert (H1 : getAvailableSlots UTC.host 5 Salon.db 1 1 "2030-01-07" = Returned Salon.mondayListing)
    by (vm_compute; reflexivity).
  assert (H3 : 1 <= slotStep Salon.haircut) by (vm_compute; congruence).
  assert (H4 : 0 <= duration_minutes Salon.haircut) by (vm_compute; congruence).
  assert (H5 : rulesStartAtOrAfterMidnight Salon.db)
    by (intros rule ws [<-|[]] Hws; vm_compute in Hws; injection Hws as <-; lia).
  assert (H6 : In (Salon.staffSlot "09:30" "10:00" true) (time_slots Salon.mondayListing))
    by (simpl; tauto).
  split; [exact H1|].
  split; [reflexivity|].
  split; [exact H3|].
  split; [exact H4|].
  split; [exact H5|].
  split; [exact H6|].
  exact (getAvailableSlots_within_rule
           UTC.host 5%nat Salon.db 1 1 "2030-01-07" Salon.mondayListing Salon.haircut
           (Salon.staffSlot "09:30" "10:00" true)
           H1 eq_refl H3 H4 H5 H6).
Defined.

Lemma getAvailableSlots_respects_closures_witness :
  getAvailableSlots UTC.host 5 Salon.db 1 1 "2030-01-07" = Returned Salon.mondayListing
  /\ In Salon.training (special_availability Salon.db)
  /\ special_business_id Salon.training = Some 1
  /\ special_date Salon.training = "2030-01-07"
  /\ special_is_available Salon.training = false
  /\ (match closureWindow Salon.training with
     | Some (s, e) =>
         forall slot : TimeSlot,
         In slot (time_slots Salon.mondayListing) ->
         timeSlotsOverlap (slot_start_time slot) (slot_end_time slot) s e = false
     | None => time_slots Salon.mondayListing = []
     end).
Proof.
  assert (H1 : getAvailableSlots UTC.host 5 Salon.db 1 1 "2030-01-07" = Returned Salon.mondayListing)
    by (vm_compute; reflexivity).
  assert (H2 : In Salon.training (special_availability Salon.db)) by (simpl; tauto).
  split; [exact H1|].
  split; [exact H2|].
  split; [reflexivity|].
  split; [reflexivity|].
  split; [reflexivity|].
  exact (getAvailableSlots_respects_closures
           UTC.host 5%nat Salon.db 1 1 "2030-01-07" Salon.mondayListing Salon.training
           H1 H2 eq_refl eq_refl eq_refl).
Defined.

Lemma getAvailableSlots_sorted_witness :
  getAvailableSlots UTC.host 3 db 1 1 "2030-01-07" = Returned bistroMonday
  /\ selectService db 1 1 = Some dinner
  /\ 1 <= slotStep dinner
  /\ rulesStartAtOrAfterMidnight db
  /\ (0 < 2)%nat
  /\ nth_error (time_slots bistroMonday) 0 = Some (slot "09:00" "10:00" true)
  /\ nth_error (time_slots bistroMonday) 2 = Some (slot "11:00" "12:00" false)
  /\ (exists sa sb : Z,
        timeStringToMinutes (slot_start_time (slot "09:00" "10:00" true)) = Num sa /\
        timeStringToMinutes (slot_start_time (slot "11:00" "12:00" false)) = Num sb /\ sa <= sb).
Proof.
  assert (H1 : getAvailableSlots UTC.host 3 db 1 1 "2030-01-07" = Returned bistroMonday)
    by (vm_compute; reflexivity).
  assert (H3 : 1 <= slotStep dinner) by (vm_compute; congruence).
  assert (H4 : rulesStartAtOrAfterMidnight db)
    by (intros rule ws [<-|[<-|[]]] Hws; vm_compute in Hws; injection Hws as <-; lia).
  assert (H5 : (0 < 2)%nat) by (lia).
  split; [exact H1|].
  split; [reflexivity|].
  split; [exact H3|].
  split; [exact H4|].
  split; [exact H5|].
  split; [reflexivity|].
  split; [reflexivity|].
  exact (getAvailableSlots_sorted
           UTC.host 3%nat db 1 1 "2030-01-07" bistroMonday dinner 0%nat 2%nat
           (slot "09:00" "10:00" true) (slot "11:00" "12:00" false)
           H1 eq_refl H3 H4 H5 eq_refl eq_refl).
Defined.

Lemma getAvailableSlots_no_duplicates_witness :
  getAvailableSlots UTC.host 3 db 1 1 "2030-01-07" = Returned bistroMonday
  /\ (NoDup (map slotKey (time_slots bistroMonday))).
Proof.
  assert (H1 : getAvailableSlots UTC.host 3 db 1 1 "2030-01-07" = Returned bistroMonday)
    by (vm_compute; reflexivity).
  split; [exact H1|].
  exact (getAvailableSlots_no_duplicates
           UTC.host 3%nat db 1 1 "2030-01-07" bistroMonday
           H1).
Defined.


Lemma listed_available_slot_accepted_witness :
  getAvailableSlots UTC.host 5 Salon.db 1 1 "2030-01-07" = Returned Salon.mondayListing
  /\ selectService Salon.db 1 1 = Some Salon.haircut
  /\ 1 <= slotStep Salon.haircut
  /\ 0 <= duration_minutes Salon.haircut
  /\ 1 <= capacity Salon.haircut
  /\ rulesStartAtOrAfterMidnight Salon.db
  /\ (forall staffId,
              slot_staff_member_id (Salon.staffSlot "09:30" "10:00" true) = Some staffId ->
              staffId <> 0)
  /\ In (Salon.staffSlot "09:30" "10:00" true) (time_slots Salon.mondayListing)
  /\ slot_available (Salon.staffSlot "09:30" "10:00" true) = true
  /\ (isTimeSlotAvailable UTC.host Salon.db 1 1
        (slot_staff_member_id (Salon.staffSlot "09:30" "10:00" true)) "2030-01-07"
        (slot_start_time (Salon.staffSlot "09:30" "10:00" true))
        (slot_end_time (Salon.staffSlot "09:30" "10:00" true)) 1 None =
      {| available := true; reason := None |}).
Proof.
  assert (H1 : getAvailableSlots UTC.host 5 Salon.db 1 1 "2030-01-07" = Returned Salon.mondayListing)
    by (vm_compute; reflexivity).
  assert (H3 : 1 <= slotStep Salon.haircut) by (vm_compute; congruence).
  assert (H4 : 0 <= duration_minutes Salon.haircut) by (vm_compute; congruence).
  assert (H5 : 1 <= capacity Salon.haircut) by (vm_compute; congruence).
  assert (H6 : rulesStartAtOrAfterMidnight Salon.db)
    by (intros rule ws [<-|[]] Hws; vm_compute in Hws; injection Hws as <-; lia).
  assert (H7 : forall staffId,
                     slot_staff_member_id (Salon.staffSlot "09:30" "10:00" true) = Some staffId ->
                     staffId <> 0) by (intros staffId Hid; injection Hid as <-; lia).
  assert (H8 : In (Salon.staffSlot "09:30" "10:00" true) (time_slots Salon.mondayListing))
    by (simpl; tauto).
  split; [exact H1|].
  split; [reflexivity|].
  split; [exact H3|].
  split; [exact H4|].
  split; [exact H5|].
  split; [exact H6|].
  split; [exact H7|].
  split; [exact H8|].
  split; [reflexivity|].
  exact (listed_available_slot_accepted
           UTC.host 5%nat Salon.db 1 1 "2030-01-07" Salon.mondayListing Salon.haircut
           (Salon.staffSlot "09:30" "10:00" true)
           H1 eq_refl H3 H4 H5 H6 H7 H8 eq_refl).
Defined.

Lemma isTimeSlotAvailable_no_staff_overlap_witness :
  available (isTimeSlotAvailable UTC.host Salon.db 1 1 (Some 7) "2030-01-07"
                        "09:30" "10:00" 1 None) = true
  /\ selectService Salon.db 1 1 = Some Salon.haircut
  /\ requires_staff Salon.haircut = true
  /\ 7 <> 0
  /\ In Salon.appointment (bookings Salon.db)
  /\ booking_business_id Salon.appointment = 1
  /\ booking_service_id Salon.appointment = 1
  /\ booking_date Salon.appointment = "2030-01-07"
  /\ (status Salon.appointment = pending \/ status Salon.appointment = confirmed)
  /\ booking_staff_member_id Salon.appointment = Some 7
  /\ @None Z <> Some (booking_id Salon.appointment)
  /\ (timeSlotsOverlap "09:30" "10:00" (booking_start_time Salon.appointment)
        (booking_end_time Salon.appointment) =
      false).
Proof.
  assert (H1 : available (isTimeSlotAvailable UTC.host Salon.db 1 1 (Some 7) "2030-01-07"
                                "09:30" "10:00" 1 None) = true) by (vm_compute; reflexivity).
  assert (H4 : 7 <> 0) by (lia).
  assert (H5 : In Salon.appointment (bookings Salon.db)) by (simpl; tauto).
  assert (H9 : status Salon.appointment = pending \/ status Salon.appointment = confirmed)
    by (right; reflexivity).
  assert (H11 : @None Z <> Some (booking_id Salon.appointment)) by (discriminate).
  split; [exact H1|].
  split; [reflexivity|].
  split; [reflexivity|].
  split; [exact H4|].
  split; [exact H5|].
  split; [reflexivity|].
  split; [reflexivity|].
  split; [reflexivity|].
  split; [exact H9|].
  split; [reflexivity|].
  split; [exact H11|].
  exact (isTimeSlotAvailable_no_staff_overlap
           UTC.host Salon.db 1 1 7 "2030-01-07" "09:30" "10:00" 1 None Salon.haircut
           Salon.appointment
           H1 eq_refl eq_refl H4 H5 eq_refl eq_refl eq_refl H9 eq_refl H11).
Defined.

Lemma isTimeSlotAvailable_pairwise_capacity_witness :
  available (isTimeSlotAvailable UTC.host db 1 1 None "2030-01-07"
                        "10:00" "11:00" 2 None) = true
  /\ selectService db 1 1 = Some dinner
  /\ requires_staff dinner = false
  /\ (2 <= capacity dinner /\
      (forall b : Booking,
       In b (bookings db) ->
       booking_business_id b = 1 ->
       booking_service_id b = 1 ->
       booking_date b = "2030-01-07" ->
       status b = pending \/ status b = confirmed ->
       None <> Some (booking_id b) ->
       timeSlotsOverlap "10:00" "11:00" (booking_start_time b) (booking_end_time b) = true ->
       2 + party_size b <= capacity dinner)).
Proof.
  assert (H1 : available (isTimeSlotAvailable UTC.host db 1 1 None "2030-01-07"
                                "10:00" "11:00" 2 None) = true) by (vm_compute; reflexivity).
  split; [exact H1|].
  split; [reflexivity|].
  split; [reflexivity|].
  exact (isTimeSlotAvailable_pairwise_capacity
           UTC.host db 1 1 None "2030-01-07" "10:00" "11:00" 2 None dinner
           H1 eq_refl eq_refl).
Defined.

Lemma isTimeSlotAvailable_hours_and_closures_witness :
  available (isTimeSlotAvailable UTC.host Salon.db 1 1 (Some 7) "2030-01-07"
                        "09:30" "10:00" 1 None) = true
  /\ ((exists (service : Service) (rule : AvailabilityRule) (rs re s e : Z),
         selectService Salon.db 1 1 = Some service /\
         In rule (availability_rules Salon.db) /\
         rule_is_active rule = true /\
         Num (rule_day_of_week rule) = getDay UTC.host (Date_parse UTC.host "2030-01-07") /\
         (if requires_staff service && truthyOptNumber (Some 7)
          then rule_staff_member_id rule = Some 7
          else rule_business_id rule = Some 1) /\
         timeStringToMinutes (rule_start_time rule) = Num rs /\
         timeStringToMinutes (rule_end_time rule) = Num re /\
         timeStringToMinutes "09:30" = Num s /\
         timeStringToMinutes "10:00" = Num e /\ rs <= s /\ e <= re) /\
      (forall special : SpecialAvailability,
       In special (special_availability Salon.db) ->
       special_business_id special = Some 1 ->
       special_date special = "2030-01-07" ->
       special_is_available special = false ->
       exists w1 w2 : string,
         closureWindow special = Some (w1, w2) /\ timeSlotsOverlap "09:30" "10:00" w1 w2 = false)).
Proof.
  assert (H1 : available (isTimeSlotAvailable UTC.host Salon.db 1 1 (Some 7) "2030-01-07"
                                "09:30" "10:00" 1 None) = true) by (vm_compute; reflexivity).
  split; [exact H1|].
  exact (isTimeSlotAvailable_hours_and_closures
           UTC.host Salon.db 1 1 (Some 7) "2030-01-07" "09:30" "10:00" 1 None
           H1).
Defined.

Lemma isTimeSlotAvailable_exclude_witness :
  1 <> 0
  /\ (isTimeSlotAvailable UTC.host db 1 1 None "2030-01-07" "10:00" "11:00" 3 (Some 1) =
      isTimeSlotAvailable UTC.host (withoutBooking db 1) 1 1 None "2030-01-07" "10:00" "11:00" 3
        None).
Proof.
  assert (H1 : 1 <> 0) by (lia).
  split; [exact H1|].
  exact (isTimeSlotAvailable_exclude
           UTC.host db 1 1 None "2030-01-07" "10:00" "11:00" 3 1
           H1).
Defined.

Lemma updateBooking_without_schedule_change_witness :
  getBookingById db 4
           = Some {| details_booking := row 4 1 1 "dan@example.com" "2030-01-21" "09:00" "10:00"
                                            1 cancelled;
                     details_cancellation_hours := Some 24 |}
  /\ changesSchedule (statusPatch confirmed) = false
  /\ hasAllowedField (statusPatch confirmed) = true
  /\ storeUpdates UTC.platform db 4 (statusPatch confirmed) = true
  /\ (success (snd (updateBooking UTC.platform newYear db 4 (statusPatch confirmed))) = true /\
      statusOf (fst (updateBooking UTC.platform newYear db 4 (statusPatch confirmed))) 4 =
      Some
        (orElse (upd_status (statusPatch confirmed))
           (status
              (details_booking
                 {|
                   details_booking :=
                     row 4 1 1 "dan@example.com" "2030-01-21" "09:00" "10:00" 1 cancelled;
                   details_cancellation_hours := Some 24
                 |})))).
Proof.
  split; [reflexivity|].
  split; [reflexivity|].
  split; [reflexivity|].
  split; [reflexivity|].
  exact (updateBooking_without_schedule_change
           UTC.platform newYear db 4 (statusPatch confirmed)
           {| details_booking := row 4 1 1 "dan@example.com" "2030-01-21" "09:00" "10:00"
                                     1 cancelled;
              details_cancellation_hours := Some 24 |}
           eq_refl eq_refl eq_refl eq_refl).
Defined.

Lemma cancelBooking_twice_witness :
  success (snd (cancelBooking UTC.platform newYear db 1 "ann@example.com" None)) = true
  /\ (cancelBooking UTC.platform monday
        (fst (cancelBooking UTC.platform newYear db 1 "ann@example.com" None)) 1 "ann@example.com"
        (Some "again") =
      (fst (cancelBooking UTC.platform newYear db 1 "ann@example.com" None),
       failure ["Booking already cancelled"])).
Proof.
  assert (H1 : success (snd (cancelBooking UTC.platform newYear db 1 "ann@example.com" None)) = true)
    by (vm_compute; reflexivity).
  split; [exact H1|].
  exact (cancelBooking_twice
           UTC.platform newYear db 1 "ann@example.com" None monday (Some "again")
           H1).
Defined.

Lemma cancelBooking_frees_slot_witness :
  success (snd (cancelBooking UTC.platform newYear db 1 "ann@example.com" None)) = true
  /\ 1 <> 0
  /\ (forall (businessId serviceId : Z) (date : string),
      selectActiveBookings (fst (cancelBooking UTC.platform newYear db 1 "ann@example.com" None))
        businessId serviceId date =
      filter (fun b : Booking => negb (booking_id b =? 1))
        (selectActiveBookings db businessId serviceId date) /\
      (forall (staffMemberId : option Z) (startTime endTime : string) (partySize : Z),
       isTimeSlotAvailable UTC.host
         (fst (cancelBooking UTC.platform newYear db 1 "ann@example.com" None)) businessId serviceId
         staffMemberId date startTime endTime partySize None =
       isTimeSlotAvailable UTC.host db businessId serviceId staffMemberId date startTime endTime
         partySize (Some 1))).
Proof.
  assert (H1 : success (snd (cancelBooking UTC.platform newYear db 1 "ann@example.com" None)) = true)
    by (vm_compute; reflexivity).
  assert (H2 : 1 <> 0) by (lia).
  split; [exact H1|].
  split; [exact H2|].
  exact (cancelBooking_frees_slot
           UTC.platform newYear db 1 "ann@example.com" None
           H1 H2).
Defined.

Lemma updateBooking_reschedule_checked_witness :
  success (snd (updateBooking UTC.platform newYear db 5 (datePatch "2030-01-07"))) = true
  /\ truthyOptString (upd_booking_date (datePatch "2030-01-07")) = true
  /\ noEmptyScheduleField (datePatch "2030-01-07")
  /\ data (snd (updateBooking UTC.platform newYear db 5 (datePatch "2030-01-07")))
           = Some {| details_booking := setFields newYear (datePatch "2030-01-07") false (row 5 1 1 "eve@example.com" "2030-01-21" "10:00" "11:00" 1 completed);
                     details_cancellation_hours := Some 24 |}
  /\ selectService db 1 1 = Some dinner
  /\ In (row 2 1 1 "bob@example.com" "2030-01-07" "10:00" "11:00" 2 pending)
              (bookings (fst (updateBooking UTC.platform newYear db 5 (datePatch "2030-01-07"))))
  /\ booking_id (row 2 1 1 "bob@example.com" "2030-01-07" "10:00" "11:00" 2 pending) <> 5
  /\ booking_business_id (row 2 1 1 "bob@example.com" "2030-01-07" "10:00" "11:00" 2 pending) = 1
  /\ booking_service_id (row 2 1 1 "bob@example.com" "2030-01-07" "10:00" "11:00" 2 pending) = 1
  /\ booking_date (row 2 1 1 "bob@example.com" "2030-01-07" "10:00" "11:00" 2 pending) = "2030-01-07"
  /\ (status (row 2 1 1 "bob@example.com" "2030-01-07" "10:00" "11:00" 2 pending) = pending
            \/ status (row 2 1 1 "bob@example.com" "2030-01-07" "10:00" "11:00" 2 pending) = confirmed)
  /\ (requires_staff dinner = true ->
             booking_staff_member_id (row 2 1 1 "bob@example.com" "2030-01-07" "10:00" "11:00" 2 pending) = None)
  /\ timeSlotsOverlap "10:00" "11:00" "10:00" "11:00" = true
  /\ (requires_staff dinner = false /\
      party_size
        (details_booking
           {|
             details_booking :=
               setFields newYear (datePatch "2030-01-07") false
                 (row 5 1 1 "eve@example.com" "2030-01-21" "10:00" "11:00" 1 completed);
             details_cancellation_hours := Some 24
           |}) +
      party_size (row 2 1 1 "bob@example.com" "2030-01-07" "10:00" "11:00" 2 pending) <=
      capacity dinner).
Proof.
  assert (H1 : success (snd (updateBooking UTC.platform newYear db 5 (datePatch "2030-01-07"))) = true)
    by (vm_compute; reflexivity).
  assert (H3 : noEmptyScheduleField (datePatch "2030-01-07")) by (repeat split; discriminate).
  assert (H4 : data (snd (updateBooking UTC.platform newYear db 5 (datePatch "2030-01-07")))
                   = Some {| details_booking := setFields newYear (datePatch "2030-01-07") false (row 5 1 1 "eve@example.com" "2030-01-21" "10:00" "11:00" 1 completed);
                             details_cancellation_hours := Some 24 |})
    by (vm_compute; reflexivity).
  assert (H6 : In (row 2 1 1 "bob@example.com" "2030-01-07" "10:00" "11:00" 2 pending)
                      (bookings (fst (updateBooking UTC.platform newYear db 5 (datePatch "2030-01-07")))))
    by (right; left; reflexivity).
  assert (H7 : booking_id (row 2 1 1 "bob@example.com" "2030-01-07" "10:00" "11:00" 2 pending) <> 5)
    by (discriminate).
  assert (H11 : status (row 2 1 1 "bob@example.com" "2030-01-07" "10:00" "11:00" 2 pending) = pending
                   \/ status (row 2 1 1 "bob@example.com" "2030-01-07" "10:00" "11:00" 2 pending) = confirmed)
    by (left; reflexivity).
  assert (H12 : requires_staff dinner = true ->
                    booking_staff_member_id (row 2 1 1 "bob@example.com" "2030-01-07" "10:00" "11:00" 2 pending) = None)
    by (discriminate).
  split; [exact H1|].
  split; [reflexivity|].
  split; [exact H3|].
  split; [exact H4|].
  split; [reflexivity|].
  split; [exact H6|].
  split; [exact H7|].
  split; [reflexivity|].
  split; [reflexivity|].
  split; [reflexivity|].
  split; [exact H11|].
  split; [exact H12|].
  split; [reflexivity|].
  exact (updateBooking_reschedule_checked
           UTC.platform newYear db 5 (datePatch "2030-01-07")
           {| details_booking := setFields newYear (datePatch "2030-01-07") false (row 5 1 1 "eve@example.com" "2030-01-21" "10:00" "11:00" 1 completed);
              details_cancellation_hours := Some 24 |}
           dinner (row 2 1 1 "bob@example.com" "2030-01-07" "10:00" "11:00" 2 pending)
           H1 eq_refl H3 H4 eq_refl H6 H7 eq_refl eq_refl eq_refl H11 H12 eq_refl).
Defined.

Lemma createBooking_stores_valid_row_witness :
  created (snd (createBooking UTC.host Salon.noPhone Salon.takesAll newYear 2 Salon.db
                         (Salon.request 1 1 (Some 7) "09:30" "10:00" None))) = true
  /\ (let row := newRow newYear 2 (Salon.request 1 1 (Some 7) "09:30" "10:00" None) in
      fst
        (createBooking UTC.host Salon.noPhone Salon.takesAll newYear 2 Salon.db
           (Salon.request 1 1 (Some 7) "09:30" "10:00" None)) =
      insertBooking Salon.db row /\
      status row = pending /\
      (exists businessRow : Business,
         In businessRow (business Salon.db) /\
         business_id businessRow = booking_business_id row /\ business_is_active businessRow = true) /\
      (exists service : Service,
         In service (services Salon.db) /\
         service_id service = booking_service_id row /\
         service_business_id service = booking_business_id row /\ service_is_active service = true) /\
      timeFormatTest (booking_start_time row) = true /\
      timeFormatTest (booking_end_time row) = true /\
      (exists s e : Z,
         timeStringToMinutes (booking_start_time row) = Num s /\
         timeStringToMinutes (booking_end_time row) = Num e /\ 0 <= s < e) /\
      lt (Date_parse UTC.host (booking_date row)) (Num (Date_setHours0 UTC.host newYear)) = false /\
      ((forall b : Booking, In b (bookings Salon.db) -> booking_id b <> 2) ->
       exists details : BookingDetails,
         created_data
           (snd
              (createBooking UTC.host Salon.noPhone Salon.takesAll newYear 2 Salon.db
                 (Salon.request 1 1 (Some 7) "09:30" "10:00" None))) =
         Some details /\ details_booking details = row)).
Proof.
  assert (H1 : created (snd (createBooking UTC.host Salon.noPhone Salon.takesAll newYear 2 Salon.db
                                 (Salon.request 1 1 (Some 7) "09:30" "10:00" None))) = true)
    by (vm_compute; reflexivity).
  split; [exact H1|].
  exact (createBooking_stores_valid_row
           UTC.host Salon.noPhone Salon.takesAll newYear 2 Salon.db
           (Salon.request 1 1 (Some 7) "09:30" "10:00" None)
           H1).
Defined.

Lemma createBooking_failure_writes_nothing_witness :
  created (snd (createBooking UTC.host Salon.noPhone Salon.takesAll newYear 2 Salon.db
                         (Salon.request 1 1 (Some 7) "09:00" "09:30" None))) = false
  /\ (fst
        (createBooking UTC.host Salon.noPhone Salon.takesAll newYear 2 Salon.db
           (Salon.request 1 1 (Some 7) "09:00" "09:30" None)) =
      Salon.db /\
      exists errs : list string,
        errs <> [] /\
        created_errors
          (snd
             (createBooking UTC.host Salon.noPhone Salon.takesAll newYear 2 Salon.db
                (Salon.request 1 1 (Some 7) "09:00" "09:30" None))) =
        Some errs).
Proof.
  assert (H1 : created (snd (createBooking UTC.host Salon.noPhone Salon.takesAll newYear 2 Salon.db
                                 (Salon.request 1 1 (Some 7) "09:00" "09:30" None))) = false)
    by (vm_compute; reflexivity).
  split; [exact H1|].
  exact (createBooking_failure_writes_nothing
           UTC.host Salon.noPhone Salon.takesAll newYear 2 Salon.db
           (Salon.request 1 1 (Some 7) "09:00" "09:30" None)
           H1).
Defined.

Lemma createBooking_checked_against_ledger_witness :
  created (snd (createBooking UTC.host Salon.noPhone Salon.takesAll newYear 7 db
                         (Salon.request 1 1 None "10:00" "11:00" (Some 2)))) = true
  /\ selectService db 1 1 = Some dinner
  /\ In (row 1 1 1 "Ann@Example.com" "2030-01-07" "10:00" "11:00" 2 confirmed) (bookings db)
  /\ booking_business_id (row 1 1 1 "Ann@Example.com" "2030-01-07" "10:00" "11:00" 2 confirmed) = 1
  /\ booking_service_id (row 1 1 1 "Ann@Example.com" "2030-01-07" "10:00" "11:00" 2 confirmed) = 1
  /\ booking_date (row 1 1 1 "Ann@Example.com" "2030-01-07" "10:00" "11:00" 2 confirmed) = "2030-01-07"
  /\ (status (row 1 1 1 "Ann@Example.com" "2030-01-07" "10:00" "11:00" 2 confirmed) = pending
            \/ status (row 1 1 1 "Ann@Example.com" "2030-01-07" "10:00" "11:00" 2 confirmed) = confirmed)
  /\ (requires_staff dinner = true ->
             booking_staff_member_id (row 1 1 1 "Ann@Example.com" "2030-01-07" "10:00" "11:00" 2 confirmed) = None)
  /\ timeSlotsOverlap "10:00" "11:00" "10:00" "11:00" = true
  /\ (requires_staff dinner = false /\
      orElse (new_party_size (Salon.request 1 1 None "10:00" "11:00" (Some 2))) 1 +
      party_size (row 1 1 1 "Ann@Example.com" "2030-01-07" "10:00" "11:00" 2 confirmed) <=
      capacity dinner).
Proof.
  assert (H1 : created (snd (createBooking UTC.host Salon.noPhone Salon.takesAll newYear 7 db
                                 (Salon.request 1 1 None "10:00" "11:00" (Some 2)))) = true)
    by (vm_compute; reflexivity).
  assert (H3 : In (row 1 1 1 "Ann@Example.com" "2030-01-07" "10:00" "11:00" 2 confirmed) (bookings db))
    by (left; reflexivity).
  assert (H7 : status (row 1 1 1 "Ann@Example.com" "2030-01-07" "10:00" "11:00" 2 confirmed) = pending
                   \/ status (row 1 1 1 "Ann@Example.com" "2030-01-07" "10:00" "11:00" 2 confirmed) = confirmed)
    by (right; reflexivity).
  assert (H8 : requires_staff dinner = true ->
                    booking_staff_member_id (row 1 1 1 "Ann@Example.com" "2030-01-07" "10:00" "11:00" 2 confirmed) = None)
    by (discriminate).
  split; [exact H1|].
  split; [reflexivity|].
  split; [exact H3|].
  split; [reflexivity|].
  split; [reflexivity|].
  split; [reflexivity|].
  split; [exact H7|].
  split; [exact H8|].
  split; [reflexivity|].
  exact (createBooking_checked_against_ledger
           UTC.host Salon.noPhone Salon.takesAll newYear 7 db
           (Salon.request 1 1 None "10:00" "11:00" (Some 2)) dinner
           (row 1 1 1 "Ann@Example.com" "2030-01-07" "10:00" "11:00" 2 confirmed)
           H1 eq_refl H3 eq_refl eq_refl eq_refl H7 H8 eq_refl).
Defined.

Lemma createBooking_staff_slot_taken_witness :
  created (snd (createBooking UTC.host Salon.noPhone Salon.takesAll newYear 2 Salon.db
                         (Salon.request 1 1 (Some 7) "09:30" "10:00" None))) = true
  /\ selectService Salon.db 1 1 = Some Salon.haircut
  /\ requires_staff Salon.haircut = true
  /\ new_business_id (Salon.request 1 1 (Some 7) "09:45" "10:15" None)
           = new_business_id (Salon.request 1 1 (Some 7) "09:30" "10:00" None)
  /\ new_service_id (Salon.request 1 1 (Some 7) "09:45" "10:15" None)
           = new_service_id (Salon.request 1 1 (Some 7) "09:30" "10:00" None)
  /\ new_staff_member_id (Salon.request 1 1 (Some 7) "09:45" "10:15" None)
           = new_staff_member_id (Salon.request 1 1 (Some 7) "09:30" "10:00" None)
  /\ new_booking_date (Salon.request 1 1 (Some 7) "09:45" "10:15" None)
           = new_booking_date (Salon.request 1 1 (Some 7) "09:30" "10:00" None)
  /\ timeSlotsOverlap "09:45" "10:15" "09:30" "10:00" = true
  /\ (created
        (snd
           (createBooking UTC.host Salon.noPhone Salon.takesAll monday 4
              (createBookings UTC.host Salon.noPhone Salon.takesAll
                 [(newYear, 3, Salon.request 1 1 (Some 7) "10:00" "10:30" None)]
                 (fst
                    (createBooking UTC.host Salon.noPhone Salon.takesAll newYear 2 Salon.db
                       (Salon.request 1 1 (Some 7) "09:30" "10:00" None))))
              (Salon.request 1 1 (Some 7) "09:45" "10:15" None))) =
      false).
Proof.
  assert (H1 : created (snd (createBooking UTC.host Salon.noPhone Salon.takesAll newYear 2 Salon.db
                                 (Salon.request 1 1 (Some 7) "09:30" "10:00" None))) = true)
    by (vm_compute; reflexivity).
  split; [exact H1|].
  split; [reflexivity|].
  split; [reflexivity|].
  split; [reflexivity|].
  split; [reflexivity|].
  split; [reflexivity|].
  split; [reflexivity|].
  split; [reflexivity|].
  exact (createBooking_staff_slot_taken
           UTC.host Salon.noPhone Salon.takesAll newYear 2 Salon.db
           (Salon.request 1 1 (Some 7) "09:30" "10:00" None) Salon.haircut
           [(newYear, 3, Salon.request 1 1 (Some 7) "10:00" "10:30" None)] monday 4
           (Salon.request 1 1 (Some 7) "09:45" "10:15" None)
           H1 eq_refl eq_refl eq_refl eq_refl eq_refl eq_refl eq_refl).
Defined.
